(** * Whiteboard processor: a shallow embedding of [app/process_whiteboard.py]
      and [eval/run_eval.py], and the properties of their specification.

    Python values are modelled as follows.
    - [str] is [string]: the characters are the code points below 256.
    - [bytes] is [list byte].
    - [int] is [Z].
    - an exception of class [Exception] is a value [Raise msg] of the
      [result] type; [sys.exit] is a separate outcome of [main].
    - the remote provider, the HTTP client, the clock, the storage under the
      output files and the encoding of text files are inputs: a [world]
      record of oracles, indexed by the number of the call where the answer
      can change from call to call, and a [datetime] value per reading of
      the clock.
    - the directory trees the programs touch have a fixed layout, so the
      filesystem is a record with one finite map per root.
    - what the programs print on the console is left out: the calls that
      print are taken to return. *)

From Stdlib Require Import ZArith NArith Lia List Bool.
From Stdlib.Strings Require Import Ascii String Byte.
From stdpp Require Import gmap strings list sorting.

Local Open Scope string_scope.

(* ===================================================================== *)
(** ** Exceptions as values *)

Inductive result (A : Type) : Type :=
| Ok (a : A)
| Raise (msg : string).
Arguments Ok {A} a.
Arguments Raise {A} msg.

(** Sequencing: the first exception raised ends the computation. Written
    [x ← r; k] below. *)
#[global] Instance result_bind : MBind result := fun A B k r =>
  match r with
  | Ok a => k a
  | Raise e => Raise e
  end.

Definition is_ok {A} (r : result A) : bool :=
  match r with Ok _ => true | Raise _ => false end.

(* ===================================================================== *)
(** ** Python string and path primitives *)

Module Py.

(** [str.startswith]. *)
Definition startswith (s pre : string) : bool := String.prefix pre s.

(** The lowercase of a code point below 256: the letters A to Z and the
    accented capitals of Latin-1 (all of 192 to 222 but the sign at 215). *)
Definition ascii_lower (c : ascii) : ascii :=
  let n := N_of_ascii c in
  if ((65 <=? n) && (n <=? 90)
      || (192 <=? n) && (n <=? 214)
      || (216 <=? n) && (n <=? 222))%N
  then ascii_of_N (n + 32) else c.

(** [str.lower]. *)
Fixpoint lower (s : string) : string :=
  match s with
  | EmptyString => EmptyString
  | String c r => String (ascii_lower c) (lower r)
  end.

(** [s.replace(old, new)] for one-character [old] and [new]. *)
Fixpoint replace (old new : ascii) (s : string) : string :=
  match s with
  | EmptyString => EmptyString
  | String c r => String (if Ascii.eqb c old then new else c) (replace old new r)
  end.

(** [s.rfind(c)], [None] standing for -1. *)
Fixpoint rfind (c : ascii) (s : string) : option nat :=
  match s with
  | EmptyString => None
  | String a r =>
      match rfind c r with
      | Some i => Some (S i)
      | None => if Ascii.eqb a c then Some 0 else None
      end
  end.

(** [PurePath.suffix] of a file name: the part from the last dot on, when
    that dot is neither the first nor the last character. *)
Definition suffix (name : string) : string :=
  match rfind "." name with
  | Some i =>
      if Nat.ltb 0 i && Nat.ltb i (String.length name - 1)
      then String.substring i (String.length name - i) name
      else ""
  | None => ""
  end.

(** [PurePath.stem]: the name without its suffix. *)
Definition stem (name : string) : string :=
  String.substring 0 (String.length name - String.length (suffix name)) name.

Definition digit (n : nat) : ascii := ascii_of_nat (48 + n mod 10).

(** The decimal digits of [n], least significant first; [fuel] bounds the
    number of digits and [S n] always suffices. *)
Fixpoint digits_rev (fuel n : nat) : list ascii :=
  match fuel with
  | O => []
  | S f => digit n :: (if Nat.ltb n 10 then [] else digits_rev f (n / 10))
  end.

Definition str_of_nat (n : nat) : string :=
  string_of_list_ascii (rev (digits_rev (S n) n)).

(** Zero-padding on the left up to [width] characters. *)
Definition zfill (width : nat) (s : string) : string :=
  string_of_list_ascii (repeat "0"%char (width - String.length s)) ++ s.

(** [format(z, "02d")]: the sign counts in the width. *)
Definition format_02d (z : Z) : string :=
  if (z <? 0)%Z then "-" ++ zfill 1 (str_of_nat (Z.abs_nat z))
  else zfill 2 (str_of_nat (Z.to_nat z)).

(** A reading of [datetime.now()]. *)
Record datetime := {
  year : nat; month : nat; day : nat;
  hour : nat; minute : nat; second : nat
}.

(** [strftime("%Y%m%d")]. *)
Definition strftime_Ymd (t : datetime) : string :=
  zfill 4 (str_of_nat (year t)) ++ zfill 2 (str_of_nat (month t))
  ++ zfill 2 (str_of_nat (day t)).

(** [strftime("%Y%m%d-%H%M%S")]. *)
Definition strftime_Ymd_HMS (t : datetime) : string :=
  strftime_Ymd t ++ "-" ++ zfill 2 (str_of_nat (hour t))
  ++ zfill 2 (str_of_nat (minute t)) ++ zfill 2 (str_of_nat (second t)).

(** Truthiness of a [str]. *)
Definition nonempty (s : string) : bool :=
  match s with EmptyString => false | _ => true end.

(** [str.isspace] on a code point below 256: the controls 9 to 13 and 28 to
    31, the space, and the code points 133 and 160. *)
Definition is_space (c : ascii) : bool :=
  let n := N_of_ascii c in
  ((9 <=? n) && (n <=? 13) || (28 <=? n) && (n <=? 32)
   || (n =? 133) || (n =? 160))%N.

(** [str.lstrip], [str.rstrip] and [str.strip] without argument. *)
Fixpoint lstrip (s : string) : string :=
  match s with
  | EmptyString => EmptyString
  | String c r => if is_space c then lstrip r else s
  end.

Fixpoint rstrip (s : string) : string :=
  match s with
  | EmptyString => EmptyString
  | String c r =>
      match rstrip r with
      | EmptyString => if is_space c then EmptyString else String c EmptyString
      | kept => String c kept
      end
  end.

Definition strip (s : string) : string := rstrip (lstrip s).

End Py.

(* ===================================================================== *)
(** ** Base64 ([base64.b64encode], RFC 4648 with padding) *)

Module Base64.

Definition alphabet : string :=
  "ABCDEFGHIJKLMNOPQRSTUVWXYZabcdefghijklmnopqrstuvwxyz0123456789+/".

Definition pad : ascii := "="%char.

(** The character of a 6-bit value. *)
Definition sextet_char (n : N) : ascii :=
  match String.get (N.to_nat n) alphabet with
  | Some c => c
  | None => pad
  end.

(** The 6-bit value of an alphabet character. *)
Definition char_sextet (c : ascii) : option N :=
  let n := N_of_ascii c in
  if ((65 <=? n) && (n <=? 90))%N then Some (n - 65)%N
  else if ((97 <=? n) && (n <=? 122))%N then Some (n - 71)%N
  else if ((48 <=? n) && (n <=? 57))%N then Some (n + 4)%N
  else if (n =? 43)%N then Some 62%N
  else if (n =? 47)%N then Some 63%N
  else None.

Definition byte_of_N (n : N) : byte :=
  match Byte.of_N n with Some b => b | None => x00 end.

Definition encode3 (a b c : byte) : string :=
  let x := Byte.to_N a in
  let y := Byte.to_N b in
  let z := Byte.to_N c in
  String (sextet_char (x / 4))
    (String (sextet_char ((x mod 4) * 16 + y / 16))
       (String (sextet_char ((y mod 16) * 4 + z / 64))
          (String (sextet_char (z mod 64)) "")))%N.

Definition encode2 (a b : byte) : string :=
  let x := Byte.to_N a in
  let y := Byte.to_N b in
  String (sextet_char (x / 4))
    (String (sextet_char ((x mod 4) * 16 + y / 16))
       (String (sextet_char ((y mod 16) * 4))
          (String pad "")))%N.

Definition encode1 (a : byte) : string :=
  let x := Byte.to_N a in
  String (sextet_char (x / 4))
    (String (sextet_char ((x mod 4) * 16))
       (String pad (String pad "")))%N.

Fixpoint b64encode (data : list byte) : string :=
  match data with
  | [] => ""
  | [a] => encode1 a
  | [a; b] => encode2 a b
  | a :: b :: c :: rest => encode3 a b c ++ b64encode rest
  end.

Definition byte1 (s1 s2 : N) : byte := byte_of_N (s1 * 4 + s2 / 16)%N.
Definition byte2 (s2 s3 : N) : byte := byte_of_N ((s2 mod 16) * 16 + s3 / 4)%N.
Definition byte3 (s3 s4 : N) : byte := byte_of_N ((s3 mod 4) * 64 + s4)%N.

(** A strict decoder: groups of four characters, padding only in the last
    group. *)
Fixpoint b64decode (s : string) : option (list byte) :=
  match s with
  | EmptyString => Some []
  | String c1 (String c2 (String c3 (String c4 rest))) =>
      match char_sextet c1, char_sextet c2 with
      | Some s1, Some s2 =>
          match char_sextet c3, char_sextet c4 with
          | Some s3, Some s4 =>
              match b64decode rest with
              | Some tl => Some (byte1 s1 s2 :: byte2 s2 s3 :: byte3 s3 s4 :: tl)
              | None => None
              end
          | Some s3, None =>
              if Ascii.eqb c4 pad && negb (Py.nonempty rest)
              then Some [byte1 s1 s2; byte2 s2 s3] else None
          | None, None =>
              if Ascii.eqb c3 pad && Ascii.eqb c4 pad && negb (Py.nonempty rest)
              then Some [byte1 s1 s2] else None
          | None, Some _ => None
          end
      | _, _ => None
      end
  | _ => None
  end.

End Base64.

(* ===================================================================== *)
(** ** Stateful code: a state and exception monad *)

(** A computation over a store [St] either returns or raises, and leaves a
    store behind in both cases. *)
Definition io (St A : Type) : Type := St -> result A * St.

#[global] Instance io_ret {St} : MRet (io St) := fun A a s => (Ok a, s).

#[global] Instance io_bind {St} : MBind (io St) := fun A B k m s =>
  match m s with
  | (Ok a, s') => k a s'
  | (Raise e, s') => (Raise e, s')
  end.

Definition raise {St A} (msg : string) : io St A := fun s => (Raise msg, s).

Definition lift {St A} (r : result A) : io St A := fun s => (r, s).

Definition get_state {St} : io St St := fun s => (Ok s, s).

(** [try: m  except Exception as e: handler e]. *)
Definition try_except {St A} (m : io St A) (handler : string -> io St A) : io St A :=
  fun s =>
    match m s with
    | (Ok a, s') => (Ok a, s')
    | (Raise e, s') => handler e s'
    end.

(* ===================================================================== *)
(** ** Python dictionaries with string keys, in insertion order *)

Fixpoint dict_get {V} (k : string) (d : list (string * V)) : option V :=
  match d with
  | [] => None
  | (k', v) :: rest => if String.eqb k k' then Some v else dict_get k rest
  end.

Definition dict_keys {V} (d : list (string * V)) : list string := map fst d.

(** [sorted] on names: lexicographic on the characters. *)
Definition sorted (l : list string) : list string := merge_sort String.le l.

(* ===================================================================== *)
(** ** Values returned by the provider *)

(** What the code observes of a Python value: whether it is [None], whether
    it is a [str], its [url] attribute when it has one, the items it yields
    when it has [__iter__], its [str()] form and its truth value. *)
#[warnings="-register-all"]
Inductive pyval : Type :=
| PNone
| PStr (s : string)
| PObj (url : option pyval) (items : option (list pyval)) (text : string)
       (truth : bool).

(** A request payload: a dict literal of strings and lists of strings. *)
#[warnings="-register-all"]
Inductive jval : Type :=
| JStr (s : string)
| JList (l : list jval).

Definition payload : Type := list (string * jval).

Module Value.

(** [hasattr(v, 'url')] and [v.url]. *)
Definition url_attr (v : pyval) : option pyval :=
  match v with
  | PObj u _ _ _ => u
  | _ => None
  end.

(** Iterating a [str] yields its characters as one-character strings. *)
Definition chars (s : string) : list pyval :=
  map (fun c => PStr (String c EmptyString)) (list_ascii_of_string s).

(** [hasattr(v, '__iter__')] and the items of [for item in v]. *)
Definition iter_items (v : pyval) : option (list pyval) :=
  match v with
  | PNone => None
  | PStr s => Some (chars s)
  | PObj _ it _ _ => it
  end.

(** [str(v)]. *)
Definition str_of (v : pyval) : string :=
  match v with
  | PNone => "None"
  | PStr s => s
  | PObj _ _ t _ => t
  end.

(** [bool(v)]. *)
Definition truthy (v : pyval) : bool :=
  match v with
  | PNone => false
  | PStr s => Py.nonempty s
  | PObj _ _ _ b => b
  end.

(** [isinstance(v, str) and v.startswith('http')]. *)
Definition is_http_str (v : pyval) : bool :=
  match v with
  | PStr s => Py.startswith s "http"
  | _ => false
  end.

End Value.

(** What the storage does with [open(path, 'wb')] followed by [f.write]
    and the close of the file, once the path itself is free: both succeed;
    [open] raises (a name too long for the filesystem, a permission) and
    nothing is created; or [open] creates or truncates the file and the
    write or the close raises, after [kept] bytes have reached the file. *)
Inductive write_outcome : Type :=
| Written
| OpenFails (e : string)
| WriteFails (kept : nat) (e : string).

(** The collaborators outside the program: the provider ([replicate.run]),
    the HTTP client ([httpx.get] followed by [raise_for_status], giving
    [response.content]), the clock, the builtin [int] on strings, the
    environment variable holding the credential, the storage under the
    output files (asked with the directory and the name of the file), and
    the encoding of a text file. The first three and the storage are indexed
    by the number of the call. *)
Record world := {
  replicate_run : nat -> string -> payload -> result pyval;
  httpx_get : nat -> pyval -> result (list byte);
  clock : nat -> Py.datetime;
  int_of_str : string -> option Z;
  REPLICATE_API_KEY : option string;
  disk : nat -> string -> string -> write_outcome;
  encode_text : string -> list byte
}.

(** How a run of [main] ends. *)
Inductive outcome : Type :=
| Returned
| Exit (code : Z)
| Uncaught (msg : string).

(** A directory entry one level below a root: a regular file with its
    bytes, or a directory with its own entries; an entry of such a
    directory is a file or a subdirectory. *)
Inductive entry : Type :=
| EFile (data : list byte)
| EDir.

Inductive node : Type :=
| NFile (data : list byte)
| NDir (children : gmap string entry).

(* ===================================================================== *)
(** ** [app/process_whiteboard.py] *)

Module App.

Definition SYSTEM_PROMPT : string :=
"Transform this whiteboard photograph into a clean, professional diagram.

Create a NEW image with:
- Clean, solid MATTE WHITE background (not the original whiteboard)
- Clear, legible text preserving the original wording exactly
- Professional lines, arrows, and shapes with a hand-drawn sketch aesthetic
- Subtle colors to distinguish elements and improve clarity

Preserve the layout and spatial relationships. Use standard icons where appropriate (cylinders for databases, rectangles for systems). Fix incomplete elements. Omit board edges, reflections, erasers, and other incidental items from the photo.

The result should look like a polished whiteboard diagram ready for a professional presentation.".

Definition IMAGE_EXTENSIONS : list string :=
  [".png"; ".jpg"; ".jpeg"; ".webp"; ".gif"; ".bmp"].

Definition API_DELAY_SECONDS : nat := 2.

Record model_config := {
  id : string;
  description : string;
  input_fn : string -> string -> payload
}.

Definition MODELS : list (string * model_config) :=
  [ ("nano-banana",
     {| id := "google/nano-banana";
        description := "Google Gemini 2.5 Flash - fast, good quality (default)";
        input_fn := fun prompt image_uri =>
          [ ("prompt", JStr prompt);
            ("image_input", JList [JStr image_uri]);
            ("output_format", JStr "png") ] |});
    ("nano-banana-pro",
     {| id := "google/nano-banana-pro";
        description := "Google Gemini 3 Pro - highest quality, text rendering";
        input_fn := fun prompt image_uri =>
          [ ("prompt", JStr prompt);
            ("image_input", JList [JStr image_uri]);
            ("output_format", JStr "png") ] |});
    ("flux-kontext-pro",
     {| id := "black-forest-labs/flux-kontext-pro";
        description := "FLUX Kontext Pro - strong image editing";
        input_fn := fun prompt image_uri =>
          [ ("prompt", JStr prompt);
            ("input_image", JStr image_uri);
            ("aspect_ratio", JStr "match_input_image");
            ("output_format", JStr "png") ] |});
    ("flux-1.1-pro",
     {| id := "black-forest-labs/flux-1.1-pro";
        description := "FLUX 1.1 Pro - composition guidance";
        input_fn := fun prompt image_uri =>
          [ ("prompt", JStr prompt);
            ("image_prompt", JStr image_uri);
            ("aspect_ratio", JStr "1:1");
            ("output_format", JStr "png") ] |});
    ("qwen-image-edit",
     {| id := "qwen/qwen-image-edit";
        description := "Qwen Image Edit - precise text editing";
        input_fn := fun prompt image_uri =>
          [ ("prompt", JStr prompt);
            ("image", JStr image_uri);
            ("output_format", JStr "png") ] |});
    ("qwen-image-edit-plus",
     {| id := "qwen/qwen-image-edit-plus";
        description := "Qwen Image Edit Plus - enhanced editing";
        input_fn := fun prompt image_uri =>
          [ ("prompt", JStr prompt);
            ("image", JList [JStr image_uri]);
            ("output_format", JStr "png") ] |}) ].

Definition DEFAULT_MODEL : string := "nano-banana".

(** The three roots under [images/]: [originals/queue] (which may be
    missing), [originals/processed] and [enhanced], each mapping a name to
    what lies there. A root that does not exist yet and an empty one are the
    same map: both [mkdir(parents=True, exist_ok=True)] calls on a root
    leave it as it is. *)
Record fs := {
  queue : option (gmap string node);
  processed : gmap string node;
  enhanced : gmap string node
}.

Definition queue_lookup (s : fs) (name : string) : option node :=
  q ← queue s; q !! name.

Definition with_enhanced (s : fs) (e : gmap string node) : fs :=
  {| queue := queue s; processed := processed s; enhanced := e |}.

Definition check_api_key (w : world) : option string :=
  match REPLICATE_API_KEY w with
  | Some k => if Py.nonempty k then Some k else None
  | None => None
  end.

Definition is_dir (n : node) : bool :=
  match n with NDir _ => true | NFile _ => false end.

(** [None] is the [sys.exit(1)] of a missing queue directory. *)
Definition get_queue_folders (s : fs) : option (list string) :=
  match queue s with
  | None => None
  | Some q => Some (sorted (map fst (filter (fun kv => is_dir kv.2 = true) (map_to_list q))))
  end.

Definition is_image (kv : string * entry) : bool :=
  match kv.2 with
  | EFile _ => bool_decide (Py.lower (Py.suffix kv.1) ∈ IMAGE_EXTENSIONS)
  | EDir => false
  end.

Definition get_images_in_folder (folder : string) : io fs (list string) :=
  fun s =>
    match queue_lookup s folder with
    | Some (NDir files) =>
        (Ok (sorted (map fst (filter (fun kv => is_image kv = true) (map_to_list files)))), s)
    | Some (NFile _) => (Raise "NotADirectoryError", s)
    | None => (Raise "FileNotFoundError", s)
    end.

Definition generate_descriptive_name (now : Py.datetime)
    (folder_name : string) (index total : Z) : string :=
  let timestamp := Py.strftime_Ymd now in
  let clean_name :=
    Py.lower (Py.replace "_" "-" (Py.replace " " "-" folder_name)) in
  if (total =? 1)%Z
  then clean_name ++ "-enhanced-" ++ timestamp ++ ".png"
  else clean_name ++ "-" ++ Py.format_02d index ++ "-enhanced-" ++ timestamp ++ ".png".

(** [open(image_path, "rb").read()] for [image_path] = queue/folder/name. *)
Definition read_image (folder name : string) : io fs (list byte) :=
  fun s =>
    match queue_lookup s folder with
    | Some (NDir files) =>
        match files !! name with
        | Some (EFile data) => (Ok data, s)
        | Some EDir => (Raise "IsADirectoryError", s)
        | None => (Raise "FileNotFoundError", s)
        end
    | Some (NFile _) => (Raise "NotADirectoryError", s)
    | None => (Raise "FileNotFoundError", s)
    end.

Definition mime_types : list (string * string) :=
  [ (".png", "image/png"); (".jpg", "image/jpeg"); (".jpeg", "image/jpeg");
    (".webp", "image/webp"); (".gif", "image/gif"); (".bmp", "image/bmp") ].

(** The part of [image_to_data_uri] after the file is read. *)
Definition data_uri (name : string) (image_data : list byte) : string :=
  let suffix := Py.lower (Py.suffix name) in
  let mime_type := default "image/png" (dict_get suffix mime_types) in
  let b64_data := Base64.b64encode image_data in
  "data:" ++ mime_type ++ ";base64," ++ b64_data.

Definition image_to_data_uri (folder name : string) : io fs string :=
  image_data ← read_image folder name;
  mret (data_uri name image_data).

Definition get_output_url (output : pyval) : pyval :=
  let fix scan (items : list pyval) : option pyval :=
    match items with
    | [] => None
    | item :: rest =>
        match Value.url_attr item with
        | Some u => Some u
        | None => if Value.is_http_str item then Some item else scan rest
        end
    end in
  match output with
  | PNone => PNone
  | _ =>
      match Value.url_attr output with
      | Some u => u
      | None =>
          if Value.is_http_str output then output
          else
            match from_option scan None (Value.iter_items output) with
            | Some found => found
            | None =>
                let output_str := Value.str_of output in
                if Py.startswith output_str "http" then PStr output_str else PNone
            end
      end
  end.

(** [output_path.parent.mkdir(parents=True, exist_ok=True)] for
    [output_path] = enhanced/dir/name. *)
Definition mkdir_enhanced (dir : string) : io fs unit :=
  fun s =>
    match enhanced s !! dir with
    | Some (NDir _) => (Ok tt, s)
    | Some (NFile _) => (Raise "FileExistsError", s)
    | None => (Ok tt, with_enhanced s (<[dir := NDir ∅]> (enhanced s)))
    end.

(** [with open(output_path, 'wb') as f: f.write(content)]: [open] creates
    the file or empties the one there, before anything is written. *)
Definition write_enhanced (w : world) (tick : nat) (dir name : string)
    (content : list byte) : io fs unit :=
  fun s =>
    match enhanced s !! dir with
    | Some (NDir files) =>
        match files !! name with
        | Some EDir => (Raise "IsADirectoryError", s)
        | _ =>
            let holding data :=
              with_enhanced s
                (<[dir := NDir (<[name := EFile data]> files)]> (enhanced s)) in
            match disk w tick dir name with
            | OpenFails e => (Raise e, s)
            | WriteFails kept e => (Raise e, holding (take kept content))
            | Written => (Ok tt, holding content)
            end
        end
    | Some (NFile _) => (Raise "NotADirectoryError", s)
    | None => (Raise "FileNotFoundError", s)
    end.

(** [image_path] is queue/folder/image and [output_path] is
    enhanced/out_dir/out_name; [tick] numbers the remote calls. *)
Definition process_image (w : world) (tick : nat) (folder image : string)
    (out_dir out_name : string) (model_name : string) : io fs bool :=
  try_except
    (model_config ← lift (from_option Ok (Raise "KeyError") (dict_get model_name MODELS));
     image_uri ← image_to_data_uri folder image;
     let inputs := input_fn model_config SYSTEM_PROMPT image_uri in
     output ← lift (replicate_run w tick (id model_config) inputs);
     let output_url := get_output_url output in
     if Value.truthy output_url then
       content ← lift (httpx_get w tick output_url);
       _ ← mkdir_enhanced out_dir;
       _ ← write_enhanced w tick out_dir out_name content;
       mret true
     else mret false)
    (fun e => mret false).

(** [Path.rename] of queue/name onto processed/dest, with the rules of
    POSIX [rename(2)]: a directory replaces an empty directory only, a file
    replaces a file only. *)
Definition rename_to_processed (name dest : string) : io fs unit :=
  fun s =>
    match queue s with
    | None => (Raise "FileNotFoundError", s)
    | Some q =>
        let moved n :=
          (Ok tt, {| queue := Some (delete name q);
                     processed := <[dest := n]> (processed s);
                     enhanced := enhanced s |}) in
        match q !! name with
        | None => (Raise "FileNotFoundError", s)
        | Some (NDir files) =>
            match processed s !! dest with
            | None => moved (NDir files)
            | Some (NDir old) =>
                if bool_decide (old = ∅) then moved (NDir files)
                else (Raise "OSError: directory not empty", s)
            | Some (NFile _) => (Raise "NotADirectoryError", s)
            end
        | Some (NFile data) =>
            match processed s !! dest with
            | Some (NDir _) => (Raise "IsADirectoryError", s)
            | _ => moved (NFile data)
            end
        end
    end.

Definition move_to_processed (now : Py.datetime) (folder : string) : io fs string :=
  s ← get_state;
  let destination := folder in
  let destination :=
    if bool_decide (is_Some (processed s !! destination))
    then folder ++ "-" ++ Py.strftime_Ymd_HMS now
    else destination in
  _ ← rename_to_processed folder destination;
  mret destination.

(** The loop of [process_folder]: [i] is the index [enumerate(images, 1)]
    gives the head of [images]. The progress display and the delay between
    calls leave no trace in the store or the result. *)
Fixpoint process_images (w : world) (folder model_name : string) (total : nat)
    (i : nat) (images : list string) (success_count : nat) : io fs nat :=
  match images with
  | [] => mret success_count
  | image_path :: rest =>
      let output_name :=
        generate_descriptive_name (clock w i) folder (Z.of_nat i) (Z.of_nat total) in
      ok ← process_image w i folder image_path folder output_name model_name;
      process_images w folder model_name total (S i) rest
        (if ok : bool then S success_count else success_count)
  end.

Definition process_folder (w : world) (folder model_name : string)
    : io fs (nat * nat) :=
  images ← get_images_in_folder folder;
  match images with
  | [] => mret (0, 0)
  | _ =>
      _ ← mkdir_enhanced folder;
      let total := length images in
      success_count ← process_images w folder model_name total 1 images 0;
      mret (success_count, total)
  end.

(** [Prompt.ask(..., default=default)]: the default for an empty line;
    any other line is stripped of the whitespace around it and, with
    [choices], asked again until what is left is one of them. Running out
    of input raises. *)
Fixpoint ask (default : string) (choices : option (list string))
    (inputs : list string) : result (string * list string) :=
  match inputs with
  | [] => Raise "EOFError"
  | line :: rest =>
      if negb (Py.nonempty line) then Ok (default, rest)
      else
        let value := Py.strip line in
        match choices with
        | None => Ok (value, rest)
        | Some cs =>
            if bool_decide (value ∈ cs) then Ok (value, rest)
            else ask default choices rest
        end
  end.

(** The [while True] loop of [display_folder_menu]: [choice] is what
    [Prompt.ask] with the default [1] and no choices returns. *)
Fixpoint menu_loop (w : world) (folders : list string) (inputs : list string)
    : result (option string * list string) :=
  match inputs with
  | [] => Raise "EOFError"
  | line :: rest =>
      let choice := if Py.nonempty line then Py.strip line else "1" in
      if String.eqb (Py.lower choice) "q" then Ok (None, rest)
      else
        match int_of_str w choice with
        | Some n =>
            let idx := (n - 1)%Z in
            if ((0 <=? idx) && (idx <? Z.of_nat (length folders)))%Z
            then Ok (folders !! Z.to_nat idx, rest)
            else menu_loop w folders rest
        | None => menu_loop w folders rest
        end
  end.

Definition display_folder_menu (w : world) (folders : list string)
    (inputs : list string) : result (option string * list string) :=
  match folders with
  | [] => Ok (None, inputs)
  | _ => menu_loop w folders inputs
  end.

(** The parsed command line. *)
Record args := { model : string; list_models : bool }.

Definition yes_no : option (list string) := Some ["y"; "n"].

(** [main], from the selection of the folder on. *)
Definition run_selected (w : world) (model_name selected_folder : string)
    (inputs : list string) : io fs outcome :=
  images ← get_images_in_folder selected_folder;
  '(confirm, inputs) ← lift (ask "y" yes_no inputs);
  if negb (String.eqb (Py.lower confirm) "y") then mret Returned
  else
    '(success, total) ← process_folder w selected_folder model_name;
    if Nat.eqb success total && Nat.ltb 0 total then
      '(move_confirm, _) ← lift (ask "y" yes_no inputs);
      if String.eqb (Py.lower move_confirm) "y" then
        new_location ← move_to_processed (clock w (S total)) selected_folder;
        mret Returned
      else mret Returned
    else mret Returned.

(** [main] from the return of [parse_args] on: [a] is what it returned,
    [inputs] the lines typed at the prompts. The parser admits the models of
    the registry only and refuses any other with the exit status 2, which
    is the first test here; its other exits, on a command line it cannot
    read and on [--help], come before it returns and are not part of this
    function. *)
Definition main (w : world) (a : args) (inputs : list string) (s : fs)
    : outcome * fs :=
  if negb (bool_decide (model a ∈ dict_keys MODELS)) then (Exit 2, s)
  else if list_models a then (Returned, s)
  else
    match check_api_key w with
    | None => (Exit 1, s)
    | Some _ =>
        match get_queue_folders s with
        | None => (Exit 1, s)
        | Some folders =>
            match display_folder_menu w folders inputs with
            | Raise e => (Uncaught e, s)
            | Ok (None, _) => (Returned, s)
            | Ok (Some selected_folder, inputs) =>
                match run_selected w (model a) selected_folder inputs s with
                | (Ok o, s') => (o, s')
                | (Raise e, s') => (Uncaught e, s')
                end
            end
        end
    end.

(** The bytes of the regular file enhanced/dir/name, when there is one. *)
Definition enhanced_file (s : fs) (dir name : string) : option (list byte) :=
  match enhanced s !! dir with
  | Some (NDir files) =>
      match files !! name with
      | Some (EFile data) => Some data
      | _ => None
      end
  | _ => None
  end.

(** What [process_image] returns for each image of the loop of
    [process_folder], in order: the loop counts the [true] ones. *)
Fixpoint image_results (w : world) (folder model_name : string) (total : nat)
    (i : nat) (images : list string) : io fs (list bool) :=
  match images with
  | [] => mret []
  | image_path :: rest =>
      let output_name :=
        generate_descriptive_name (clock w i) folder (Z.of_nat i) (Z.of_nat total) in
      ok ← process_image w i folder image_path folder output_name model_name;
      oks ← image_results w folder model_name total (S i) rest;
      mret (ok :: oks)
  end.

(** The menu of [main] ends on [folder]. *)
Definition selects (w : world) (inputs : list string) (s : fs)
    (folder : string) : Prop :=
  exists folders rest,
    get_queue_folders s = Some folders
    /\ display_folder_menu w folders inputs = Ok (Some folder, rest).

(** Every image of [folder] was processed with success, from the store [s]
    to the store [s1]. *)
Definition all_succeeded (w : world) (folder model_name : string)
    (s s1 : fs) : Prop :=
  exists images s0 results,
    get_images_in_folder folder s = (Ok images, s)
    /\ images <> []
    /\ mkdir_enhanced folder s = (Ok tt, s0)
    /\ image_results w folder model_name (length images) 1 images s0
       = (Ok results, s1)
    /\ length results = length images
    /\ Forall (fun ok => ok = true) results.

(** Between [s] and [s'] the folder left the queue for the processed
    root. *)
Definition relocated (folder : string) (s s' : fs) : Prop :=
  exists q n dest,
    queue s = Some q /\ q !! folder = Some n
    /\ queue s' = Some (delete folder q)
    /\ processed s' = <[dest := n]> (processed s).

(** Between [s] and [s'] nothing moved under the queue and the processed
    root. *)
Definition in_place (s s' : fs) : Prop :=
  queue s' = queue s /\ processed s' = processed s.


End App.

(* ===================================================================== *)
(** ** [eval/run_eval.py] *)

Module Eval.

Definition PROMPT : string :=
"Transform this whiteboard photograph into a clean, professional diagram.

Create a NEW image with:
- Clean, solid MATTE WHITE background (not the original whiteboard)
- Clear, legible text preserving the original wording exactly
- Professional lines, arrows, and shapes with a hand-drawn sketch aesthetic
- Subtle colors to distinguish elements and improve clarity

Preserve the layout and spatial relationships. Use standard icons where appropriate (cylinders for databases, rectangles for systems). Fix incomplete elements. Omit board edges, reflections, erasers, and other incidental items from the photo.

The result should look like a polished whiteboard diagram ready for a professional presentation.".

Record model_config := {
  id : string;
  input_fn : string -> string -> payload
}.

Definition MODELS : list (string * model_config) :=
  [ ("flux-kontext-pro",
     {| id := "black-forest-labs/flux-kontext-pro";
        input_fn := fun prompt image_uri =>
          [ ("prompt", JStr prompt);
            ("input_image", JStr image_uri);
            ("aspect_ratio", JStr "match_input_image");
            ("output_format", JStr "png") ] |});
    ("flux-1.1-pro",
     {| id := "black-forest-labs/flux-1.1-pro";
        input_fn := fun prompt image_uri =>
          [ ("prompt", JStr prompt);
            ("image_prompt", JStr image_uri);
            ("aspect_ratio", JStr "1:1");
            ("output_format", JStr "png") ] |});
    ("qwen-image-edit",
     {| id := "qwen/qwen-image-edit";
        input_fn := fun prompt image_uri =>
          [ ("prompt", JStr prompt);
            ("image", JStr image_uri);
            ("output_format", JStr "png") ] |});
    ("qwen-image-edit-plus",
     {| id := "qwen/qwen-image-edit-plus";
        input_fn := fun prompt image_uri =>
          [ ("prompt", JStr prompt);
            ("image", JList [JStr image_uri]);
            ("output_format", JStr "png") ] |});
    ("nano-banana",
     {| id := "google/nano-banana";
        input_fn := fun prompt image_uri =>
          [ ("prompt", JStr prompt);
            ("image_input", JList [JStr image_uri]);
            ("output_format", JStr "png") ] |});
    ("nano-banana-pro",
     {| id := "google/nano-banana-pro";
        input_fn := fun prompt image_uri =>
          [ ("prompt", JStr prompt);
            ("image_input", JList [JStr image_uri]);
            ("output_format", JStr "png") ] |}) ].

(** The two directories next to the script: [source], a map from a name to
    the file or directory there, and [runs], a map from the name of a run
    to its directory. *)
Record fs := {
  source : gmap string entry;
  runs : gmap string node
}.

Definition with_runs (s : fs) (r : gmap string node) : fs :=
  {| source := source s; runs := r |}.

Definition check_api_key (w : world) : option string :=
  match REPLICATE_API_KEY w with
  | Some k => if Py.nonempty k then Some k else None
  | None => None
  end.

(** [open(image_path, "rb").read()] for [image_path] = source/name. *)
Definition read_image (name : string) : io fs (list byte) :=
  fun s =>
    match source s !! name with
    | Some (EFile data) => (Ok data, s)
    | Some EDir => (Raise "IsADirectoryError", s)
    | None => (Raise "FileNotFoundError", s)
    end.

Definition mime_types : list (string * string) :=
  [ (".png", "image/png"); (".jpg", "image/jpeg"); (".jpeg", "image/jpeg");
    (".webp", "image/webp") ].

(** The part of [image_to_data_uri] after the file is read. *)
Definition data_uri (name : string) (image_data : list byte) : string :=
  let suffix := Py.lower (Py.suffix name) in
  let mime_type := default "image/png" (dict_get suffix mime_types) in
  let b64_data := Base64.b64encode image_data in
  "data:" ++ mime_type ++ ";base64," ++ b64_data.

Definition image_to_data_uri (name : string) : io fs string :=
  image_data ← read_image name;
  mret (data_uri name image_data).

(** The handling of the output formats in [run_model]. *)
Definition output_url_of (output : pyval) : pyval :=
  let fix scan (items : list pyval) : option pyval :=
    match items with
    | [] => None
    | item :: rest =>
        match Value.url_attr item with
        | Some u => Some u
        | None => if Value.is_http_str item then Some item else scan rest
        end
    end in
  match output with
  | PNone => PNone
  | _ =>
      match Value.url_attr output with
      | Some u => u
      | None =>
          match output with
          | PStr s => if Py.startswith s "http" then output else PNone
          | _ =>
              match from_option scan None (Value.iter_items output) with
              | Some found => found
              | None =>
                  let output_str := Value.str_of output in
                  if Py.startswith output_str "http" then PStr output_str else PNone
              end
          end
      end
  end.

Definition run_model (w : world) (tick : nat) (model_name : string)
    (cfg : model_config) (image_uri : string) : pyval :=
  let inputs := input_fn cfg PROMPT image_uri in
  match replicate_run w tick (id cfg) inputs with
  | Ok output => output_url_of output
  | Raise e => PNone
  end.

(** [output_path.parent.mkdir(parents=True, exist_ok=True)] for
    [output_path] = runs/dir/name, and [run_dir.mkdir] alike. *)
Definition mkdir_run (dir : string) : io fs unit :=
  fun s =>
    match runs s !! dir with
    | Some (NDir _) => (Ok tt, s)
    | Some (NFile _) => (Raise "FileExistsError", s)
    | None => (Ok tt, with_runs s (<[dir := NDir ∅]> (runs s)))
    end.

(** [with open(output_path, 'wb') as f: f.write(response.content)] for
    [output_path] = runs/dir/name: [open] creates the file or empties the
    one there, before anything is written. *)
Definition write_run (w : world) (tick : nat) (dir name : string)
    (content : list byte) : io fs unit :=
  fun s =>
    match runs s !! dir with
    | Some (NDir files) =>
        match files !! name with
        | Some EDir => (Raise "IsADirectoryError", s)
        | _ =>
            let holding data :=
              with_runs s
                (<[dir := NDir (<[name := EFile data]> files)]> (runs s)) in
            match disk w tick dir name with
            | OpenFails e => (Raise e, s)
            | WriteFails kept e => (Raise e, holding (take kept content))
            | Written => (Ok tt, holding content)
            end
        end
    | Some (NFile _) => (Raise "NotADirectoryError", s)
    | None => (Raise "FileNotFoundError", s)
    end.

(** [with open(log_path, 'w') as f:] and the [f.write] calls of the log,
    for [log_path] = runs/dir/name and the bytes the text is encoded to. The
    log is a few short lines: the storage is taken to accept them once the
    path is free. *)
Definition write_log (dir name : string) (content : list byte) : io fs unit :=
  fun s =>
    match runs s !! dir with
    | Some (NDir files) =>
        match files !! name with
        | Some EDir => (Raise "IsADirectoryError", s)
        | _ => (Ok tt, with_runs s
                  (<[dir := NDir (<[name := EFile content]> files)]> (runs s)))
        end
    | Some (NFile _) => (Raise "NotADirectoryError", s)
    | None => (Raise "FileNotFoundError", s)
    end.

Definition download_image (w : world) (tick : nat) (url : pyval)
    (dir name : string) : io fs bool :=
  try_except
    (content ← lift (httpx_get w tick url);
     _ ← mkdir_run dir;
     _ ← write_run w tick dir name content;
     mret true)
    (fun e => mret false).

Inductive status : Type := success | download_failed | api_failed.

Definition status_str (st : status) : string :=
  match st with
  | success => "success"
  | download_failed => "download_failed"
  | api_failed => "api_failed"
  end.

Definition row : Type := string * string * status.

(** [SOURCE_DIR.glob("*.png")]: the names that end in [.png], whatever
    lies there. *)
Definition is_png (name : string) : bool :=
  let n := String.length name in
  Nat.leb 4 n && String.eqb (String.substring (n - 4) 4 name) ".png".

Definition source_images (s : fs) : list string :=
  sorted (filter (fun n => is_png n = true) (map fst (map_to_list (source s)))).

(** The inner loop of [main], over [MODELS.items()]. *)
Fixpoint run_models (w : world) (run_dir img_name img_stem image_uri : string)
    (tick : nat) (models : list (string * model_config)) (results : list row)
    : io fs (list row) :=
  match models with
  | [] => mret results
  | (model_name, model_config) :: rest =>
      let output_url := run_model w tick model_name model_config image_uri in
      st ←
        (if Value.truthy output_url then
           let output_name := img_stem ++ "_" ++ model_name ++ ".png" in
           ok ← download_image w tick output_url run_dir output_name;
           mret (if ok : bool then success else download_failed)
         else mret api_failed);
      run_models w run_dir img_name img_stem image_uri (S tick) rest
        (results ++ [(img_name, model_name, st)])%list
  end.

(** The outer loop of [main], over the source images. *)
Fixpoint run_images (w : world) (run_dir : string) (tick : nat)
    (images : list string) (results : list row) : io fs (list row) :=
  match images with
  | [] => mret results
  | img_name :: rest =>
      image_uri ← image_to_data_uri img_name;
      let img_stem := Py.stem img_name in
      results ← run_models w run_dir img_name img_stem image_uri tick MODELS results;
      run_images w run_dir (tick + length MODELS) rest results
  end.

Definition newline : string := String (ascii_of_nat 10) EmptyString.

Definition render_log (timestamp : string) (results : list row) : string :=
  "Evaluation Run: " ++ timestamp ++ newline
  ++ "Prompt:" ++ newline ++ PROMPT ++ newline ++ newline
  ++ "Results:" ++ newline
  ++ String.concat ""
       (map (fun '(img, model, st) =>
               "  " ++ img ++ " + " ++ model ++ ": " ++ status_str st ++ newline)
            results).

Definition main (w : world) (s : fs) : outcome * fs :=
  match check_api_key w with
  | None => (Exit 1, s)
  | Some _ =>
      match source_images s with
      | [] => (Exit 1, s)
      | images =>
          let timestamp := Py.strftime_Ymd_HMS (clock w 0) in
          let body : io fs unit :=
            _ ← mkdir_run timestamp;
            results ← run_images w timestamp 0 images [];
            write_log timestamp "results.txt"
              (encode_text w (render_log timestamp results)) in
          match body s with
          | (Ok _, s') => (Returned, s')
          | (Raise e, s') => (Uncaught e, s')
          end
      end
  end.

(** The bytes of the regular file runs/dir/name, when there is one. *)
Definition run_file (s : fs) (dir name : string) : option (list byte) :=
  match runs s !! dir with
  | Some (NDir files) =>
      match files !! name with
      | Some (EFile data) => Some data
      | _ => None
      end
  | _ => None
  end.

End Eval.

(* ===================================================================== *)
(** ** The specification's own words, for comparison with the code *)

Module Spec.

(** Section 6: the recognized image extensions, and the media type that
    belongs to each. *)
Definition recognized : list string :=
  [".png"; ".jpg"; ".jpeg"; ".webp"; ".gif"; ".bmp"].

Definition expected_mime (ext : string) : option string :=
  if String.eqb ext ".png" then Some "image/png"
  else if String.eqb ext ".jpg" || String.eqb ext ".jpeg" then Some "image/jpeg"
  else if String.eqb ext ".webp" then Some "image/webp"
  else if String.eqb ext ".gif" then Some "image/gif"
  else if String.eqb ext ".bmp" then Some "image/bmp"
  else None.

(** Section 4.3, step 3. What a string begins with, character by
    character. *)
Fixpoint begins_with (pre s : string) : bool :=
  match pre, s with
  | EmptyString, _ => true
  | String _ _, EmptyString => false
  | String a pre', String b s' => Ascii.eqb a b && begins_with pre' s'
  end.

(** "A string beginning with an HTTP scheme", as written: the scheme
    [http] or [https] with its separator. *)
Definition http_scheme (s : string) : bool :=
  begins_with "http://" s || begins_with "https://" s.

(** The same sentence read loosely: the four characters [http]. *)
Definition http_letters (s : string) : bool := begins_with "http" s.

(** The attempts (a) to (d) in this order, each giving a location or
    nothing, and the first that gives one wins; (e) is the case where none
    does. [http] is the test of (b) and (d) on a string. *)
Definition step_a (v : pyval) : option pyval :=
  match v with
  | PObj (Some location) _ _ _ => Some location
  | _ => None
  end.

Definition step_b (http : string -> bool) (v : pyval) : option pyval :=
  match v with
  | PStr s => if http s then Some v else None
  | _ => None
  end.

(** The first of two attempts that gives something. *)
Definition or_else {A} (first second : option A) : option A :=
  match first with
  | Some x => Some x
  | None => second
  end.

(** (a) or (b) on one value. *)
Definition direct (http : string -> bool) (v : pyval) : option pyval :=
  or_else (step_a v) (step_b http v).

Definition step_c (http : string -> bool) (v : pyval) : option pyval :=
  items ← Value.iter_items v;
  head (omap (direct http) items).

Definition step_d (http : string -> bool) (v : pyval) : option pyval :=
  if http (Value.str_of v) then Some (PStr (Value.str_of v)) else None.

Definition normalize (http : string -> bool) (v : pyval) : option pyval :=
  or_else (step_a v)
    (or_else (step_b http v) (or_else (step_c http v) (step_d http v))).

(** The location as the functions of the code report it: [None] when there
    is none. *)
Definition location (http : string -> bool) (v : pyval) : pyval :=
  default PNone (normalize http v).

(** Section 4.4, [generate_output_name], word for word: the index appears
    only when [total > 1]. *)
Definition clean_char (c : ascii) : ascii :=
  if Ascii.eqb c " " || Ascii.eqb c "_" then "-"%char else Py.ascii_lower c.

Fixpoint clean (s : string) : string :=
  match s with
  | EmptyString => EmptyString
  | String c r => String (clean_char c) (clean r)
  end.

Definition two_digits (index : Z) : string :=
  let n := Z.to_nat index in
  String (Py.digit (n / 10)) (String (Py.digit n) EmptyString).

Definition generate_output_name (today folder_name : string) (index total : Z)
    : string :=
  clean folder_name
  ++ (if (1 <? total)%Z then "-" ++ two_digits index else "")
  ++ "-enhanced-" ++ today ++ ".png".

End Spec.

(* ===================================================================== *)
(** ** Concrete inputs, for the instances and the counterexamples *)

Module Examples.

Definition gif_bytes : list byte := [x47; x49; x46; x38; x39; x61].

Definition png_bytes : list byte := [x89; x50; x4e; x47].

Definition today : Py.datetime :=
  {| Py.year := 2026; Py.month := 11; Py.day := 4;
     Py.hour := 9; Py.minute := 30; Py.second := 5 |}.

Definition jpg_bytes : list byte := [xff; xd8; xff].

(** A queue with one folder of three images, a text file and a TIFF
    file. *)
Definition app_fs : App.fs :=
  {| App.queue := Some {[ "My Board" := NDir {[ "a.png" := EFile png_bytes;
                                                "b.GIF" := EFile gif_bytes;
                                                "c.jpg" := EFile jpg_bytes;
                                                "notes.txt" := EFile [];
                                                "scan.tiff" := EFile [x49; x49] ]} ]};
     App.processed := ∅;
     App.enhanced := ∅ |}.

(** A source directory with a PNG, a GIF and a TIFF file. *)
Definition eval_fs : Eval.fs :=
  {| Eval.source := {[ "a.png" := EFile png_bytes;
                       "board.gif" := EFile gif_bytes;
                       "scan.tiff" := EFile [x49; x49] ]};
     Eval.runs := ∅ |}.

(** A queue whose only folder holds no image. *)
Definition empty_fs : App.fs :=
  {| App.queue := Some {[ "Empty" := NDir {[ "notes.txt" := EFile [];
                                             "old" := EDir ]} ]};
     App.processed := ∅;
     App.enhanced := ∅ |}.

Definition board_files : gmap string entry :=
  {[ "a.png" := EFile png_bytes; "b.GIF" := EFile gif_bytes;
     "c.jpg" := EFile jpg_bytes; "notes.txt" := EFile [];
     "scan.tiff" := EFile [x49; x49] ]}.

(** [app_fs] after a run in which the second of the three images failed. *)
Definition after_partial : App.fs :=
  {| App.queue := Some {[ "My Board" := NDir board_files ]};
     App.processed := ∅;
     App.enhanced :=
       {[ "My Board" :=
            NDir {[ "my-board-01-enhanced-20261104.png" := EFile png_bytes;
                    "my-board-03-enhanced-20261104.png" := EFile png_bytes ]} ]}
  |}.

(** [app_fs] after a run in which the three images succeeded and the move
    was accepted. *)
Definition after_full : App.fs :=
  {| App.queue := Some ∅;
     App.processed := {[ "My Board" := NDir board_files ]};
     App.enhanced :=
       {[ "My Board" :=
            NDir {[ "my-board-01-enhanced-20261104.png" := EFile png_bytes;
                    "my-board-02-enhanced-20261104.png" := EFile png_bytes;
                    "my-board-03-enhanced-20261104.png" := EFile png_bytes ]} ]}
  |}.




(** A source directory in which the first name that ends in [.png] is a
    directory. *)
Definition eval_dir_fs : Eval.fs :=
  {| Eval.source := {[ "a.png" := EDir; "b.png" := EFile png_bytes ]};
     Eval.runs := ∅ |}.

Definition nano : App.args :=
  {| App.model := "nano-banana"; App.list_models := false |}.

Definition file_output : pyval :=
  PObj (Some (PStr "https://r.example/out.png")) None
    "https://r.example/out.png" true.

Definition parse_int (s : string) : option Z :=
  if String.eqb s "1" then Some 1%Z
  else if String.eqb s "2" then Some 2%Z
  else if String.eqb s "3" then Some 3%Z
  else None.

(** Every remote call and every download succeeds. *)
Definition good_world : world :=
  {| replicate_run := fun _ _ _ => Ok file_output;
     httpx_get := fun _ _ => Ok png_bytes;
     clock := fun _ => today;
     int_of_str := parse_int;
     REPLICATE_API_KEY := Some "r8_key";
     disk := fun _ _ _ => Written;
     encode_text := list_byte_of_string |}.

(** The second remote call raises. *)
Definition flaky_world : world :=
  {| replicate_run := fun tick _ _ =>
       if Nat.eqb tick 2 then Raise "ReplicateError" else Ok file_output;
     httpx_get := fun _ _ => Ok png_bytes;
     clock := fun _ => today;
     int_of_str := parse_int;
     REPLICATE_API_KEY := Some "r8_key";
     disk := fun _ _ _ => Written;
     encode_text := list_byte_of_string |}.



End Examples.

(* ===================================================================== *)
(** ** Predicates for the statements *)

Module Obs.

(** A line of the menu that selects nothing: neither [q] nor the number of
    a folder. *)
Definition skipped_line (w : world) (folders : list string) (line : string)
    : Prop :=
  let choice := if Py.nonempty line then Py.strip line else "1" in
  Py.lower choice <> "q"
  /\ match int_of_str w choice with
     | Some n => ~ (1 <= n <= Z.of_nat (length folders))%Z
     | None => True
     end.

(** The number a list of decimal digits stands for, least significant
    digit first. *)
Fixpoint digits_value (ds : list ascii) : nat :=
  match ds with
  | [] => 0
  | d :: rest => (nat_of_ascii d - 48) + 10 * digits_value rest
  end.

Definition is_digit (c : ascii) : Prop := 48 <= nat_of_ascii c <= 57.

(** The name [process_folder] gives the output of the image of index [i]. *)
Definition output_name (w : world) (folder : string) (total i : nat) : string :=
  App.generate_descriptive_name (clock w i) folder (Z.of_nat i) (Z.of_nat total).

(** The entries of the directory enhanced/dir once
    [mkdir(parents=True, exist_ok=True)] has run on it: those it has, none
    when it is new; [None] when a regular file is in the way. *)
Definition output_dir_files (s : App.fs) (dir : string)
    : option (gmap string entry) :=
  match App.enhanced s !! dir with
  | Some (NDir files) => Some files
  | Some (NFile _) => None
  | None => Some ∅
  end.

(** The same for the directory runs/dir of the evaluation harness. *)
Definition run_dir_files (s : Eval.fs) (dir : string)
    : option (gmap string entry) :=
  match Eval.runs s !! dir with
  | Some (NDir files) => Some files
  | Some (NFile _) => None
  | None => Some ∅
  end.

(** The name [main] of the evaluation harness gives the output of a model
    on an image. *)
Definition eval_output_name (img_name model_name : string) : string :=
  Py.stem img_name ++ "_" ++ model_name ++ ".png".

(** Between [s] and [s'] the source directory and the runs other than
    [dir] stayed as they were, no regular file under the runs disappeared,
    and the directory runs/dir, when it was there, kept its subdirectories
    and got no new one. *)
Definition extends (dir : string) (s s' : Eval.fs) : Prop :=
  (Eval.source s' = Eval.source s)
  /\ (forall d, d <> dir -> Eval.runs s' !! d = Eval.runs s !! d)
  /\ (forall d n, is_Some (Eval.run_file s d n) -> is_Some (Eval.run_file s' d n))
  /\ (forall files, Eval.runs s !! dir = Some (NDir files) ->
        exists files', Eval.runs s' !! dir = Some (NDir files')
          /\ forall n, files' !! n = Some EDir <-> files !! n = Some EDir).

End Obs.

(* ===================================================================== *)
(** ** More concrete inputs *)

Module Cases.

(** A queue with two folders, a stray file, and a folder holding two images,
    a text file and a subdirectory. *)
Definition listing_fs : App.fs :=
  {| App.queue :=
       Some {[ "sprint" := NDir {[ "b.png" := EFile Examples.png_bytes;
                                   "a.jpg" := EFile Examples.jpg_bytes;
                                   "notes.txt" := EFile [];
                                   "drafts" := EDir ]};
               "README.md" := NFile [];
               "Arch_Review" := NDir ∅ ]};
     App.processed := ∅;
     App.enhanced := ∅ |}.

(** The folder of three images, with a regular file where its output
    directory would be. *)
Definition blocked_fs : App.fs :=
  {| App.queue := Some {[ "My Board" := NDir Examples.board_files ]};
     App.processed := ∅;
     App.enhanced := {[ "My Board" := NFile [] ]} |}.

(** A processed root in which both names a move of [My Board] at the time
    [Examples.today] can take are those of folders that hold a file. *)
Definition full_fs : App.fs :=
  {| App.queue := Some {[ "My Board" := NDir Examples.board_files ]};
     App.processed :=
       {[ "My Board" := NDir {[ "old.png" := EFile Examples.png_bytes ]};
          "My Board-20261104-093005"
            := NDir {[ "older.png" := EFile Examples.png_bytes ]} ]};
     App.enhanced := ∅ |}.

(** The key is set to the empty string. *)
Definition no_key_world : world :=
  {| replicate_run := replicate_run Examples.good_world;
     httpx_get := httpx_get Examples.good_world;
     clock := clock Examples.good_world;
     int_of_str := int_of_str Examples.good_world;
     REPLICATE_API_KEY := Some "";
     disk := disk Examples.good_world;
     encode_text := encode_text Examples.good_world |}.

(** The source directory [Examples.eval_fs] after a run in which every call
    succeeded. *)
Definition eval_after : Eval.fs :=
  (Eval.main Examples.good_world Examples.eval_fs).2.

End Cases.

(* ===================================================================== *)
(** * Properties *)

(** Steps through a computation of the [io] monad by cases. *)
Ltac io_cases :=
  unfold try_except, mbind, io_bind, mret, io_ret, lift, raise, get_state in *;
  repeat (case_match; simplify_eq; try done).

Section Base64_facts.
Import Base64.

Lemma char_sextet_of_char (n : N) :
  (n < 64)%N -> char_sextet (sextet_char n) = Some n.
Proof.
  intros Hn.
  rewrite <- (N2Nat.id n).
  assert (Hk : N.to_nat n < 64) by lia.
  remember (N.to_nat n) as k eqn:Ek. clear Ek Hn n.
  do 64 (destruct k as [|k]; [reflexivity|]).
  lia.
Qed.

Lemma char_sextet_pad : char_sextet pad = None.
Proof. reflexivity. Qed.

End Base64_facts.

Section Base64_roundtrip.
Import Base64.

Local Ltac divmod := zify; Z.to_euclidean_division_equations; lia.

Lemma sextets_bound (x y z : N) :
  (x <= 255 -> y <= 255 -> z <= 255 ->
   x / 4 < 64 /\ (x mod 4) * 16 + y / 16 < 64 /\
   (y mod 16) * 4 + z / 64 < 64 /\ z mod 64 < 64 /\
   (x mod 4) * 16 < 64 /\ (y mod 16) * 4 < 64)%N.
Proof. intros. repeat split; divmod. Qed.

Lemma recombine1 (x y : N) :
  (y <= 255 -> (x / 4) * 4 + ((x mod 4) * 16 + y / 16) / 16 = x)%N.
Proof. intros. divmod. Qed.

Lemma recombine2 (x y z : N) :
  (y <= 255 -> z <= 255 ->
   (((x mod 4) * 16 + y / 16) mod 16) * 16 + ((y mod 16) * 4 + z / 64) / 4 = y)%N.
Proof. intros. divmod. Qed.

Lemma recombine3 (y z : N) :
  (z <= 255 -> (((y mod 16) * 4 + z / 64) mod 4) * 64 + z mod 64 = z)%N.
Proof. intros. divmod. Qed.

Lemma recombine1_pad (x : N) :
  ((x / 4) * 4 + ((x mod 4) * 16) / 16 = x)%N.
Proof. divmod. Qed.

Lemma recombine2_pad (x y : N) :
  (y <= 255 ->
   (((x mod 4) * 16 + y / 16) mod 16) * 16 + ((y mod 16) * 4) / 4 = y)%N.
Proof. intros. divmod. Qed.

Lemma byte_of_to_N (a : byte) : byte_of_N (Byte.to_N a) = a.
Proof. unfold byte_of_N. now rewrite Byte.of_to_N. Qed.

Lemma decode_encode3 (a b c : byte) (s : string) :
  b64decode (encode3 a b c ++ s) =
  match b64decode s with Some tl => Some (a :: b :: c :: tl) | None => None end.
Proof.
  unfold encode3.
  pose proof (Byte.to_N_bounded a) as Ha.
  pose proof (Byte.to_N_bounded b) as Hb.
  pose proof (Byte.to_N_bounded c) as Hc.
  destruct (sextets_bound _ _ _ Ha Hb Hc) as (H1 & H2 & H3 & H4 & _).
  cbv [String.append]. cbn [b64decode].
  rewrite !char_sextet_of_char by assumption.
  unfold byte1, byte2, byte3.
  rewrite recombine1, recombine2, recombine3 by assumption.
  now rewrite !byte_of_to_N.
Qed.

Lemma decode_encode2 (a b : byte) : b64decode (encode2 a b) = Some [a; b].
Proof.
  unfold encode2.
  pose proof (Byte.to_N_bounded a) as Ha.
  pose proof (Byte.to_N_bounded b) as Hb.
  destruct (sextets_bound _ _ _ Ha Hb Hb) as (H1 & H2 & _ & _ & _ & H6).
  cbn [b64decode].
  rewrite !char_sextet_of_char by assumption.
  rewrite char_sextet_pad. cbn.
  unfold byte1, byte2.
  rewrite recombine1, recombine2_pad by assumption.
  now rewrite !byte_of_to_N.
Qed.

Lemma decode_encode1 (a : byte) : b64decode (encode1 a) = Some [a].
Proof.
  unfold encode1.
  pose proof (Byte.to_N_bounded a) as Ha.
  destruct (sextets_bound _ _ _ Ha Ha Ha) as (H1 & _ & _ & _ & H5 & _).
  cbn [b64decode].
  rewrite !char_sextet_of_char by assumption.
  rewrite char_sextet_pad. cbn.
  unfold byte1.
  rewrite recombine1_pad.
  now rewrite byte_of_to_N.
Qed.

(** Induction on a list three elements at a time. *)
Lemma list_ind3 {A} (P : list A -> Prop) :
  P [] -> (forall a, P [a]) -> (forall a b, P [a; b]) ->
  (forall a b c l, P l -> P (a :: b :: c :: l)) ->
  forall l, P l.
Proof.
  intros H0 H1 H2 H3.
  fix IH 1.
  intros [|a [|b [|c l]]]; [exact H0 | apply H1 | apply H2 | apply H3, IH].
Qed.

(** Decoding undoes encoding. *)
Lemma b64decode_b64encode (data : list byte) :
  b64decode (b64encode data) = Some data.
Proof.
  induction data as [|a|a b|a b c l IH] using list_ind3.
  - reflexivity.
  - apply decode_encode1.
  - apply decode_encode2.
  - cbn [b64encode]. now rewrite decode_encode3, IH.
Qed.

End Base64_roundtrip.

(* ===================================================================== *)
(** ** The image encoder *)

Section Encoder.

Lemma app_mime_expected (ext mime : string) :
  Spec.expected_mime ext = Some mime ->
  dict_get ext App.mime_types = Some mime.
Proof.
  unfold Spec.expected_mime, App.mime_types. cbn [dict_get].
  destruct (String.eqb ext ".png"); [easy|].
  destruct (String.eqb ext ".jpg"); [easy|].
  destruct (String.eqb ext ".jpeg"); [easy|].
  destruct (String.eqb ext ".webp"); [easy|].
  destruct (String.eqb ext ".gif"); [easy|].
  destruct (String.eqb ext ".bmp"); easy.
Qed.

Lemma eval_mime_expected (ext mime : string) :
  Spec.expected_mime ext = Some mime ->
  default "image/png" (dict_get ext Eval.mime_types) =
  if bool_decide (ext ∈ [".gif"; ".bmp"]) then "image/png" else mime.
Proof.
  unfold Spec.expected_mime, Eval.mime_types. cbn [dict_get].
  destruct (String.eqb_spec ext ".png") as [->|?]; [now intros [= <-]|].
  destruct (String.eqb_spec ext ".jpg") as [->|?]; [now intros [= <-]|].
  destruct (String.eqb_spec ext ".jpeg") as [->|?]; [now intros [= <-]|].
  destruct (String.eqb_spec ext ".webp") as [->|?]; [now intros [= <-]|].
  destruct (String.eqb_spec ext ".gif") as [->|?]; [now intros [= <-]|].
  destruct (String.eqb_spec ext ".bmp") as [->|?]; [now intros [= <-]|].
  easy.
Qed.

(** The extensions with an expected media type are the recognized ones,
    which are those [get_images_in_folder] accepts. *)
Lemma expected_mime_recognized (ext : string) :
  is_Some (Spec.expected_mime ext) <-> ext ∈ Spec.recognized.
Proof.
  unfold Spec.expected_mime, Spec.recognized. split.
  - intros [mime H].
    destruct (String.eqb_spec ext ".png") as [->|?]; [set_solver|].
    destruct (String.eqb_spec ext ".jpg") as [->|?]; [set_solver|].
    destruct (String.eqb_spec ext ".jpeg") as [->|?]; [set_solver|].
    destruct (String.eqb_spec ext ".webp") as [->|?]; [set_solver|].
    destruct (String.eqb_spec ext ".gif") as [->|?]; [set_solver|].
    destruct (String.eqb_spec ext ".bmp") as [->|?]; [set_solver|].
    discriminate H.
  - rewrite !elem_of_cons, elem_of_nil.
    intros [->|[->|[->|[->|[->|[->|[]]]]]]]; cbn; eauto.
Qed.

Lemma image_extensions_recognized : App.IMAGE_EXTENSIONS = Spec.recognized.
Proof. reflexivity. Qed.

Lemma app_image_to_data_uri_read (s : App.fs) (folder name : string)
    (data : list byte) :
  App.read_image folder name s = (Ok data, s) ->
  App.image_to_data_uri folder name s = (Ok (App.data_uri name data), s).
Proof.
  intros H. unfold App.image_to_data_uri, mbind, io_bind. now rewrite H.
Qed.

Lemma eval_image_to_data_uri_read (s : Eval.fs) (name : string)
    (data : list byte) :
  Eval.read_image name s = (Ok data, s) ->
  Eval.image_to_data_uri name s = (Ok (Eval.data_uri name data), s).
Proof.
  intros H. unfold Eval.image_to_data_uri, mbind, io_bind. now rewrite H.
Qed.

End Encoder.

(** The two encoders on the six recognized extensions. The encoder of the
    production CLI returns [data:<mime>;base64,] followed by a string whose
    base64 decoding is the bytes of the file, with the media type of the
    extension: it does what the specification says of [encode]. The encoder
    of the evaluation harness does so for the four extensions of its table;
    on [.gif] and [.bmp] the media type it writes is [image/png]. *)
Theorem encode_roundtrip (sa : App.fs) (se : Eval.fs) (folder name : string)
    (data : list byte) (mime : string) :
  Spec.expected_mime (Py.lower (Py.suffix name)) = Some mime ->
  (App.read_image folder name sa = (Ok data, sa) ->
   exists b64,
     App.image_to_data_uri folder name sa
       = (Ok ("data:" ++ mime ++ ";base64," ++ b64), sa)
     /\ Base64.b64decode b64 = Some data)
  /\
  (Eval.read_image name se = (Ok data, se) ->
   exists b64,
     Eval.image_to_data_uri name se
       = (Ok ("data:"
              ++ (if bool_decide (Py.lower (Py.suffix name) ∈ [".gif"; ".bmp"])
                  then "image/png" else mime)
              ++ ";base64," ++ b64), se)
     /\ Base64.b64decode b64 = Some data).
Proof.
  intros Hm. split; intros Hr; exists (Base64.b64encode data);
    (split; [|apply b64decode_b64encode]).
  - rewrite (app_image_to_data_uri_read _ _ _ _ Hr). unfold App.data_uri.
    now rewrite (app_mime_expected _ _ Hm).
  - rewrite (eval_image_to_data_uri_read _ _ _ Hr). unfold Eval.data_uri.
    now rewrite (eval_mime_expected _ _ Hm).
Qed.

(** An instance: [a.png] in the queue folder and in the source
    directory. *)
Lemma encode_roundtrip_witness :
  Spec.expected_mime (Py.lower (Py.suffix "a.png")) = Some "image/png"
  /\ App.read_image "My Board" "a.png" Examples.app_fs
     = (Ok Examples.png_bytes, Examples.app_fs)
  /\ Eval.read_image "a.png" Examples.eval_fs
     = (Ok Examples.png_bytes, Examples.eval_fs)
  /\ (exists b64,
        App.image_to_data_uri "My Board" "a.png" Examples.app_fs
          = (Ok ("data:" ++ "image/png" ++ ";base64," ++ b64), Examples.app_fs)
        /\ Base64.b64decode b64 = Some Examples.png_bytes)
  /\ (exists b64,
        Eval.image_to_data_uri "a.png" Examples.eval_fs
          = (Ok ("data:" ++ "image/png" ++ ";base64," ++ b64), Examples.eval_fs)
        /\ Base64.b64decode b64 = Some Examples.png_bytes).
Proof.
  assert (Hm : Spec.expected_mime (Py.lower (Py.suffix "a.png")) = Some "image/png")
    by reflexivity.
  assert (Ha : App.read_image "My Board" "a.png" Examples.app_fs
               = (Ok Examples.png_bytes, Examples.app_fs)) by reflexivity.
  assert (He : Eval.read_image "a.png" Examples.eval_fs
               = (Ok Examples.png_bytes, Examples.eval_fs)) by reflexivity.
  destruct (encode_roundtrip Examples.app_fs Examples.eval_fs
              "My Board" "a.png" Examples.png_bytes "image/png" Hm) as [HA HE].
  exact (conj Hm (conj Ha (conj He (conj (HA Ha) (HE He))))).
Defined.


(** C8. For a file whose lowercased extension is not in the encoder's table
    of media types, the encoder returns, without raising, [data:image/png;base64,]
    followed by a string whose base64 decoding is the bytes of the file. This
    holds of the encoder of the production CLI and of that of the evaluation
    harness, each with its own table. *)
Theorem encode_unrecognized (sa : App.fs) (se : Eval.fs) (folder name : string)
    (data : list byte) :
  (dict_get (Py.lower (Py.suffix name)) App.mime_types = None ->
   App.read_image folder name sa = (Ok data, sa) ->
   exists b64,
     App.image_to_data_uri folder name sa
       = (Ok ("data:" ++ "image/png" ++ ";base64," ++ b64), sa)
     /\ Base64.b64decode b64 = Some data)
  /\
  (dict_get (Py.lower (Py.suffix name)) Eval.mime_types = None ->
   Eval.read_image name se = (Ok data, se) ->
   exists b64,
     Eval.image_to_data_uri name se
       = (Ok ("data:" ++ "image/png" ++ ";base64," ++ b64), se)
     /\ Base64.b64decode b64 = Some data).
Proof.
  split; intros Hm Hr; exists (Base64.b64encode data);
    (split; [|apply b64decode_b64encode]).
  - rewrite (app_image_to_data_uri_read _ _ _ _ Hr). unfold App.data_uri.
    now rewrite Hm.
  - rewrite (eval_image_to_data_uri_read _ _ _ Hr). unfold Eval.data_uri.
    now rewrite Hm.
Qed.

(** An instance of C8: a TIFF file. *)
Lemma encode_unrecognized_witness :
  dict_get (Py.lower (Py.suffix "scan.tiff")) App.mime_types = None
  /\ App.read_image "My Board" "scan.tiff" Examples.app_fs
     = (Ok [x49; x49] , Examples.app_fs)
  /\ dict_get (Py.lower (Py.suffix "scan.tiff")) Eval.mime_types = None
  /\ Eval.read_image "scan.tiff" Examples.eval_fs
     = (Ok [x49; x49], Examples.eval_fs)
  /\ (exists b64,
        App.image_to_data_uri "My Board" "scan.tiff" Examples.app_fs
          = (Ok ("data:" ++ "image/png" ++ ";base64," ++ b64), Examples.app_fs)
        /\ Base64.b64decode b64 = Some [x49; x49])
  /\ (exists b64,
        Eval.image_to_data_uri "scan.tiff" Examples.eval_fs
          = (Ok ("data:" ++ "image/png" ++ ";base64," ++ b64), Examples.eval_fs)
        /\ Base64.b64decode b64 = Some [x49; x49]).
Proof.
  pose proof (encode_unrecognized Examples.app_fs Examples.eval_fs
                "My Board" "scan.tiff" [x49; x49]) as [HA HE].
  assert (Hma : dict_get (Py.lower (Py.suffix "scan.tiff")) App.mime_types = None)
    by reflexivity.
  assert (Hme : dict_get (Py.lower (Py.suffix "scan.tiff")) Eval.mime_types = None)
    by reflexivity.
  assert (Ha : App.read_image "My Board" "scan.tiff" Examples.app_fs
               = (Ok [x49; x49], Examples.app_fs)) by reflexivity.
  assert (He : Eval.read_image "scan.tiff" Examples.eval_fs
               = (Ok [x49; x49], Examples.eval_fs)) by reflexivity.
  exact (conj Hma (conj Ha (conj Hme (conj He (conj (HA Hma Ha) (HE Hme He)))))).
Defined.

(* ===================================================================== *)
(** ** The two model registries *)

(** The two registries hold the same names, and the two programs send the
    same prompt. *)
Lemma registries_same_names (name : string) :
  name ∈ dict_keys App.MODELS <-> name ∈ dict_keys Eval.MODELS.
Proof.
  unfold dict_keys. cbn. rewrite !elem_of_cons, !elem_of_nil. tauto.
Qed.

Lemma prompts_agree : App.SYSTEM_PROMPT = Eval.PROMPT.
Proof. reflexivity. Qed.

(** C10. A short name present in both registries has the same provider
    identifier in both, and the two payload builders give the same request
    object for every prompt and image reference. *)
Theorem registries_agree (name : string) (a : App.model_config)
    (e : Eval.model_config) (prompt image_uri : string) :
  dict_get name App.MODELS = Some a ->
  dict_get name Eval.MODELS = Some e ->
  App.id a = Eval.id e
  /\ App.input_fn a prompt image_uri = Eval.input_fn e prompt image_uri.
Proof.
  unfold App.MODELS, Eval.MODELS. cbn [dict_get].
  destruct (String.eqb_spec name "nano-banana") as [->|_];
    [cbn; now intros [= <-] [= <-]|].
  destruct (String.eqb_spec name "nano-banana-pro") as [->|_];
    [cbn; now intros [= <-] [= <-]|].
  destruct (String.eqb_spec name "flux-kontext-pro") as [->|_];
    [cbn; now intros [= <-] [= <-]|].
  destruct (String.eqb_spec name "flux-1.1-pro") as [->|_];
    [cbn; now intros [= <-] [= <-]|].
  destruct (String.eqb_spec name "qwen-image-edit") as [->|_];
    [cbn; now intros [= <-] [= <-]|].
  destruct (String.eqb_spec name "qwen-image-edit-plus") as [->|_];
    [cbn; now intros [= <-] [= <-]|].
  discriminate.
Qed.

(** An instance of C10: the entry of [qwen-image-edit-plus]. *)
Lemma registries_agree_witness :
  exists a e,
    dict_get "qwen-image-edit-plus" App.MODELS = Some a
    /\ dict_get "qwen-image-edit-plus" Eval.MODELS = Some e
    /\ App.id a = Eval.id e
    /\ App.input_fn a App.SYSTEM_PROMPT "data:image/png;base64,iVBORw=="
       = Eval.input_fn e App.SYSTEM_PROMPT "data:image/png;base64,iVBORw==".
Proof.
  eexists _, _.
  assert (Ha : dict_get "qwen-image-edit-plus" App.MODELS = Some _)
    by reflexivity.
  assert (He : dict_get "qwen-image-edit-plus" Eval.MODELS = Some _)
    by reflexivity.
  exact (conj Ha (conj He
           (registries_agree _ _ _ App.SYSTEM_PROMPT
              "data:image/png;base64,iVBORw==" Ha He))).
Defined.

(* ===================================================================== *)
(** ** Output names *)

Section Names.

Lemma append_assoc (a b c : string) : (a ++ b) ++ c = a ++ b ++ c.
Proof.
  induction a as [|x a IH]; [reflexivity|].
  change (String x ((a ++ b) ++ c) = String x (a ++ b ++ c)).
  now rewrite IH.
Qed.

Lemma clean_char_passes (c : ascii) :
  Py.ascii_lower
    (let c1 := if Ascii.eqb c " " then "-"%char else c in
     if Ascii.eqb c1 "_" then "-"%char else c1)
  = Spec.clean_char c.
Proof. destruct c as [[] [] [] [] [] [] [] []]; reflexivity. Qed.

(** The three passes of the code over the folder name are one pass of
    [Spec.clean_char]. *)
Lemma clean_name_passes (s : string) :
  Py.lower (Py.replace "_" "-" (Py.replace " " "-" s)) = Spec.clean s.
Proof.
  induction s as [|c s IH]; [reflexivity|].
  cbn [Py.replace Py.lower Spec.clean].
  now rewrite IH, <- clean_char_passes.
Qed.

Lemma format_02d_two_digits (index : Z) :
  (0 <= index <= 99)%Z -> Py.format_02d index = Spec.two_digits index.
Proof.
  intros H.
  rewrite <- (Z2Nat.id index) by lia.
  assert (Hn : Z.to_nat index < 100) by lia.
  remember (Z.to_nat index) as n eqn:En. clear En H index.
  do 100 (destruct n as [|n]; [reflexivity|]).
  lia.
Qed.

End Names.

(** C5 (as amended). [generate_descriptive_name] lowercases the folder name
    and turns its spaces and underscores into hyphens, appends a hyphen and
    the index, zero-padded to at least two characters, whenever [total] is
    not 1 (and omits it only when [total] is 1), then appends [-enhanced-],
    the date of the day and [.png]. An index from 0 to 99 is written with
    exactly two digits, and for [total >= 1] and such an index the name is
    the one the specification describes. In particular the names for
    [("My Folder", 1, 1)] and [("My Folder", 2, 5)] are
    [my-folder-enhanced-<date>.png] and [my-folder-02-enhanced-<date>.png]. *)
Theorem generate_name_shape (now : Py.datetime) (folder_name : string)
    (index total : Z) :
  App.generate_descriptive_name now folder_name index total
    = Spec.clean folder_name
      ++ (if (total =? 1)%Z then "" else "-" ++ Py.format_02d index)
      ++ "-enhanced-" ++ Py.strftime_Ymd now ++ ".png"
  /\ ((0 <= index <= 99)%Z -> Py.format_02d index = Spec.two_digits index)
  /\ ((1 <= total)%Z -> (0 <= index <= 99)%Z ->
      App.generate_descriptive_name now folder_name index total
        = Spec.generate_output_name (Py.strftime_Ymd now) folder_name index total)
  /\ App.generate_descriptive_name now "My Folder" 1 1
       = "my-folder-enhanced-" ++ Py.strftime_Ymd now ++ ".png"
  /\ App.generate_descriptive_name now "My Folder" 2 5
       = "my-folder-02-enhanced-" ++ Py.strftime_Ymd now ++ ".png".
Proof.
  assert (Hshape : forall i t,
    App.generate_descriptive_name now folder_name i t
    = Spec.clean folder_name
      ++ (if (t =? 1)%Z then "" else "-" ++ Py.format_02d i)
      ++ "-enhanced-" ++ Py.strftime_Ymd now ++ ".png").
  { intros i t. unfold App.generate_descriptive_name.
    rewrite clean_name_passes. destruct (t =? 1)%Z; [reflexivity|].
    now rewrite (append_assoc "-"). }
  split; [apply Hshape|].
  split; [apply format_02d_two_digits|].
  split; [|split; reflexivity].
  intros Ht Hi. rewrite Hshape. unfold Spec.generate_output_name.
  rewrite (format_02d_two_digits _ Hi).
  destruct (Z.eqb_spec total 1) as [->|Hne]; [reflexivity|].
  destruct (Z.ltb_spec 1 total); [reflexivity | lia].
Qed.

(** An instance of C5: the third of seven images of [Kitchen_Wall plan]. *)
Lemma generate_name_shape_witness :
  (0 <= 3 <= 99)%Z /\ (1 <= 7)%Z
  /\ App.generate_descriptive_name Examples.today "Kitchen_Wall plan" 3 7
     = Spec.generate_output_name (Py.strftime_Ymd Examples.today)
         "Kitchen_Wall plan" 3 7
  /\ App.generate_descriptive_name Examples.today "Kitchen_Wall plan" 3 7
     = "kitchen-wall-plan-03-enhanced-20261104.png".
Proof.
  assert (Hi : (0 <= 3 <= 99)%Z) by lia.
  assert (Ht : (1 <= 7)%Z) by lia.
  destruct (generate_name_shape Examples.today "Kitchen_Wall plan" 3 7)
    as (_ & _ & H & _).
  exact (conj Hi (conj Ht (conj (H Ht Hi) eq_refl))).
Defined.

(** C5 as stated fails for [total = 0]: the code writes the index although
    [total > 1] does not hold. *)
Lemma generate_name_counterexample :
  App.generate_descriptive_name Examples.today "My Folder" 1 0
    = "my-folder-01-enhanced-20261104.png"
  /\ Spec.generate_output_name (Py.strftime_Ymd Examples.today) "My Folder" 1 0
    = "my-folder-enhanced-20261104.png"
  /\ App.generate_descriptive_name Examples.today "My Folder" 1 0
     <> Spec.generate_output_name (Py.strftime_Ymd Examples.today) "My Folder" 1 0.
Proof. split; [reflexivity|]. split; [reflexivity|]. discriminate. Qed.

(* ===================================================================== *)
(** ** Normalization of the provider's response *)

Section Normalization.

(** [str.startswith] agrees with the character by character test of the
    specification. *)
Lemma startswith_begins (s pre : string) :
  Py.startswith s pre = Spec.begins_with pre s.
Proof.
  unfold Py.startswith. revert s.
  induction pre as [|a pre IH]; intros [|b s]; cbn; try reflexivity.
  destruct (ascii_dec a b) as [->|Hne].
  - now rewrite Ascii.eqb_refl, IH.
  - apply Ascii.eqb_neq in Hne. now rewrite Hne.
Qed.

(** What the test of the specification says, in the specification's
    words. *)
Lemma begins_with_spec (pre s : string) :
  Spec.begins_with pre s = true <-> exists rest, s = pre ++ rest.
Proof.
  revert s. induction pre as [|a pre IH]; intros s.
  - split; [intros _; now exists s | reflexivity].
  - destruct s as [|b s]; cbn [Spec.begins_with].
    + split; [discriminate | now intros [rest [=]]].
    + rewrite andb_true_iff, Ascii.eqb_eq, IH. split.
      * intros [-> [rest ->]]. now exists rest.
      * intros [rest H].
        change (String b s = String a (pre ++ rest)) in H.
        injection H as -> ->. eauto.
Qed.

Lemma http_letters_spec (s : string) :
  Spec.http_letters s = true <-> exists rest, s = "http" ++ rest.
Proof. apply begins_with_spec. Qed.

Lemma http_letters_not (s : string) :
  (~ exists rest, s = "http" ++ rest) -> Spec.http_letters s = false.
Proof.
  intros H. destruct (Spec.http_letters s) eqn:E; [|reflexivity].
  now apply http_letters_spec in E.
Qed.

(** A string with an HTTP scheme begins with the four characters. *)
Lemma http_scheme_letters (s : string) :
  Spec.http_scheme s = true -> Spec.http_letters s = true.
Proof.
  unfold Spec.http_scheme, Spec.http_letters.
  rewrite orb_true_iff, !begins_with_spec.
  intros [[rest ->]|[rest ->]]; [now exists ("://" ++ rest)|].
  now exists ("s://" ++ rest).
Qed.

(** The [for] loop over the items gives the first item that has a location,
    in both programs. *)
Lemma scan_first_match (items : list pyval) :
  (fix scan (items : list pyval) : option pyval :=
     match items with
     | [] => None
     | item :: rest =>
         match Value.url_attr item with
         | Some u => Some u
         | None => if Value.is_http_str item then Some item else scan rest
         end
     end) items
  = head (omap (Spec.direct Spec.http_letters) items).
Proof.
  induction items as [|item rest IH]; [reflexivity|].
  cbn [omap list_omap]. unfold Spec.direct at 1.
  destruct item as [|s|[u|] it t b];
    cbn [Value.url_attr Value.is_http_str Spec.step_a Spec.step_b
         Spec.or_else head];
    try exact IH; try reflexivity.
  rewrite startswith_begins. fold (Spec.http_letters s).
  destruct (Spec.http_letters s); [reflexivity | exact IH].
Qed.

(** No character of a string is a location. *)
Lemma chars_no_location (s : string) :
  head (omap (Spec.direct Spec.http_letters) (Value.chars s)) = None.
Proof.
  unfold Value.chars.
  induction (list_ascii_of_string s) as [|c l IH]; [reflexivity|].
  cbn [map omap list_omap].
  replace (Spec.direct Spec.http_letters (PStr (String c "")))
    with (@None pyval); [exact IH|].
  unfold Spec.direct, Spec.http_letters.
  cbn [Spec.step_a Spec.step_b Spec.or_else Spec.begins_with].
  now rewrite andb_false_r.
Qed.

Lemma app_location (v : pyval) :
  App.get_output_url v = Spec.location Spec.http_letters v.
Proof.
  unfold Spec.location, Spec.normalize, Spec.step_c, Spec.step_d.
  destruct v as [|s|u it t b]; [reflexivity| |];
    unfold App.get_output_url;
    cbn [Value.url_attr Value.is_http_str Value.iter_items Value.str_of
         Spec.step_a Spec.step_b from_option mbind option_bind Spec.or_else];
    rewrite ?startswith_begins;
    change (Spec.begins_with "http") with Spec.http_letters.
  - rewrite scan_first_match, chars_no_location.
    now destruct (Spec.http_letters s).
  - destruct u as [u|]; [reflexivity|].
    destruct it as [items|];
      cbn [from_option mbind option_bind Spec.or_else default].
    + rewrite scan_first_match.
      destruct (head _); [reflexivity|].
      now destruct (Spec.http_letters t).
    + now destruct (Spec.http_letters t).
Qed.

Lemma eval_location (v : pyval) :
  Eval.output_url_of v = Spec.location Spec.http_letters v.
Proof.
  unfold Spec.location, Spec.normalize, Spec.step_c, Spec.step_d.
  destruct v as [|s|u it t b]; [reflexivity| |];
    unfold Eval.output_url_of;
    cbn [Value.url_attr Value.is_http_str Value.iter_items Value.str_of
         Spec.step_a Spec.step_b from_option mbind option_bind Spec.or_else];
    rewrite ?startswith_begins;
    change (Spec.begins_with "http") with Spec.http_letters.
  - rewrite chars_no_location.
    now destruct (Spec.http_letters s).
  - destruct u as [u|]; [reflexivity|].
    destruct it as [items|];
      cbn [from_option mbind option_bind Spec.or_else default].
    + rewrite scan_first_match.
      destruct (head _); [reflexivity|].
      now destruct (Spec.http_letters t).
    + now destruct (Spec.http_letters t).
Qed.

(** The items before the first one with a location are skipped. *)
Lemma first_match_after_strings (pre : list string) (x : pyval)
    (post : list pyval) (u : pyval) :
  Forall (fun p => ~ exists rest, p = "http" ++ rest) pre ->
  Spec.direct Spec.http_letters x = Some u ->
  head (omap (Spec.direct Spec.http_letters) (map PStr pre ++ x :: post)%list)
  = Some u.
Proof.
  intros Hpre Hx. induction Hpre as [|p pre Hp _ IH].
  - cbn [map app omap list_omap]. now rewrite Hx.
  - cbn [map app omap list_omap].
    unfold Spec.direct at 1. cbn [Spec.step_a Spec.step_b Spec.or_else].
    now rewrite (http_letters_not _ Hp).
Qed.

End Normalization.

(** C2 (as amended). On every value [v] of the provider, [get_output_url]
    of the production CLI and the normalization inside [run_model] of the
    evaluation harness return what the attempts (a) to (e) of the
    specification give, in that order, when "beginning with an HTTP scheme"
    is read as "beginning with the four characters [http]": (a) the [url]
    attribute of [v] when it has one; (b) [v] itself when it is a string
    that begins with [http]; (c) when [v] can be iterated, the location of
    its first item that has a [url] attribute or is such a string; (d)
    [str(v)] when it begins with [http]; (e) [None] otherwise. In particular
    an object with a [url] attribute gives that attribute, a string that
    begins with [http] gives itself, a list of strings that do not begin
    with [http] followed by such a string or by an object with a [url]
    attribute gives that string or that attribute, and an object that has no
    [url] attribute, cannot be iterated and whose [str()] form does not begin
    with [http] gives [None]. [run_model] gives [None] when the remote call
    raises. *)
Theorem normalization_order (v u : pyval) (pre : list string)
    (post : list pyval) (it : option (list pyval)) (s text : string)
    (truth : bool) (w : world) (tick : nat) (name : string)
    (cfg : Eval.model_config) (uri : string) :
  App.get_output_url v = Spec.location Spec.http_letters v
  /\ Eval.output_url_of v = Spec.location Spec.http_letters v
  /\ Eval.run_model w tick name cfg uri
     = match replicate_run w tick (Eval.id cfg)
               (Eval.input_fn cfg Eval.PROMPT uri) with
       | Ok output => Spec.location Spec.http_letters output
       | Raise _ => PNone
       end
  /\ App.get_output_url (PObj (Some u) it text truth) = u
  /\ App.get_output_url (PStr ("http" ++ s)) = PStr ("http" ++ s)
  /\ (Forall (fun p => ~ exists rest, p = "http" ++ rest) pre ->
      App.get_output_url
        (PObj None (Some (map PStr pre ++ PStr ("http" ++ s) :: post)%list)
           text truth)
      = PStr ("http" ++ s)
      /\ App.get_output_url
           (PObj None
              (Some (map PStr pre ++ PObj (Some u) it text truth :: post)%list)
              text truth)
         = u)
  /\ ((~ exists rest, text = "http" ++ rest) ->
      App.get_output_url (PObj None None text truth) = PNone).
Proof.
  assert (Hs : Spec.http_letters ("http" ++ s) = true)
    by (apply http_letters_spec; now exists s).
  split; [apply app_location|].
  split; [apply eval_location|].
  split.
  { unfold Eval.run_model. destruct (replicate_run _ _ _ _); [|reflexivity].
    apply eval_location. }
  rewrite !app_location.
  split; [reflexivity|].
  split.
  { unfold Spec.location, Spec.normalize.
    cbn [Spec.step_a Spec.step_b Spec.or_else]. now rewrite Hs. }
  split.
  - intros Hpre.
    unfold Spec.location, Spec.normalize, Spec.step_c.
    cbn [Spec.step_a Spec.step_b Value.iter_items mbind option_bind
         Spec.or_else].
    rewrite (first_match_after_strings pre (PStr ("http" ++ s)) post
               (PStr ("http" ++ s)) Hpre).
    2: { unfold Spec.direct. cbn [Spec.step_a Spec.step_b Spec.or_else].
         now rewrite Hs. }
    now rewrite (first_match_after_strings pre (PObj (Some u) it text truth)
                   post u Hpre).
  - intros Htext.
    unfold Spec.location, Spec.normalize, Spec.step_c, Spec.step_d.
    cbn [Spec.step_a Spec.step_b Value.iter_items Value.str_of mbind
         option_bind Spec.or_else].
    now rewrite (http_letters_not _ Htext).
Qed.

(** An instance of C2 (as amended): two status strings before the first
    location of a list, and an object that is none of the shapes. *)
Lemma normalization_order_witness :
  Forall (fun p => ~ exists rest, p = "http" ++ rest) ["queued"; "done"]
  /\ (~ exists rest, "<object at 0x7f>" = "http" ++ rest)
  /\ (App.get_output_url
        (PObj None
           (Some (map PStr ["queued"; "done"]
                  ++ PStr ("http" ++ "://later.example") :: [])%list)
           "[...]" true)
      = PStr ("http" ++ "://later.example")
      /\ App.get_output_url
           (PObj None
              (Some (map PStr ["queued"; "done"]
                     ++ PObj (Some (PStr "https://r.example/out.png")) None
                          "<object at 0x7f>" true :: [])%list)
              "<object at 0x7f>" true)
         = PStr "https://r.example/out.png")
  /\ App.get_output_url (PObj None None "<object at 0x7f>" true) = PNone.
Proof.
  assert (Hpre : Forall (fun p => ~ exists rest, p = "http" ++ rest)
                   ["queued"; "done"])
    by (repeat constructor; intros [rest H]; discriminate H).
  assert (Htext : ~ exists rest, "<object at 0x7f>" = "http" ++ rest)
    by (intros [rest H]; discriminate H).
  pose proof (normalization_order PNone (PStr "https://r.example/out.png")
                ["queued"; "done"] [] None "://later.example"
                "<object at 0x7f>" true Examples.good_world 0 "nano-banana"
                {| Eval.id := "google/nano-banana";
                   Eval.input_fn := fun _ _ => [] |}
                "") as (_ & _ & _ & _ & _ & Hlist & Hobj).
  exact (conj Hpre (conj Htext (conj (Hlist Hpre) (Hobj Htext)))).
Defined.

(** C2 as stated fails on a string that begins with [http] and not with an
    HTTP scheme: the attempts of the specification give no location, both
    programs return the string. *)
Lemma normalization_counterexample :
  Spec.http_scheme "httpfoo" = false
  /\ Spec.location Spec.http_scheme (PStr "httpfoo") = PNone
  /\ App.get_output_url (PStr "httpfoo") = PStr "httpfoo"
  /\ Eval.output_url_of (PStr "httpfoo") = PStr "httpfoo"
  /\ App.get_output_url (PStr "httpfoo")
     <> Spec.location Spec.http_scheme (PStr "httpfoo").
Proof. repeat split; try reflexivity. discriminate. Qed.

(** On the strings that begin with an HTTP scheme the two readings agree:
    the four responses of the specification's test, on both programs: a
    [FileOutput] object, a plain URL, a list of two status strings and an
    object with a [url], and an object that is none of these. *)
Example normalization_cases :
  let file_output := PObj (Some (PStr "https://r.example/out.png")) None
                       "https://r.example/out.png" true in
  let mixed := PObj None (Some [PStr "queued"; PStr "done"; file_output;
                                PStr "http://later.example"])
                 "[...]" true in
  let opaque := PObj None None "<object at 0x7f>" true in
  let both f := (f file_output, f (PStr "http://r.example/x.png"), f mixed,
                 f opaque, f (PStr "error: no image"), f PNone) in
  both App.get_output_url
    = (PStr "https://r.example/out.png", PStr "http://r.example/x.png",
       PStr "https://r.example/out.png", PNone, PNone, PNone)
  /\ both Eval.output_url_of = both App.get_output_url
  /\ both (Spec.location Spec.http_scheme) = both App.get_output_url.
Proof. repeat split; reflexivity. Qed.

(* ===================================================================== *)
(** ** One image: failures are caught *)

Section One_image.

(** A [try] whose handler returns never raises. *)
Lemma try_except_returns {St A} (m : io St A) (handler : string -> io St A)
    (s : St) :
  (forall e s0, exists a s', handler e s0 = (Ok a, s')) ->
  exists a s', try_except m handler s = (Ok a, s').
Proof.
  intros Hh. unfold try_except.
  destruct (m s) as [[a|e] s1]; [now exists a, s1 | apply Hh].
Qed.

(** [process_image] never raises. *)
Lemma process_image_returns (w : world) (tick : nat)
    (folder image out_dir out_name model_name : string) (s : App.fs) :
  exists ok s', App.process_image w tick folder image out_dir out_name
                  model_name s = (Ok ok, s').
Proof.
  unfold App.process_image. apply try_except_returns.
  intros e s0. now exists false, s0.
Qed.

Lemma read_image_pure (folder image : string) (s s' : App.fs)
    (r : result (list byte)) :
  App.read_image folder image s = (r, s') -> s' = s.
Proof. unfold App.read_image. intros H. repeat case_match; congruence. Qed.

(** Putting a directory where it is already changes nothing. *)
Lemma with_enhanced_id (s : App.fs) (dir : string) (files : gmap string entry) :
  App.enhanced s !! dir = Some (NDir files) ->
  App.with_enhanced s (<[dir := NDir files]> (App.enhanced s)) = s.
Proof.
  intros H. destruct s as [q p e]. unfold App.with_enhanced. cbn in *.
  now rewrite insert_id.
Qed.

(** [mkdir(parents=True, exist_ok=True)] on the output directory: it
    raises when a regular file is in the way, and leaves the directory in
    place with the entries it has, none when it is new. *)
Lemma mkdir_enhanced_inv (dir : string) (s s0 : App.fs) (r : result unit) :
  App.mkdir_enhanced dir s = (r, s0) ->
  match Obs.output_dir_files s dir with
  | Some files =>
      r = Ok tt
      /\ s0 = App.with_enhanced s (<[dir := NDir files]> (App.enhanced s))
  | None => r = Raise "FileExistsError" /\ s0 = s
  end.
Proof.
  unfold App.mkdir_enhanced, Obs.output_dir_files.
  destruct (App.enhanced s !! dir) as [[data|files]|] eqn:Hdir;
    intros [= <- <-]; split; try reflexivity.
  now rewrite with_enhanced_id.
Qed.

(** The write into a directory that is in place, case by case. *)
Lemma write_enhanced_inv (w : world) (tick : nat) (dir name : string)
    (content : list byte) (s : App.fs) (files : gmap string entry)
    (s' : App.fs) (r : result unit) :
  let s0 := App.with_enhanced s (<[dir := NDir files]> (App.enhanced s)) in
  let holding data :=
    App.with_enhanced s
      (<[dir := NDir (<[name := EFile data]> files)]> (App.enhanced s)) in
  App.write_enhanced w tick dir name content s0 = (r, s') ->
  (files !! name = Some EDir /\ r = Raise "IsADirectoryError" /\ s' = s0)
  \/ (files !! name <> Some EDir
      /\ match disk w tick dir name with
         | OpenFails e => r = Raise e /\ s' = s0
         | WriteFails kept e => r = Raise e /\ s' = holding (take kept content)
         | Written => r = Ok tt /\ s' = holding content
         end).
Proof.
  intros s0 holding. unfold App.write_enhanced. subst s0 holding.
  unfold App.with_enhanced. cbn. rewrite lookup_insert_eq, !insert_insert_eq.
  destruct (files !! name) as [[data|]|] eqn:Hname; intros H.
  2: { injection H as <- <-. now left. }
  all: right; (split; [congruence|]).
  all: destruct (disk w tick dir name); injection H as <- <-;
    rewrite ?insert_insert_eq; now split.
Qed.

(** Every way a call of [process_image] can go. It fails and leaves
    everything as it was; or every step up to the download went through and
    the output directory is in place, and then the file cannot be opened, or
    it is opened and holds what the write left in it: the downloaded bytes
    when the call returns [True], the bytes kept before the error when it
    returns [False]. *)
Lemma process_image_inv (w : world) (tick : nat)
    (folder image out_dir out_name model_name : string) (s s' : App.fs)
    (ok : bool) :
  App.process_image w tick folder image out_dir out_name model_name s
    = (Ok ok, s') ->
  (ok = false /\ s' = s)
  \/ exists cfg data output content files,
       dict_get model_name App.MODELS = Some cfg
       /\ App.read_image folder image s = (Ok data, s)
       /\ replicate_run w tick (App.id cfg)
            (App.input_fn cfg App.SYSTEM_PROMPT (App.data_uri image data))
          = Ok output
       /\ Value.truthy (App.get_output_url output) = true
       /\ httpx_get w tick (App.get_output_url output) = Ok content
       /\ Obs.output_dir_files s out_dir = Some files
       /\ ((ok = false
            /\ (files !! out_name = Some EDir
                \/ exists e, disk w tick out_dir out_name = OpenFails e)
            /\ s' = App.with_enhanced s
                      (<[out_dir := NDir files]> (App.enhanced s)))
           \/ (files !! out_name <> Some EDir
               /\ exists held,
                    s' = App.with_enhanced s
                           (<[out_dir := NDir (<[out_name := EFile held]> files)]>
                              (App.enhanced s))
                    /\ ((ok = true
                         /\ disk w tick out_dir out_name = Written
                         /\ held = content)
                        \/ (ok = false
                            /\ exists kept e,
                                 disk w tick out_dir out_name = WriteFails kept e
                                 /\ held = take kept content)))).
Proof.
  unfold App.process_image, try_except, App.image_to_data_uri.
  unfold mbind, io_bind, lift. cbn [mret io_ret].
  destruct (dict_get model_name App.MODELS) as [cfg|]; cbn [from_option];
    [|intros [= <- <-]; now left].
  destruct (App.read_image folder image s) as [[data|e] s1] eqn:Hread;
    pose proof (read_image_pure _ _ _ _ _ Hread) as ->;
    cbn [mret io_ret]; [|intros [= <- <-]; now left].
  destruct (replicate_run w tick (App.id cfg)
              (App.input_fn cfg App.SYSTEM_PROMPT (App.data_uri image data)))
    as [output|e] eqn:Hrun; [|intros [= <- <-]; now left].
  destruct (Value.truthy (App.get_output_url output)) eqn:Htruthy;
    [|intros [= <- <-]; now left].
  destruct (httpx_get w tick (App.get_output_url output)) as [content|e]
    eqn:Hget; [|intros [= <- <-]; now left].
  destruct (App.mkdir_enhanced out_dir s) as [rm s0] eqn:Hmk.
  apply mkdir_enhanced_inv in Hmk.
  destruct (Obs.output_dir_files s out_dir) as [files|] eqn:Hfiles;
    destruct Hmk as [-> ->]; [|intros [= <- <-]; now left].
  destruct (App.write_enhanced w tick out_dir out_name content _)
    as [rw s2] eqn:Hwr.
  apply write_enhanced_inv in Hwr.
  intros H. right. exists cfg, data, output, content, files.
  split_and!; try assumption; try reflexivity.
  destruct Hwr as [(Hdir & -> & ->)|[Hfree Hdisk]].
  { injection H as <- <-. left. split_and!; auto. }
  destruct (disk w tick out_dir out_name) as [|e|kept e] eqn:Hd;
    destruct Hdisk as [-> ->]; injection H as <- <-.
  - right. split; [exact Hfree|]. eexists. split; [reflexivity|].
    left. now split_and!.
  - left. split_and!; eauto.
  - right. split; [exact Hfree|]. eexists. split; [reflexivity|].
    right. split; [reflexivity|]. now exists kept, e.
Qed.

(** The files of the output directory once it is in place. *)
Lemma enhanced_file_put (s : App.fs) (dir : string)
    (files files' : gmap string entry) (d n : string) :
  Obs.output_dir_files s dir = Some files ->
  App.enhanced_file
    (App.with_enhanced s (<[dir := NDir files']> (App.enhanced s))) d n
  = (if decide (d = dir)
     then match files' !! n with Some (EFile data) => Some data | _ => None end
     else App.enhanced_file s d n)
  /\ App.enhanced_file s dir n
     = match files !! n with Some (EFile data) => Some data | _ => None end.
Proof.
  unfold Obs.output_dir_files, App.enhanced_file. cbn. intros H. split.
  - destruct (decide (d = dir)) as [->|Hne].
    + now rewrite lookup_insert_eq.
    + now rewrite lookup_insert_ne.
  - destruct (App.enhanced s !! dir) as [[data|fs]|]; simplify_eq;
      [reflexivity | now rewrite lookup_empty].
Qed.


(** No call touches the queue or the processed root. *)
Lemma process_image_frame (w : world) (tick : nat)
    (folder image out_dir out_name model_name : string) (s s' : App.fs)
    (r : result bool) :
  App.process_image w tick folder image out_dir out_name model_name s = (r, s') ->
  App.queue s' = App.queue s /\ App.processed s' = App.processed s.
Proof.
  intros H.
  destruct (process_image_returns w tick folder image out_dir out_name
              model_name s) as (ok & s1 & H1).
  rewrite H1 in H. injection H as <- <-.
  apply process_image_inv in H1
    as [[_ ->]|(cfg & data & output & content & files & _ & _ & _ & _ & _
                & _ & [(_ & _ & ->)|(_ & held & -> & _)])]; now split.
Qed.

(** No call changes a file other than the one at its output path, or an
    output directory other than its own. *)
Lemma process_image_others (w : world) (tick : nat)
    (folder image out_dir out_name model_name : string) (s s' : App.fs)
    (ok : bool) :
  App.process_image w tick folder image out_dir out_name model_name s
    = (Ok ok, s') ->
  (forall d n, (d, n) <> (out_dir, out_name) ->
     App.enhanced_file s' d n = App.enhanced_file s d n)
  /\ (forall d, d <> out_dir -> App.enhanced s' !! d = App.enhanced s !! d).
Proof.
  intros H. apply process_image_inv in H
    as [[_ ->]|(cfg & data & output & content & files & _ & _ & _ & _ & _
                & Hfiles & [(_ & _ & ->)|(_ & held & -> & _)])];
    [now split| |].
  - split.
    + intros d n _.
      destruct (enhanced_file_put s out_dir files files d n Hfiles) as [-> E].
      destruct (decide (d = out_dir)) as [->|]; [now rewrite E | reflexivity].
    + intros d Hd. cbn. now rewrite lookup_insert_ne.
  - split.
    + intros d n Hdn.
      destruct (enhanced_file_put s out_dir files
                  (<[out_name := EFile held]> files) d n Hfiles) as [-> E].
      destruct (decide (d = out_dir)) as [->|]; [|reflexivity].
      rewrite lookup_insert_ne by congruence. now rewrite E.
    + intros d Hd. cbn. now rewrite lookup_insert_ne.
Qed.


(** [download_image] never raises. *)
Lemma download_image_returns (w : world) (tick : nat) (url : pyval)
    (dir name : string) (s : Eval.fs) :
  exists ok s', Eval.download_image w tick url dir name s = (Ok ok, s').
Proof.
  unfold Eval.download_image. apply try_except_returns.
  intros e s0. now exists false, s0.
Qed.

Lemma with_runs_id (s : Eval.fs) (dir : string) (files : gmap string entry) :
  Eval.runs s !! dir = Some (NDir files) ->
  Eval.with_runs s (<[dir := NDir files]> (Eval.runs s)) = s.
Proof.
  intros H. destruct s as [src r]. unfold Eval.with_runs. cbn in *.
  now rewrite insert_id.
Qed.

Lemma mkdir_run_inv (dir : string) (s s0 : Eval.fs) (r : result unit) :
  Eval.mkdir_run dir s = (r, s0) ->
  match Obs.run_dir_files s dir with
  | Some files =>
      r = Ok tt
      /\ s0 = Eval.with_runs s (<[dir := NDir files]> (Eval.runs s))
  | None => r = Raise "FileExistsError" /\ s0 = s
  end.
Proof.
  unfold Eval.mkdir_run, Obs.run_dir_files.
  destruct (Eval.runs s !! dir) as [[data|files]|] eqn:Hdir;
    intros [= <- <-]; split; try reflexivity.
  now rewrite with_runs_id.
Qed.

Lemma write_run_inv (w : world) (tick : nat) (dir name : string)
    (content : list byte) (s : Eval.fs) (files : gmap string entry)
    (s' : Eval.fs) (r : result unit) :
  let s0 := Eval.with_runs s (<[dir := NDir files]> (Eval.runs s)) in
  let holding data :=
    Eval.with_runs s
      (<[dir := NDir (<[name := EFile data]> files)]> (Eval.runs s)) in
  Eval.write_run w tick dir name content s0 = (r, s') ->
  (files !! name = Some EDir /\ r = Raise "IsADirectoryError" /\ s' = s0)
  \/ (files !! name <> Some EDir
      /\ match disk w tick dir name with
         | OpenFails e => r = Raise e /\ s' = s0
         | WriteFails kept e => r = Raise e /\ s' = holding (take kept content)
         | Written => r = Ok tt /\ s' = holding content
         end).
Proof.
  intros s0 holding. unfold Eval.write_run. subst s0 holding.
  unfold Eval.with_runs. cbn. rewrite lookup_insert_eq, !insert_insert_eq.
  destruct (files !! name) as [[data|]|] eqn:Hname; intros H.
  2: { injection H as <- <-. now left. }
  all: right; (split; [congruence|]).
  all: destruct (disk w tick dir name); injection H as <- <-;
    rewrite ?insert_insert_eq; now split.
Qed.

(** Every way a call of [download_image] can go, as for
    [process_image]. *)
Lemma download_image_inv (w : world) (tick : nat) (url : pyval)
    (dir name : string) (s s' : Eval.fs) (ok : bool) :
  Eval.download_image w tick url dir name s = (Ok ok, s') ->
  (ok = false /\ s' = s)
  \/ exists content files,
       httpx_get w tick url = Ok content
       /\ Obs.run_dir_files s dir = Some files
       /\ ((ok = false
            /\ (files !! name = Some EDir
                \/ exists e, disk w tick dir name = OpenFails e)
            /\ s' = Eval.with_runs s (<[dir := NDir files]> (Eval.runs s)))
           \/ (files !! name <> Some EDir
               /\ exists held,
                    s' = Eval.with_runs s
                           (<[dir := NDir (<[name := EFile held]> files)]>
                              (Eval.runs s))
                    /\ ((ok = true
                         /\ disk w tick dir name = Written
                         /\ held = content)
                        \/ (ok = false
                            /\ exists kept e,
                                 disk w tick dir name = WriteFails kept e
                                 /\ held = take kept content)))).
Proof.
  unfold Eval.download_image, try_except.
  unfold mbind, io_bind, lift. cbn [mret io_ret].
  destruct (httpx_get w tick url) as [content|e] eqn:Hget;
    [|intros [= <- <-]; now left].
  destruct (Eval.mkdir_run dir s) as [rm s0] eqn:Hmk.
  apply mkdir_run_inv in Hmk.
  destruct (Obs.run_dir_files s dir) as [files|] eqn:Hfiles;
    destruct Hmk as [-> ->]; [|intros [= <- <-]; now left].
  destruct (Eval.write_run w tick dir name content _) as [rw s2] eqn:Hwr.
  apply write_run_inv in Hwr.
  intros H. right. exists content, files.
  split_and!; try reflexivity.
  destruct Hwr as [(Hdir & -> & ->)|[Hfree Hdisk]].
  { injection H as <- <-. left. split_and!; auto. }
  destruct (disk w tick dir name) as [|e|kept e] eqn:Hd;
    destruct Hdisk as [-> ->]; injection H as <- <-.
  - right. split; [exact Hfree|]. eexists. split; [reflexivity|].
    left. now split_and!.
  - left. split_and!; eauto.
  - right. split; [exact Hfree|]. eexists. split; [reflexivity|].
    right. split; [reflexivity|]. now exists kept, e.
Qed.

Lemma run_file_put (s : Eval.fs) (dir : string)
    (files files' : gmap string entry) (d n : string) :
  Obs.run_dir_files s dir = Some files ->
  Eval.run_file (Eval.with_runs s (<[dir := NDir files']> (Eval.runs s))) d n
  = (if decide (d = dir)
     then match files' !! n with Some (EFile data) => Some data | _ => None end
     else Eval.run_file s d n)
  /\ Eval.run_file s dir n
     = match files !! n with Some (EFile data) => Some data | _ => None end.
Proof.
  unfold Obs.run_dir_files, Eval.run_file. cbn. intros H. split.
  - destruct (decide (d = dir)) as [->|Hne].
    + now rewrite lookup_insert_eq.
    + now rewrite lookup_insert_ne.
  - destruct (Eval.runs s !! dir) as [[data|fs]|]; simplify_eq;
      [reflexivity | now rewrite lookup_empty].
Qed.

Lemma download_image_true (w : world) (tick : nat) (url : pyval)
    (dir name : string) (s s' : Eval.fs) :
  Eval.download_image w tick url dir name s = (Ok true, s') ->
  exists content,
    httpx_get w tick url = Ok content
    /\ Eval.run_file s' dir name = Some content
    /\ Eval.source s' = Eval.source s.
Proof.
  intros H. apply download_image_inv in H
    as [[[=] _]|(content & files & Hget & Hfiles
                 & [([=] & _)|(_ & held & -> & Hheld)])].
  destruct Hheld as [(_ & _ & ->)|([=] & _)].
  exists content. split_and!; [exact Hget| |reflexivity].
  destruct (run_file_put s dir files (<[name := EFile content]> files)
              dir name Hfiles) as [-> _].
  rewrite decide_True by reflexivity. now rewrite lookup_insert_eq.
Qed.



End One_image.




(* ===================================================================== *)
(** ** The loop over the images of a folder *)

Section Folder_loop.

(** The loop never raises; it counts the calls of [process_image] that
    returned [True] and ends in the store these calls leave. *)
Lemma process_images_counts (w : world) (folder model_name : string)
    (total : nat) (images : list string) :
  forall (i c : nat) (s : App.fs),
  exists results s',
    App.image_results w folder model_name total i images s = (Ok results, s')
    /\ App.process_images w folder model_name total i images c s
       = (Ok (c + length (filter (fun b => b = true) results)), s')
    /\ length results = length images
    /\ App.queue s' = App.queue s /\ App.processed s' = App.processed s.
Proof.
  induction images as [|image rest IH]; intros i c s.
  - exists [], s. cbn. unfold mret, io_ret. rewrite Nat.add_0_r. eauto.
  - cbn [App.image_results App.process_images].
    unfold mbind, io_bind at 1 3.
    destruct (process_image_returns w i folder image folder
                (App.generate_descriptive_name (clock w i) folder
                   (Z.of_nat i) (Z.of_nat total)) model_name s)
      as (ok & s1 & H1).
    rewrite H1.
    destruct (process_image_frame _ _ _ _ _ _ _ _ _ _ H1) as [Hq Hp].
    destruct (IH (S i) (if ok then S c else c) s1)
      as (results & s' & Hr & Hc & Hl & Hq' & Hp').
    exists (ok :: results), s'.
    unfold mbind, io_bind. rewrite Hr, Hc. cbn [mret io_ret].
    split; [reflexivity|]. split.
    + destruct ok; rewrite filter_cons; case_decide; try done;
        cbn; repeat f_equal; lia.
    + cbn. split; [lia|]. split; congruence.
Qed.

Lemma filter_true_all (results : list bool) :
  length (filter (fun b => b = true) results) = length results ->
  Forall (fun b => b = true) results.
Proof.
  induction results as [|b results IH]; [constructor|].
  rewrite filter_cons. pose proof (length_filter (fun b => b = true) results).
  case_decide; cbn; intros Hl; [|lia].
  constructor; [assumption | apply IH; lia].
Qed.

End Folder_loop.

(* ===================================================================== *)
(** ** A folder, and a run of the production CLI *)

Section Folder.

Lemma get_images_in_folder_pure (folder : string) (s s' : App.fs)
    (r : result (list string)) :
  App.get_images_in_folder folder s = (r, s') -> s' = s.
Proof. unfold App.get_images_in_folder. intros H. repeat case_match; congruence. Qed.

Lemma mkdir_enhanced_frame (dir : string) (s s' : App.fs) (r : result unit) :
  App.mkdir_enhanced dir s = (r, s') ->
  App.queue s' = App.queue s /\ App.processed s' = App.processed s
  /\ (is_ok r = false -> s' = s).
Proof.
  unfold App.mkdir_enhanced. intros H.
  repeat case_match; simplify_eq; cbn; repeat split; auto; discriminate.
Qed.

(** What [process_folder] does: nothing for a folder without images, and
    otherwise the loop after the creation of the output directory. *)
Lemma process_folder_cases (w : world) (folder model_name : string)
    (s s1 : App.fs) (r : result (nat * nat)) :
  App.process_folder w folder model_name s = (r, s1) ->
  App.in_place s s1
  /\ forall success total, r = Ok (success, total) ->
     exists images,
       App.get_images_in_folder folder s = (Ok images, s)
       /\ total = length images
       /\ (images = [] -> success = 0 /\ s1 = s)
       /\ (images <> [] ->
           exists s0 results,
             App.mkdir_enhanced folder s = (Ok tt, s0)
             /\ App.image_results w folder model_name total 1 images s0
                = (Ok results, s1)
             /\ length results = total
             /\ success = length (filter (fun ok => ok = true) results)).
Proof.
  unfold App.process_folder, App.in_place. unfold mbind, io_bind at 1.
  destruct (App.get_images_in_folder folder s) as [[images|e] s0] eqn:Hg.
  2: { apply get_images_in_folder_pure in Hg as ->.
       intros [= <- <-]. split; [now split | discriminate]. }
  pose proof (get_images_in_folder_pure _ _ _ _ Hg) as ->.
  destruct images as [|image rest].
  { intros [= <- <-]. split; [now split|].
    intros ? ? [= <- <-]. exists []. repeat split; try easy. }
  unfold mbind, io_bind at 1.
  destruct (App.mkdir_enhanced folder s) as [[[]|e] s0] eqn:Hm.
  2: { destruct (mkdir_enhanced_frame _ _ _ _ Hm) as (Hq & Hp & _).
       intros [= <- <-]. split; [now split | discriminate]. }
  destruct (mkdir_enhanced_frame _ _ _ _ Hm) as (Hq & Hp & _).
  destruct (process_images_counts w folder model_name
              (length (image :: rest)) (image :: rest) 1 0 s0)
    as (results & s2 & Hr & Hc & Hl & Hq2 & Hp2).
  unfold mbind, io_bind. rewrite Hc. cbn [mret io_ret].
  intros [= <- <-]. split; [split; congruence|].
  intros ? ? [= <- <-]. exists (image :: rest).
  split; [reflexivity|]. split; [reflexivity|]. split; [discriminate|].
  intros _. exists s0, results. auto.
Qed.

(** [move_to_processed] either raises and changes nothing, or moves the
    folder to the destination it returns. *)
Lemma move_to_processed_cases (now : Py.datetime) (folder : string)
    (s s' : App.fs) (r : result string) :
  App.move_to_processed now folder s = (r, s') ->
  match r with
  | Raise _ => s' = s
  | Ok dest =>
      App.relocated folder s s'
      /\ App.enhanced s' = App.enhanced s
      /\ dest = (if bool_decide (is_Some (App.processed s !! folder))
                 then folder ++ "-" ++ Py.strftime_Ymd_HMS now else folder)
      /\ App.processed s' !! dest = App.queue_lookup s folder
  end.
Proof.
  unfold App.move_to_processed, App.rename_to_processed, App.relocated,
    App.queue_lookup.
  intros H. io_cases.
  all: cbn; rewrite ?lookup_insert_eq; repeat split; eauto 10.
Qed.

Lemma in_place_refl (s : App.fs) : App.in_place s s.
Proof. now split. Qed.

Lemma relocated_not_in_place (folder : string) (s s' : App.fs) :
  App.relocated folder s s' -> ~ App.in_place s s'.
Proof.
  intros (q & n & dest & Hq & Hn & Hq' & _) [Hin _].
  rewrite Hq, Hq' in Hin. injection Hin as Hin.
  apply (f_equal (fun m => m !! folder)) in Hin.
  rewrite lookup_delete_eq in Hin. congruence.
Qed.

(** [main] after the selection: the folder moves only after a loop in which
    every image succeeded, and stays when one failed. *)
Lemma run_selected_cases (w : world) (model_name folder : string)
    (inputs : list string) (s s' : App.fs) (r : result outcome) :
  App.run_selected w model_name folder inputs s = (r, s') ->
  ((exists s1, App.all_succeeded w folder model_name s s1
               /\ App.relocated folder s1 s')
   \/ App.in_place s s')
  /\ (forall success total s1,
        App.process_folder w folder model_name s = (Ok (success, total), s1) ->
        success < total -> App.in_place s s').
Proof.
  unfold App.run_selected. unfold mbind, io_bind at 1.
  destruct (App.get_images_in_folder folder s) as [[images|e] s0] eqn:Hg;
    pose proof (get_images_in_folder_pure _ _ _ _ Hg) as ->.
  2: { intros [= <- <-]. split; [right|intros]; apply in_place_refl. }
  unfold mbind, io_bind at 1. unfold lift at 1.
  destruct (App.ask "y" App.yes_no inputs) as [[confirm rest]|e].
  2: { intros [= <- <-]. split; [right|intros]; apply in_place_refl. }
  destruct (negb (String.eqb (Py.lower confirm) "y")).
  { intros [= <- <-]. split; [right|intros]; apply in_place_refl. }
  unfold mbind, io_bind at 1.
  destruct (App.process_folder w folder model_name s)
    as [[[success total]|e] s1] eqn:Hpf;
    destruct (process_folder_cases _ _ _ _ _ _ Hpf) as [Hin Hres].
  2: { intros [= <- <-]. split; [now right | discriminate]. }
  destruct (Hres success total eq_refl) as (images' & Hg' & Htot & Hempty & Hloop).
  rewrite Hg in Hg'. injection Hg' as <-.
  destruct (Nat.eqb_spec success total) as [Heq|Hne]; cbn [andb].
  2: { intros [= <- <-]. split; [now right|intros; assumption]. }
  destruct (Nat.ltb_spec 0 total) as [Hpos|Hzero].
  2: { intros [= <- <-]. split; [now right|intros; assumption]. }
  unfold mbind, io_bind at 1. unfold lift at 1.
  destruct (App.ask "y" App.yes_no rest) as [[move_confirm rest']|e].
  2: { intros [= <- <-]. split; [now right|intros; assumption]. }
  destruct (String.eqb (Py.lower move_confirm) "y").
  2: { intros [= <- <-]. split; [now right|intros; assumption]. }
  unfold mbind, io_bind.
  destruct (App.move_to_processed (clock w (S total)) folder s1)
    as [[dest|e] s2] eqn:Hmv;
    pose proof (move_to_processed_cases _ _ _ _ _ Hmv) as Hcases; cbn in Hcases.
  2: { subst s2. intros [= <- <-].
       split; [now right|intros; assumption]. }
  destruct Hcases as (Hrel & _).
  intros [= <- <-]. split.
  - left. exists s1. split; [|exact Hrel].
    assert (Hne : images <> []) by (intros ->; cbn in Htot; lia).
    destruct (Hloop Hne) as (s0 & results & Hmk & Hr & Hl & Hc).
    exists images, s0, results. rewrite <- Htot.
    repeat split; try assumption.
    apply filter_true_all. lia.
  - intros success' total' s1' [= <- <- <-] Hlt. lia.
Qed.

End Folder.

(** C1. In every run of the production CLI, either the selected folder left
    the queue for the processed root after a loop in which every one of its
    images was processed with success, or nothing moved under the queue and
    the processed root. When the loop counts fewer successes than images,
    nothing moved. *)
Theorem relocation_only_after_full_success (w : world) (a : App.args)
    (inputs : list string) (s s' : App.fs) (o : outcome) :
  App.main w a inputs s = (o, s') ->
  ((exists folder s1,
      App.selects w inputs s folder
      /\ App.all_succeeded w folder (App.model a) s s1
      /\ App.relocated folder s1 s')
   \/ App.in_place s s')
  /\ (forall folder success total s1,
        App.selects w inputs s folder ->
        App.process_folder w folder (App.model a) s = (Ok (success, total), s1) ->
        success < total ->
        App.in_place s s').
Proof.
  unfold App.main.
  destruct (negb _);
    [intros [= <- <-]; split; [right|intros]; apply in_place_refl|].
  destruct (App.list_models a);
    [intros [= <- <-]; split; [right|intros]; apply in_place_refl|].
  destruct (App.check_api_key w);
    [|intros [= <- <-]; split; [right|intros]; apply in_place_refl].
  destruct (App.get_queue_folders s) as [folders|] eqn:Hf;
    [|intros [= <- <-]; split; [right|intros]; apply in_place_refl].
  destruct (App.display_folder_menu w folders inputs) as [[[folder|] rest]|e]
    eqn:Hm;
    [|intros [= <- <-]; split; [right|intros]; apply in_place_refl..].
  destruct (App.run_selected w (App.model a) folder rest s) as [r s1] eqn:Hrun.
  destruct (run_selected_cases _ _ _ _ _ _ _ Hrun) as [Hmove Hstay].
  assert (Hsel : App.selects w inputs s folder) by (now exists folders, rest).
  intros H. assert (s' = s1) as -> by (destruct r; congruence). clear H.
  split.
  - destruct Hmove as [(s2 & Hall & Hrel)|Hin]; [left|now right].
    now exists folder, s2.
  - intros folder' success total s2 (folders' & rest' & Hf' & Hm') Hpf Hlt.
    rewrite Hf in Hf'. injection Hf' as <-.
    rewrite Hm in Hm'. injection Hm' as <- <-.
    exact (Hstay _ _ _ Hpf Hlt).
Qed.

(** An instance of C1, and the scenario of the specification: a folder of
    three images of which the second fails. The loop returns (2, 3), two
    files are written, the folder stays in the queue. *)
Lemma relocation_only_after_full_success_witness :
  App.main Examples.flaky_world Examples.nano ["1"; "y"; "y"] Examples.app_fs
    = (Returned, Examples.after_partial)
  /\ App.selects Examples.flaky_world ["1"; "y"; "y"] Examples.app_fs "My Board"
  /\ App.process_folder Examples.flaky_world "My Board" "nano-banana"
       Examples.app_fs = (Ok (2, 3), Examples.after_partial)
  /\ 2 < 3
  /\ App.in_place Examples.app_fs Examples.after_partial.
Proof.
  assert (Hmain : App.main Examples.flaky_world Examples.nano ["1"; "y"; "y"]
                    Examples.app_fs = (Returned, Examples.after_partial))
    by (vm_compute; reflexivity).
  assert (Hsel : App.selects Examples.flaky_world ["1"; "y"; "y"]
                   Examples.app_fs "My Board")
    by (exists ["My Board"], ["y"; "y"]; split; vm_compute; reflexivity).
  assert (Hpf : App.process_folder Examples.flaky_world "My Board" "nano-banana"
                  Examples.app_fs = (Ok (2, 3), Examples.after_partial))
    by (vm_compute; reflexivity).
  assert (Hlt : 2 < 3) by lia.
  destruct (relocation_only_after_full_success _ _ _ _ _ _ Hmain) as [_ Hstay].
  exact (conj Hmain (conj Hsel (conj Hpf (conj Hlt
           (Hstay "My Board" 2 3 Examples.after_partial Hsel Hpf Hlt))))).
Defined.

(** The run in which the three images succeed and the move is accepted does
    relocate the folder. *)
Example full_success_relocates :
  App.main Examples.good_world Examples.nano ["1"; "y"; "y"] Examples.app_fs
    = (Returned, Examples.after_full)
  /\ App.process_folder Examples.good_world "My Board" "nano-banana"
       Examples.app_fs
     = (Ok (3, 3),
        App.with_enhanced Examples.app_fs (App.enhanced Examples.after_full)).
Proof. split; vm_compute; reflexivity. Qed.

(** C6 (as amended). For a queue folder without eligible images,
    [process_folder] returns (0, 0) without raising and leaves the
    filesystem exactly as it was: the output subdirectory is not created.
    The run ends there, without asking about the move. *)
Theorem empty_folder_no_effect (w : world) (folder model_name : string)
    (s : App.fs) (inputs rest : list string) (confirm : string) :
  App.get_images_in_folder folder s = (Ok [], s) ->
  App.process_folder w folder model_name s = (Ok (0, 0), s)
  /\ (App.ask "y" App.yes_no inputs = Ok (confirm, rest) ->
      Py.lower confirm = "y" ->
      App.run_selected w model_name folder inputs s = (Ok Returned, s)).
Proof.
  intros Hg.
  assert (Hpf : App.process_folder w folder model_name s = (Ok (0, 0), s)).
  { unfold App.process_folder, mbind, io_bind. now rewrite Hg. }
  split; [exact Hpf|].
  intros Hask Hy. unfold App.run_selected, mbind, io_bind, lift.
  rewrite Hg, Hask, Hy.
  change (String.eqb "y" "y") with true. cbn [negb].
  now rewrite Hpf.
Qed.

(** An instance of C6: a folder with a text file and a subdirectory; the
    only line typed after the selection is the confirmation. *)
Lemma empty_folder_no_effect_witness :
  App.get_images_in_folder "Empty" Examples.empty_fs = (Ok [], Examples.empty_fs)
  /\ App.ask "y" App.yes_no [""] = Ok ("y", [])
  /\ Py.lower "y" = "y"
  /\ App.process_folder Examples.good_world "Empty" "nano-banana"
       Examples.empty_fs = (Ok (0, 0), Examples.empty_fs)
  /\ App.run_selected Examples.good_world "nano-banana" "Empty" [""]
       Examples.empty_fs = (Ok Returned, Examples.empty_fs).
Proof.
  assert (Hg : App.get_images_in_folder "Empty" Examples.empty_fs
               = (Ok [], Examples.empty_fs)) by (vm_compute; reflexivity).
  assert (Hask : App.ask "y" App.yes_no [""] = Ok ("y", []))
    by (vm_compute; reflexivity).
  assert (Hy : Py.lower "y" = "y") by reflexivity.
  destruct (empty_folder_no_effect Examples.good_world "Empty" "nano-banana"
              Examples.empty_fs [""] [] "y" Hg) as [Hpf Hrun].
  exact (conj Hg (conj Hask (conj Hy (conj Hpf (Hrun Hask Hy))))).
Defined.

(** C6 as stated fails: after [process_folder] on a folder without images
    there is no output subdirectory under the enhanced root. *)
Lemma empty_folder_counterexample :
  App.get_images_in_folder "Empty" Examples.empty_fs = (Ok [], Examples.empty_fs)
  /\ App.process_folder Examples.good_world "Empty" "nano-banana"
       Examples.empty_fs = (Ok (0, 0), Examples.empty_fs)
  /\ App.enhanced Examples.empty_fs !! "Empty" = None
  /\ ~ (exists s' files,
          App.process_folder Examples.good_world "Empty" "nano-banana"
            Examples.empty_fs = (Ok (0, 0), s')
          /\ App.enhanced s' !! "Empty" = Some (NDir files)).
Proof.
  assert (Hpf : App.process_folder Examples.good_world "Empty" "nano-banana"
                  Examples.empty_fs = (Ok (0, 0), Examples.empty_fs))
    by (vm_compute; reflexivity).
  split; [vm_compute; reflexivity|]. split; [exact Hpf|].
  split; [reflexivity|].
  intros (s' & files & H & Hdir). rewrite Hpf in H. injection H as <-.
  discriminate Hdir.
Qed.

(* ===================================================================== *)
(** ** Moving a folder to the processed root *)

Section Move.




End Move.




(* ===================================================================== *)
(** ** Failures of one item and the rest of the run *)

Section Isolation.

(** Production CLI: once the output directory is there, the loop goes over
    every image of the folder and [process_folder] returns, whatever raises
    inside the calls of [process_image]. *)
Lemma process_folder_continues (w : world) (folder model_name : string)
    (s s0 : App.fs) (images : list string) :
  App.get_images_in_folder folder s = (Ok images, s) ->
  images <> [] ->
  App.mkdir_enhanced folder s = (Ok tt, s0) ->
  exists results s1,
    App.image_results w folder model_name (length images) 1 images s0
      = (Ok results, s1)
    /\ length results = length images
    /\ App.process_folder w folder model_name s
       = (Ok (length (filter (fun ok => ok = true) results), length images), s1).
Proof.
  intros Hg Hne Hm.
  destruct (process_images_counts w folder model_name (length images) images
              1 0 s0) as (results & s1 & Hr & Hc & Hl & _).
  exists results, s1. split; [exact Hr|]. split; [exact Hl|].
  unfold App.process_folder, mbind, io_bind. rewrite Hg.
  destruct images as [|image rest]; [contradiction|].
  now rewrite Hm, Hc.
Qed.

(** Evaluation harness: the loop over the models never raises and adds one
    row per model. *)
Lemma run_models_returns (w : world) (run_dir img_name img_stem uri : string)
    (models : list (string * Eval.model_config)) :
  forall (tick : nat) (results : list Eval.row) (s : Eval.fs),
  exists rows s',
    Eval.run_models w run_dir img_name img_stem uri tick models results s
      = (Ok (results ++ rows)%list, s')
    /\ length rows = length models.
Proof.
  induction models as [|[model_name cfg] rest IH]; intros tick results s.
  - exists [], s. now rewrite app_nil_r.
  - cbn [Eval.run_models]. unfold mbind, io_bind at 1.
    destruct (Value.truthy _).
    + unfold mbind, io_bind at 1.
      destruct (download_image_returns w tick
                  (Eval.run_model w tick model_name cfg uri) run_dir
                  (img_stem ++ "_" ++ model_name ++ ".png") s)
        as (ok & s1 & ->).
      cbn [mret io_ret].
      destruct (IH (S tick)
                  (results ++ [(img_name, model_name,
                                if ok then Eval.success
                                else Eval.download_failed)])%list s1)
        as (rows & s' & -> & Hl).
      eexists (_ :: rows), s'. rewrite <- app_assoc. cbn. auto.
    + cbn [mret io_ret].
      destruct (IH (S tick)
                  (results ++ [(img_name, model_name, Eval.api_failed)])%list s)
        as (rows & s' & -> & Hl).
      eexists (_ :: rows), s'. rewrite <- app_assoc. cbn. auto.
Qed.

End Isolation.

(** C3, on the input where it fails. The source directory of the evaluation
    harness holds [a.png], which cannot be read (a directory), and the
    image [b.png]. Encoding [a.png] raises outside every [try]: [main] ends
    with the exception, [b.png] is never processed, and nothing but the
    empty run directory is left. *)
Theorem eval_encoding_failure_aborts :
  Eval.source_images Examples.eval_dir_fs = ["a.png"; "b.png"]
  /\ Eval.image_to_data_uri "a.png" Examples.eval_dir_fs
     = (Raise "IsADirectoryError", Examples.eval_dir_fs)
  /\ Eval.main Examples.good_world Examples.eval_dir_fs
     = (Uncaught "IsADirectoryError",
        {| Eval.source := Eval.source Examples.eval_dir_fs;
           Eval.runs := {[ "20261104-093005" := NDir ∅ ]} |}).
Proof. repeat split; vm_compute; reflexivity. Qed.

(** The same world on a source directory whose files can all be read: every
    pair of an image and a model gets its row and its file, and the log is
    written. *)
Example eval_run_completes :
  let '(o, s') := Eval.main Examples.good_world Examples.eval_fs in
  o = Returned
  /\ Eval.run_file s' "20261104-093005" "a_flux-kontext-pro.png"
     = Some Examples.png_bytes
  /\ Eval.run_file s' "20261104-093005" "a_nano-banana-pro.png"
     = Some Examples.png_bytes
  /\ is_Some (Eval.run_file s' "20261104-093005" "results.txt").
Proof. vm_compute. repeat split; eauto. Qed.

(* ===================================================================== *)
(** * Further properties of the code *)

#[local] Set Warnings "-clear-no-such-hyp".

(** ** Listings of the queue *)

Section Listing.

Lemma map_is_fmap {A B} (f : A -> B) (l : list A) : map f l = f <$> l.
Proof. induction l as [|x l IH]; [reflexivity|]. cbn. now rewrite IH. Qed.

(** [sorted] reorders and does nothing else. *)
Lemma sorted_spec (l : list string) :
  (forall x, x ∈ sorted l <-> x ∈ l)
  /\ Sorted String.le (sorted l)
  /\ (NoDup l -> NoDup (sorted l))
  /\ length (sorted l) = length l.
Proof.
  unfold sorted.
  pose proof (merge_sort_Permutation String.le l) as Hp.
  split; [intros x; now rewrite Hp|].
  split; [apply (Sorted_merge_sort String.le)|].
  split; [now rewrite Hp | now rewrite Hp].
Qed.

Lemma names_of_filter_NoDup {V} (P : string * V -> Prop)
    `{!forall x, Decision (P x)} (m : gmap string V) :
  NoDup (map fst (filter P (map_to_list m))).
Proof.
  rewrite map_is_fmap.
  assert (Hsub : fst <$> filter P (map_to_list m) `sublist_of` (map_to_list m).*1)
    by apply fmap_sublist, sublist_filter.
  exact (sublist_NoDup _ _ (NoDup_fst_map_to_list m) Hsub).
Qed.

Lemma names_of_filter_elem {V} (P : string * V -> Prop)
    `{!forall x, Decision (P x)} (m : gmap string V) (name : string) :
  name ∈ map fst (filter P (map_to_list m))
  <-> exists v, m !! name = Some v /\ P (name, v).
Proof.
  rewrite map_is_fmap, list_elem_of_fmap. split.
  - intros ([k v] & -> & Hin). apply list_elem_of_filter in Hin as [HP Hin].
    apply elem_of_map_to_list in Hin. now exists v.
  - intros (v & Hm & HP). exists (name, v). split; [reflexivity|].
    apply list_elem_of_filter. split; [exact HP|].
    now apply elem_of_map_to_list.
Qed.

End Listing.

(** X1. On a folder of the queue, [get_images_in_folder] returns, without
    changing anything, the names of the regular files whose lowercased
    extension is one of [IMAGE_EXTENSIONS], and no other name: each once, in
    lexicographic order. Subdirectories and other files are left out. *)
Theorem images_listing (s : App.fs) (folder : string)
    (files : gmap string entry) :
  App.queue_lookup s folder = Some (NDir files) ->
  exists images,
    App.get_images_in_folder folder s = (Ok images, s)
    /\ (forall name,
          name ∈ images
          <-> exists data,
                files !! name = Some (EFile data)
                /\ Py.lower (Py.suffix name) ∈ App.IMAGE_EXTENSIONS)
    /\ NoDup images
    /\ Sorted String.le images.
Proof.
  intros Hq. unfold App.get_images_in_folder. rewrite Hq.
  eexists. split; [reflexivity|].
  destruct (sorted_spec
              (map fst (filter (fun kv => App.is_image kv = true)
                          (map_to_list files))))
    as (Hin & Hsorted & Hnodup & _).
  split; [|split; [|exact Hsorted]].
  2: { apply Hnodup.
       exact (@names_of_filter_NoDup _ _ _ files). }
  intros name. rewrite Hin.
  rewrite (@names_of_filter_elem _ _ _ files).
  unfold App.is_image. split.
  - intros ([data|] & Hf & HP); cbn in HP; [|discriminate].
    exists data. split; [exact Hf|]. now apply bool_decide_eq_true in HP.
  - intros (data & Hf & Hext). exists (EFile data). split; [exact Hf|].
    cbn. now apply bool_decide_eq_true.
Qed.

(** An instance of X1, the folder of the specification's test: [b.png],
    [a.jpg], [notes.txt] and a subdirectory. *)
Lemma images_listing_witness :
  App.queue_lookup Cases.listing_fs "sprint"
    = Some (NDir {[ "b.png" := EFile Examples.png_bytes;
                    "a.jpg" := EFile Examples.jpg_bytes;
                    "notes.txt" := EFile [];
                    "drafts" := EDir ]})
  /\ App.get_images_in_folder "sprint" Cases.listing_fs
     = (Ok ["a.jpg"; "b.png"], Cases.listing_fs)
  /\ exists images,
       App.get_images_in_folder "sprint" Cases.listing_fs
         = (Ok images, Cases.listing_fs)
       /\ (forall name,
             name ∈ images
             <-> exists data,
                   ({[ "b.png" := EFile Examples.png_bytes;
                       "a.jpg" := EFile Examples.jpg_bytes;
                       "notes.txt" := EFile [];
                       "drafts" := EDir ]} : gmap string entry) !! name
                   = Some (EFile data)
                   /\ Py.lower (Py.suffix name) ∈ App.IMAGE_EXTENSIONS)
       /\ NoDup images
       /\ Sorted String.le images.
Proof.
  assert (Hq : App.queue_lookup Cases.listing_fs "sprint"
               = Some (NDir {[ "b.png" := EFile Examples.png_bytes;
                               "a.jpg" := EFile Examples.jpg_bytes;
                               "notes.txt" := EFile [];
                               "drafts" := EDir ]}))
    by (vm_compute; reflexivity).
  split; [exact Hq|]. split; [vm_compute; reflexivity|].
  exact (images_listing Cases.listing_fs "sprint" _ Hq).
Defined.

(** X2. [get_queue_folders] exits exactly when the queue root is missing;
    otherwise it returns the names of the directories directly under the
    queue root, and no other name: each once, in lexicographic order. *)
Theorem queue_listing (s : App.fs) :
  match App.queue s with
  | None => App.get_queue_folders s = None
  | Some q =>
      exists folders,
        App.get_queue_folders s = Some folders
        /\ (forall name,
              name ∈ folders <-> exists files, q !! name = Some (NDir files))
        /\ NoDup folders
        /\ Sorted String.le folders
  end.
Proof.
  unfold App.get_queue_folders. destruct (App.queue s) as [q|]; [|reflexivity].
  eexists. split; [reflexivity|].
  destruct (sorted_spec
              (map fst (filter (fun kv : string * node => App.is_dir kv.2 = true)
                          (map_to_list q))))
    as (Hin & Hsorted & Hnodup & _).
  split; [|split; [|exact Hsorted]].
  2: { apply Hnodup.
       exact (@names_of_filter_NoDup _ _ _ q). }
  intros name. rewrite Hin.
  rewrite (@names_of_filter_elem _ _ _ q).
  split.
  - intros ([data|files] & Hf & HP); cbn in HP; [discriminate|]. now exists files.
  - intros (files & Hf). now exists (NDir files).
Qed.

Example queue_listing_example :
  App.get_queue_folders Cases.listing_fs = Some ["Arch_Review"; "sprint"].
Proof. vm_compute. reflexivity. Qed.

(* ===================================================================== *)
(** ** The prompts of the production CLI *)

Section Prompts.

(** An answer to a prompt with choices is one of the choices, when the
    default is. *)
Lemma ask_in_choices (default : string) (choices : list string)
    (inputs rest : list string) (value : string) :
  default ∈ choices ->
  App.ask default (Some choices) inputs = Ok (value, rest) ->
  value ∈ choices /\ length rest < length inputs.
Proof.
  intros Hd. induction inputs as [|line inputs IH]; [discriminate|].
  cbn [App.ask]. destruct (Py.nonempty line); cbn [negb].
  2: { intros [= <- <-]. split; [exact Hd | cbn; lia]. }
  case_bool_decide as Hin.
  - intros [= <- <-]. split; [exact Hin | cbn; lia].
  - intros H. destruct (IH H) as [Hv Hl]. split; [exact Hv | cbn; lia].
Qed.

Lemma menu_loop_selects (w : world) (folders : list string) :
  forall (inputs rest : list string) (folder : string),
  App.menu_loop w folders inputs = Ok (Some folder, rest) ->
  exists skipped line n,
    inputs = (skipped ++ line :: rest)%list
    /\ Forall (Obs.skipped_line w folders) skipped
    /\ int_of_str w (if Py.nonempty line then Py.strip line else "1") = Some n
    /\ (1 <= n <= Z.of_nat (length folders))%Z
    /\ folders !! Z.to_nat (n - 1) = Some folder.
Proof.
  induction inputs as [|line inputs IH]; intros rest folder; [discriminate|].
  cbn [App.menu_loop].
  set (choice := if Py.nonempty line then Py.strip line else "1").
  destruct (String.eqb_spec (Py.lower choice) "q") as [Hq|Hq]; [discriminate|].
  assert (Hskip : forall rest0 folder0,
            match int_of_str w choice with
            | Some n => ~ (1 <= n <= Z.of_nat (length folders))%Z
            | None => True
            end ->
            App.menu_loop w folders inputs = Ok (Some folder0, rest0) ->
            exists skipped line0 n,
              line :: inputs = (skipped ++ line0 :: rest0)%list
              /\ Forall (Obs.skipped_line w folders) skipped
              /\ int_of_str w (if Py.nonempty line0 then Py.strip line0 else "1")
                 = Some n
              /\ (1 <= n <= Z.of_nat (length folders))%Z
              /\ folders !! Z.to_nat (n - 1) = Some folder0).
  { intros rest0 folder0 Hbad H.
    destruct (IH _ _ H) as (skipped & line0 & n & -> & Hsk & Hn & Hr & Hf).
    exists (line :: skipped), line0, n. split; [reflexivity|].
    split; [|auto]. constructor; [|exact Hsk]. now split. }
  destruct (int_of_str w choice) as [n|] eqn:Hn; [|now apply Hskip].
  destruct (0 <=? n - 1)%Z eqn:H0; cbn [andb]; [|apply Hskip; lia].
  destruct (n - 1 <? Z.of_nat (length folders))%Z eqn:H1; [|apply Hskip; lia].
  intros [= Hf <-]. exists [], line, n. repeat split; try easy; lia.
Qed.

(** [main] after the selection returns normally or raises: it never
    exits. *)
Lemma run_selected_returned (w : world) (model_name folder : string)
    (inputs : list string) (s s' : App.fs) (o : outcome) :
  App.run_selected w model_name folder inputs s = (Ok o, s') -> o = Returned.
Proof.
  unfold App.run_selected. intros H. io_cases.
Qed.

(** [main] after the selection changes nothing unless the confirmation was
    answered [y]. *)
Lemma run_selected_needs_yes (w : world) (model_name folder : string)
    (inputs : list string) (s s' : App.fs) (r : result outcome) :
  App.run_selected w model_name folder inputs s = (r, s') ->
  s' <> s ->
  exists rest, App.ask "y" App.yes_no inputs = Ok ("y", rest).
Proof.
  unfold App.run_selected. unfold mbind, io_bind at 1.
  destruct (App.get_images_in_folder folder s) as [[images|e] s0] eqn:Hg;
    pose proof (get_images_in_folder_pure _ _ _ _ Hg) as ->.
  2: { intros [= <- <-] Hne. contradiction. }
  unfold mbind, io_bind at 1. unfold lift at 1.
  destruct (App.ask "y" App.yes_no inputs) as [[confirm rest]|e] eqn:Hask.
  2: { intros [= <- <-] Hne. contradiction. }
  destruct (ask_in_choices "y" ["y"; "n"] _ _ _ ltac:(set_solver) Hask)
    as [Hin _].
  apply elem_of_cons in Hin as [->|Hin].
  { intros _ _. now exists rest. }
  apply list_elem_of_singleton in Hin as ->.
  change (negb (String.eqb (Py.lower "n") "y")) with true. cbn iota.
  intros [= <- <-] Hne. contradiction.
Qed.

End Prompts.

(** X3. When [display_folder_menu] returns a folder, that folder is the one
    of the list whose number the first selecting line gives: the lines
    before it were neither [q] nor the number of a folder, the empty line
    counts as [1] and any other line is read without the whitespace around
    it, the number [n] lies between 1 and the number of folders, and the
    folder is the [n]-th of the list. With no folder in the queue it
    returns nothing and reads no line. *)
Theorem menu_selection (w : world) (folders inputs rest : list string)
    (folder : string) :
  App.display_folder_menu w folders inputs = Ok (Some folder, rest) ->
  (exists skipped line n,
     inputs = (skipped ++ line :: rest)%list
     /\ Forall (Obs.skipped_line w folders) skipped
     /\ int_of_str w (if Py.nonempty line then Py.strip line else "1") = Some n
     /\ (1 <= n <= Z.of_nat (length folders))%Z
     /\ folders !! Z.to_nat (n - 1) = Some folder)
  /\ folder ∈ folders
  /\ App.display_folder_menu w [] inputs = Ok (None, inputs).
Proof.
  intros H. destruct folders as [|f folders]; [discriminate|].
  cbn [App.display_folder_menu] in H.
  destruct (menu_loop_selects _ _ _ _ _ H)
    as (skipped & line & n & Hi & Hsk & Hn & Hr & Hf).
  split; [now exists skipped, line, n|].
  split; [|reflexivity].
  now apply list_elem_of_lookup_2 in Hf.
Qed.

(** The whitespace [Prompt.ask] removes. *)
Example strip_cases :
  Py.strip " 2 " = "2" /\ Py.strip "  " = "" /\ Py.strip " a b " = "a b"
  /\ Py.strip (String (ascii_of_nat 9) "q") = "q".
Proof. repeat split; reflexivity. Qed.

(** An instance of X3: two folders; a word, a number out of range, blanks,
    then the number 2 between two spaces. *)
Lemma menu_selection_witness :
  App.display_folder_menu Examples.good_world ["Arch_Review"; "sprint"]
    ["first"; "3"; "  "; " 2 "; "y"] = Ok (Some "sprint", ["y"])
  /\ (exists skipped line n,
        ["first"; "3"; "  "; " 2 "; "y"] = (skipped ++ line :: ["y"])%list
        /\ Forall (Obs.skipped_line Examples.good_world
                     ["Arch_Review"; "sprint"]) skipped
        /\ int_of_str Examples.good_world
             (if Py.nonempty line then Py.strip line else "1") = Some n
        /\ (1 <= n <= Z.of_nat (length ["Arch_Review"; "sprint"]))%Z
        /\ ["Arch_Review"; "sprint"] !! Z.to_nat (n - 1) = Some "sprint")
  /\ "sprint" ∈ ["Arch_Review"; "sprint"]
  /\ App.display_folder_menu Examples.good_world []
       ["first"; "3"; "  "; " 2 "; "y"]
     = Ok (None, ["first"; "3"; "  "; " 2 "; "y"]).
Proof.
  assert (H : App.display_folder_menu Examples.good_world
                ["Arch_Review"; "sprint"] ["first"; "3"; "  "; " 2 "; "y"]
              = Ok (Some "sprint", ["y"])) by (vm_compute; reflexivity).
  exact (conj H (menu_selection _ _ _ _ _ H)).
Defined.

(* ===================================================================== *)
(** ** How a run of the production CLI ends *)

Section Endings.

Lemma check_api_key_none (w : world) :
  App.check_api_key w = None
  <-> REPLICATE_API_KEY w = None \/ REPLICATE_API_KEY w = Some "".
Proof.
  unfold App.check_api_key.
  destruct (REPLICATE_API_KEY w) as [[|c k]|]; cbn; split; auto;
    intros [H|H]; discriminate H.
Qed.

End Endings.

(** X4. Once [parse_args] has returned, so that the model is one of the
    registry, [main] exits with a status in one case only, with status 1
    and the filesystem as it was: the models are not listed, and the
    credential is missing or empty or the queue root is missing. With
    [--list-models] it returns and changes nothing, whatever the credential
    and the queue. *)
Theorem main_exit_codes (w : world) (a : App.args) (inputs : list string)
    (s s' : App.fs) (o : outcome) :
  App.model a ∈ dict_keys App.MODELS ->
  App.main w a inputs s = (o, s') ->
  (o = Exit 1
   <-> App.list_models a = false
       /\ (REPLICATE_API_KEY w = None \/ REPLICATE_API_KEY w = Some ""
           \/ App.queue s = None))
  /\ (forall code, o = Exit code -> code = 1%Z /\ s' = s)
  /\ (App.list_models a = true -> o = Returned /\ s' = s).
Proof.
  intros Hm. unfold App.main. rewrite bool_decide_eq_true_2 by exact Hm.
  cbn [negb].
  destruct (App.list_models a) eqn:Hl.
  { intros [= <- <-]. split_and!; naive_solver. }
  destruct (App.check_api_key w) as [k|] eqn:Hk.
  2: { apply check_api_key_none in Hk.
       intros [= <- <-]. split_and!; naive_solver. }
  assert (Hkey : ~ (REPLICATE_API_KEY w = None \/ REPLICATE_API_KEY w = Some "")).
  { intros H. apply check_api_key_none in H. congruence. }
  unfold App.get_queue_folders.
  destruct (App.queue s) as [q|] eqn:Hq.
  2: { intros [= <- <-]. split_and!; naive_solver. }
  destruct (App.display_folder_menu w _ inputs) as [[[folder|] rest]|e].
  2,3: intros [= <- <-]; split_and!; naive_solver.
  destruct (App.run_selected w (App.model a) folder rest s) as [[o1|e] s1] eqn:Hr.
  - apply run_selected_returned in Hr as ->.
    intros [= <- <-]. split_and!; naive_solver.
  - intros [= <- <-]. split_and!; naive_solver.
Qed.

(** An instance of X4: the credential is the empty string. *)
Lemma main_exit_codes_witness :
  App.model Examples.nano ∈ dict_keys App.MODELS
  /\ App.main Cases.no_key_world Examples.nano ["1"; "y"] Cases.listing_fs
     = (Exit 1, Cases.listing_fs)
  /\ (Exit 1 = Exit 1
      <-> App.list_models Examples.nano = false
          /\ (REPLICATE_API_KEY Cases.no_key_world = None
              \/ REPLICATE_API_KEY Cases.no_key_world = Some ""
              \/ App.queue Cases.listing_fs = None))
  /\ (forall code, Exit 1 = Exit code ->
        code = 1%Z /\ Cases.listing_fs = Cases.listing_fs)
  /\ (App.list_models Examples.nano = true ->
      Exit 1 = Returned /\ Cases.listing_fs = Cases.listing_fs).
Proof.
  assert (Hin : App.model Examples.nano ∈ dict_keys App.MODELS)
    by (unfold dict_keys; cbn; rewrite !elem_of_cons; auto 10).
  assert (H : App.main Cases.no_key_world Examples.nano ["1"; "y"]
                Cases.listing_fs = (Exit 1, Cases.listing_fs))
    by (vm_compute; reflexivity).
  exact (conj Hin (conj H (main_exit_codes _ _ _ _ _ _ Hin H))).
Defined.

(** X5. A run of [main] that changes the filesystem went through the menu
    to a folder of the queue and read the answer [y] to the confirmation,
    typed with or without whitespace around it or given by an empty line:
    quitting the menu, declining, an early exit or the end of the input
    before that leave everything as it was. *)
Theorem main_changes_need_yes (w : world) (a : App.args)
    (inputs : list string) (s s' : App.fs) (o : outcome) :
  App.main w a inputs s = (o, s') ->
  s' <> s ->
  exists folders folder rest rest',
    App.get_queue_folders s = Some folders
    /\ App.display_folder_menu w folders inputs = Ok (Some folder, rest)
    /\ folder ∈ folders
    /\ App.ask "y" App.yes_no rest = Ok ("y", rest').
Proof.
  unfold App.main.
  destruct (negb _); [intros [= <- <-] Hne; contradiction|].
  destruct (App.list_models a); [intros [= <- <-] Hne; contradiction|].
  destruct (App.check_api_key w); [|intros [= <- <-] Hne; contradiction].
  destruct (App.get_queue_folders s) as [folders|];
    [|intros [= <- <-] Hne; contradiction].
  destruct (App.display_folder_menu w folders inputs) as [[[folder|] rest]|e]
    eqn:Hm; [|intros [= <- <-] Hne; contradiction..].
  destruct (App.run_selected w (App.model a) folder rest s) as [r s1] eqn:Hr.
  intros H Hne. assert (s' = s1) as -> by (destruct r; congruence).
  destruct (run_selected_needs_yes _ _ _ _ _ _ _ Hr Hne) as [rest' Hask].
  exists folders, folder, rest, rest'. repeat split; try assumption.
  destruct folders as [|f folders]; [discriminate|].
  cbn [App.display_folder_menu] in Hm.
  destruct (menu_loop_selects _ _ _ _ _ Hm) as (_ & _ & n & _ & _ & _ & _ & Hf).
  now apply list_elem_of_lookup_2 in Hf.
Qed.

(** An instance of X5: the run of three images of which one fails, with
    both answers typed between blanks. *)
Lemma main_changes_need_yes_witness :
  App.main Examples.flaky_world Examples.nano [" 1"; " y "] Examples.app_fs
    = (Returned, Examples.after_partial)
  /\ Examples.after_partial <> Examples.app_fs
  /\ exists folders folder rest rest',
       App.get_queue_folders Examples.app_fs = Some folders
       /\ App.display_folder_menu Examples.flaky_world folders [" 1"; " y "]
          = Ok (Some folder, rest)
       /\ folder ∈ folders
       /\ App.ask "y" App.yes_no rest = Ok ("y", rest').
Proof.
  assert (H : App.main Examples.flaky_world Examples.nano [" 1"; " y "]
                Examples.app_fs = (Returned, Examples.after_partial))
    by (vm_compute; reflexivity).
  assert (Hne : Examples.after_partial <> Examples.app_fs).
  { intros Heq. apply (f_equal (fun x => App.enhanced x !! "My Board")) in Heq.
    vm_compute in Heq. discriminate Heq. }
  exact (conj H (conj Hne (main_changes_need_yes _ _ _ _ _ _ H Hne))).
Defined.

(* ===================================================================== *)
(** ** Decimal indices in output names *)

Section Digits.

Lemma list_ascii_of_append (a b : string) :
  list_ascii_of_string (a ++ b)
  = (list_ascii_of_string a ++ list_ascii_of_string b)%list.
Proof.
  induction a as [|c a IH]; [reflexivity|].
  change (c :: list_ascii_of_string (a ++ b)
          = c :: (list_ascii_of_string a ++ list_ascii_of_string b)%list).
  now rewrite IH.
Qed.

Lemma digit_code (n : nat) : nat_of_ascii (Py.digit n) = 48 + n mod 10.
Proof.
  unfold Py.digit. apply nat_ascii_embedding.
  pose proof (Nat.mod_upper_bound n 10). lia.
Qed.

Lemma digits_rev_value (fuel : nat) :
  forall n, n < fuel -> Obs.digits_value (Py.digits_rev fuel n) = n.
Proof.
  induction fuel as [|fuel IH]; intros n Hn; [lia|].
  cbn [Py.digits_rev Obs.digits_value]. rewrite digit_code.
  destruct (Nat.ltb_spec n 10) as [Hlt|Hge].
  - cbn [Obs.digits_value]. rewrite Nat.mod_small by lia. lia.
  - rewrite IH.
    + pose proof (Nat.div_mod_eq n 10). lia.
    + pose proof (Nat.Div0.div_lt_upper_bound n 10 fuel). lia.
Qed.

Lemma digits_rev_digits (fuel : nat) :
  forall n, Forall Obs.is_digit (Py.digits_rev fuel n).
Proof.
  induction fuel as [|fuel IH]; intros n; [constructor|].
  cbn [Py.digits_rev]. constructor.
  - unfold Obs.is_digit. rewrite digit_code.
    pose proof (Nat.mod_upper_bound n 10). lia.
  - destruct (Nat.ltb n 10); [constructor | apply IH].
Qed.

Lemma digits_value_zeros (ds : list ascii) (k : nat) :
  Obs.digits_value (ds ++ repeat "0"%char k) = Obs.digits_value ds.
Proof.
  induction ds as [|d ds IH]; cbn [app Obs.digits_value].
  - induction k as [|k IHk]; [reflexivity|].
    cbn [repeat Obs.digits_value]. rewrite IHk. reflexivity.
  - now rewrite IH.
Qed.

(** The characters of a zero-padded number, as a list. *)
Lemma zfill_chars (width n : nat) :
  list_ascii_of_string (Py.zfill width (Py.str_of_nat n))
  = (repeat "0"%char (width - String.length (Py.str_of_nat n))
     ++ rev (Py.digits_rev (S n) n))%list.
Proof.
  unfold Py.zfill. rewrite list_ascii_of_append.
  unfold Py.str_of_nat at 2.
  now rewrite !list_ascii_of_string_of_list_ascii.
Qed.

(** Reading a zero-padded number back gives the number. *)
Lemma zfill_value (width n : nat) :
  Obs.digits_value (rev (list_ascii_of_string (Py.zfill width (Py.str_of_nat n))))
  = n.
Proof.
  rewrite zfill_chars, rev_app_distr, rev_involutive, rev_repeat.
  rewrite digits_value_zeros. apply digits_rev_value. lia.
Qed.

Lemma zfill_digits (width n : nat) :
  Forall Obs.is_digit (list_ascii_of_string (Py.zfill width (Py.str_of_nat n))).
Proof.
  rewrite zfill_chars. apply Forall_app. split.
  - apply Forall_forall. intros c Hc. apply list_elem_of_In, repeat_spec in Hc.
    subst c. unfold Obs.is_digit. change (nat_of_ascii "0") with 48. lia.
  - apply Forall_rev, digits_rev_digits.
Qed.

(** Two runs of digits each followed by a hyphen: the runs are equal when
    the whole strings are. *)
Lemma digits_delimited (a b x y : list ascii) :
  Forall Obs.is_digit a -> Forall Obs.is_digit b ->
  (a ++ "-"%char :: x = b ++ "-"%char :: y)%list -> a = b.
Proof.
  intros Ha. revert b. induction Ha as [|c a Hc Ha IH]; intros b Hb H.
  - destruct Hb as [|d b Hd Hb]; [reflexivity|].
    cbn in H. injection H as <- _. unfold Obs.is_digit in Hd.
    change (nat_of_ascii "-") with 45 in Hd. lia.
  - destruct Hb as [|d b Hd Hb].
    + cbn in H. injection H as -> _. unfold Obs.is_digit in Hc.
      change (nat_of_ascii "-") with 45 in Hc. lia.
    + cbn in H. injection H as -> H. f_equal. now apply IH.
Qed.

(** The index written by [format(i, "02d")] and the hyphen after it
    determine the index. *)
Lemma index_delimited (i j : nat) (x y : string) :
  Py.format_02d (Z.of_nat i) ++ "-" ++ x = Py.format_02d (Z.of_nat j) ++ "-" ++ y ->
  i = j.
Proof.
  unfold Py.format_02d.
  destruct (Z.ltb_spec (Z.of_nat i) 0) as [?|_]; [lia|].
  destruct (Z.ltb_spec (Z.of_nat j) 0) as [?|_]; [lia|].
  rewrite !Nat2Z.id. intros H.
  apply (f_equal list_ascii_of_string) in H.
  rewrite !list_ascii_of_append in H.
  change (list_ascii_of_string "-") with ["-"%char] in H. cbn [app] in H.
  apply digits_delimited in H; [|apply zfill_digits..].
  rewrite <- (zfill_value 2 i), <- (zfill_value 2 j). now rewrite H.
Qed.

(** Two images of one run never get the same output name. *)
Lemma output_names_differ (w : world) (folder : string) (total i j : nat) :
  total <> 1 -> i <> j ->
  Obs.output_name w folder total i <> Obs.output_name w folder total j.
Proof.
  intros Ht Hij H. apply Hij.
  unfold Obs.output_name, App.generate_descriptive_name in H.
  destruct (Z.eqb_spec (Z.of_nat total) 1); [lia|].
  apply (inj (String.append _)) in H.
  apply (inj (String.append "-")) in H.
  change ("-enhanced-" ++ ?r) with ("-" ++ "enhanced-" ++ r) in H.
  now apply index_delimited in H.
Qed.

End Digits.

(* ===================================================================== *)
(** ** What one call writes *)

Section Writes.

(** Inversion of the steps of an [io] computation that returned. *)
Lemma bind_ok {St A B} (m : io St A) (k : A -> io St B) (s s' : St) (b : B) :
  (m ≫= k) s = (Ok b, s') ->
  exists a s1, m s = (Ok a, s1) /\ k a s1 = (Ok b, s').
Proof.
  unfold mbind, io_bind. destruct (m s) as [[a|e] s1]; [|discriminate].
  intros H. now exists a, s1.
Qed.

Lemma lift_ok {St A} (r : result A) (s s' : St) (a : A) :
  lift r s = (Ok a, s') -> r = Ok a /\ s' = s.
Proof. unfold lift. now intros [= -> ->]. Qed.

(** Creating the output directory changes no file. *)
Lemma mkdir_enhanced_files (dir : string) (s s' : App.fs) (r : result unit) :
  App.mkdir_enhanced dir s = (r, s') ->
  (forall d n, App.enhanced_file s' d n = App.enhanced_file s d n)
  /\ (forall d, d <> dir -> App.enhanced s' !! d = App.enhanced s !! d).
Proof.
  unfold App.mkdir_enhanced. intros H.
  destruct (App.enhanced s !! dir) as [[data|files]|] eqn:Hdir;
    injection H as <- <-; try done.
  unfold App.enhanced_file. cbn. split.
  - intros d n. destruct (decide (d = dir)) as [->|Hd].
    + now rewrite lookup_insert_eq, Hdir, lookup_empty.
    + now rewrite lookup_insert_ne.
  - intros d Hd. now rewrite lookup_insert_ne.
Qed.

(** A call that succeeds went through every step, and wrote the bytes of
    the download at the output path and nothing else. *)
Lemma process_image_success (w : world) (tick : nat)
    (folder image out_dir out_name model_name : string) (s s' : App.fs) :
  App.process_image w tick folder image out_dir out_name model_name s
    = (Ok true, s') ->
  exists cfg data output content,
    dict_get model_name App.MODELS = Some cfg
    /\ App.read_image folder image s = (Ok data, s)
    /\ replicate_run w tick (App.id cfg)
         (App.input_fn cfg App.SYSTEM_PROMPT (App.data_uri image data))
       = Ok output
    /\ Value.truthy (App.get_output_url output) = true
    /\ httpx_get w tick (App.get_output_url output) = Ok content
    /\ App.enhanced_file s' out_dir out_name = Some content
    /\ (forall d n, (d, n) <> (out_dir, out_name) ->
        App.enhanced_file s' d n = App.enhanced_file s d n)
    /\ (forall d, d <> out_dir -> App.enhanced s' !! d = App.enhanced s !! d).
Proof.
  intros H. destruct (process_image_others _ _ _ _ _ _ _ _ _ _ H) as [Ho Hd].
  apply process_image_inv in H
    as [[[=] _]|(cfg & data & output & content & files & Hcfg & Hread & Hrun
                 & Htruthy & Hget & Hfiles
                 & [([=] & _)|(_ & held & -> & Hheld)])].
  destruct Hheld as [(_ & _ & ->)|([=] & _)].
  exists cfg, data, output, content. split_and!; try assumption.
  destruct (enhanced_file_put s out_dir files
              (<[out_name := EFile content]> files) out_dir out_name Hfiles)
    as [-> _].
  rewrite decide_True by reflexivity. now rewrite lookup_insert_eq.
Qed.

End Writes.

(* ===================================================================== *)
(** ** What the loop of a folder leaves behind *)

Section Loop_files.

(** The files after the loop: the output of every call that returned
    [True] is there with the bytes downloaded for it, and a file that is not
    the output of one of the calls is as before. Needs distinct output
    names, which holds with more than one image. *)
Lemma image_results_files (w : world) (folder model_name : string)
    (total : nat) (images : list string) :
  forall (i0 : nat) (results : list bool) (s s' : App.fs),
  total <> 1 \/ length images <= 1 ->
  App.image_results w folder model_name total i0 images s = (Ok results, s') ->
  (forall k, results !! k = Some true ->
     exists url content,
       httpx_get w (i0 + k) url = Ok content
       /\ App.enhanced_file s' folder (Obs.output_name w folder total (i0 + k))
          = Some content)
  /\ (forall d n,
        (d <> folder
         \/ forall k, k < length images ->
              n <> Obs.output_name w folder total (i0 + k)) ->
        App.enhanced_file s' d n = App.enhanced_file s d n)
  /\ (forall d, d <> folder -> App.enhanced s' !! d = App.enhanced s !! d).
Proof.
  induction images as [|image rest IH]; intros i0 results s s' Hdistinct H.
  - injection H as <- <-. split_and!; done.
  - cbn [App.image_results] in H.
    apply bind_ok in H as (ok & s1 & Hcall & H).
    apply bind_ok in H as (oks & s2 & Hrest & H).
    injection H as <- <-.
    assert (Hdistinct' : total <> 1 \/ length rest <= 1)
      by (destruct Hdistinct; [now left | right; cbn in *; lia]).
    destruct (IH (S i0) oks s1 s2 Hdistinct' Hrest) as (IHa & IHb & IHc).
    destruct (process_image_others _ _ _ _ _ _ _ _ _ _ Hcall) as [Hfiles Hdirs].
    fold (Obs.output_name w folder total i0) in Hcall, Hfiles.
    split_and!.
    + intros [|k] Hk.
      * injection Hk as ->. rewrite Nat.add_0_r.
        apply process_image_success in Hcall
          as (_ & _ & output & content & _ & _ & _ & _ & Hget & Hfile & _).
        exists (App.get_output_url output), content. split; [exact Hget|].
        rewrite IHb; [exact Hfile|]. right. intros k Hk.
        destruct Hdistinct as [Ht|Hl]; [|cbn in Hl; lia].
        apply output_names_differ; [exact Ht | lia].
      * replace (i0 + S k) with (S i0 + k) by lia. now apply IHa.
    + intros d n Hdn. rewrite IHb, Hfiles; [reflexivity | |].
      * destruct Hdn as [Hd|Hn]; [congruence|].
        specialize (Hn 0 ltac:(cbn; lia)). rewrite Nat.add_0_r in Hn. congruence.
      * destruct Hdn as [Hd|Hn]; [now left|right].
        intros k Hk. replace (S i0 + k) with (i0 + S k) by lia.
        apply Hn. cbn. lia.
    + intros d Hd. now rewrite IHc, Hdirs.
Qed.

End Loop_files.

(* ===================================================================== *)
(** ** The output path and the run over a folder *)

(** X6. [process_image] returns [True] exactly when the model is
    registered, the image can be read, the provider answers the request
    built from [SYSTEM_PROMPT] and the data URI of the image, a location
    with a true truth value is found in the answer, the download of that
    location succeeds, the output path is free (its directory is not a
    regular file and the path itself not a directory) and the storage
    accepts the file. The filesystem is then the one before with the
    downloaded bytes at the output path, replacing what was there. *)
Theorem process_image_true_iff (w : world) (tick : nat)
    (folder image out_dir out_name model_name : string) (s s' : App.fs) :
  App.process_image w tick folder image out_dir out_name model_name s
    = (Ok true, s')
  <-> exists cfg data output content files,
        dict_get model_name App.MODELS = Some cfg
        /\ App.read_image folder image s = (Ok data, s)
        /\ replicate_run w tick (App.id cfg)
             (App.input_fn cfg App.SYSTEM_PROMPT (App.data_uri image data))
           = Ok output
        /\ Value.truthy (App.get_output_url output) = true
        /\ httpx_get w tick (App.get_output_url output) = Ok content
        /\ Obs.output_dir_files s out_dir = Some files
        /\ files !! out_name <> Some EDir
        /\ disk w tick out_dir out_name = Written
        /\ s' = App.with_enhanced s
                  (<[out_dir := NDir (<[out_name := EFile content]> files)]>
                     (App.enhanced s)).
Proof.
  split.
  - intros H. apply process_image_inv in H
      as [[[=] _]|(cfg & data & output & content & files & Hcfg & Hread & Hrun
                   & Htruthy & Hget & Hfiles
                   & [([=] & _)|(Hfree & held & -> & Hheld)])].
    destruct Hheld as [(_ & Hdisk & ->)|([=] & _)].
    now exists cfg, data, output, content, files.
  - intros (cfg & data & output & content & files
            & Hcfg & Hread & Hrun & Htruthy & Hget & Hf & Hn & Hdisk & ->).
    unfold App.process_image, try_except, mbind, io_bind, lift.
    rewrite Hcfg. cbn [from_option].
    rewrite (app_image_to_data_uri_read _ _ _ _ Hread).
    rewrite Hrun, Htruthy, Hget.
    destruct (App.mkdir_enhanced out_dir s) as [rm s0] eqn:Hmk.
    apply mkdir_enhanced_inv in Hmk. rewrite Hf in Hmk.
    destruct Hmk as [-> ->].
    destruct (App.write_enhanced w tick out_dir out_name content _)
      as [rw s2] eqn:Hwr.
    apply write_enhanced_inv in Hwr as [(Hd & _)|(_ & Hw)]; [congruence|].
    rewrite Hdisk in Hw. now destruct Hw as [-> ->].
Qed.

(** An instance of X6: the second image of the example folder. *)
Lemma process_image_true_iff_witness :
  App.process_image Examples.good_world 2 "My Board" "b.GIF" "My Board"
    "my-board-02-enhanced-20261104.png" "nano-banana" Examples.app_fs
    = (Ok true,
       App.with_enhanced Examples.app_fs
         {[ "My Board" :=
              NDir {[ "my-board-02-enhanced-20261104.png"
                        := EFile Examples.png_bytes ]} ]})
  /\ exists cfg data output content files,
       dict_get "nano-banana" App.MODELS = Some cfg
       /\ App.read_image "My Board" "b.GIF" Examples.app_fs
          = (Ok data, Examples.app_fs)
       /\ replicate_run Examples.good_world 2 (App.id cfg)
            (App.input_fn cfg App.SYSTEM_PROMPT (App.data_uri "b.GIF" data))
          = Ok output
       /\ Value.truthy (App.get_output_url output) = true
       /\ httpx_get Examples.good_world 2 (App.get_output_url output)
          = Ok content
       /\ Obs.output_dir_files Examples.app_fs "My Board" = Some files
       /\ files !! "my-board-02-enhanced-20261104.png" <> Some EDir
       /\ disk Examples.good_world 2 "My Board"
            "my-board-02-enhanced-20261104.png" = Written
       /\ App.with_enhanced Examples.app_fs
            {[ "My Board" :=
                 NDir {[ "my-board-02-enhanced-20261104.png"
                           := EFile Examples.png_bytes ]} ]}
          = App.with_enhanced Examples.app_fs
              (<[ "My Board" :=
                    NDir (<[ "my-board-02-enhanced-20261104.png"
                               := EFile content ]> files) ]>
                 (App.enhanced Examples.app_fs)).
Proof.
  assert (H : App.process_image Examples.good_world 2 "My Board" "b.GIF"
                "My Board" "my-board-02-enhanced-20261104.png" "nano-banana"
                Examples.app_fs
              = (Ok true,
                 App.with_enhanced Examples.app_fs
                   {[ "My Board" :=
                        NDir {[ "my-board-02-enhanced-20261104.png"
                                  := EFile Examples.png_bytes ]} ]}))
    by (vm_compute; reflexivity).
  exact (conj H (proj1 (process_image_true_iff _ _ _ _ _ _ _ _ _) H)).
Defined.

(** X7. [process_folder] changes nothing outside the output directory of
    the folder: the queue, the processed root and the output directories of
    other folders are as before, and so is every file of its own output
    directory whose name is not the output name of one of the images. *)
Theorem process_folder_frame (w : world) (folder model_name : string)
    (s s' : App.fs) (r : result (nat * nat)) (images : list string) :
  App.get_images_in_folder folder s = (Ok images, s) ->
  App.process_folder w folder model_name s = (r, s') ->
  App.in_place s s'
  /\ (forall d, d <> folder -> App.enhanced s' !! d = App.enhanced s !! d)
  /\ (forall n,
        (forall i, 1 <= i <= length images ->
           n <> Obs.output_name w folder (length images) i) ->
        App.enhanced_file s' folder n = App.enhanced_file s folder n).
Proof.
  intros Hg Hpf.
  destruct (process_folder_cases _ _ _ _ _ _ Hpf) as [Hin _].
  split; [exact Hin|].
  unfold App.process_folder in Hpf. unfold mbind, io_bind at 1 in Hpf.
  rewrite Hg in Hpf. destruct images as [|image rest].
  { injection Hpf as <- <-. now split. }
  unfold mbind, io_bind at 1 in Hpf.
  destruct (App.mkdir_enhanced folder s) as [[[]|e] s0] eqn:Hmk;
    destruct (mkdir_enhanced_files _ _ _ _ Hmk) as [Hmf Hmd].
  2: { injection Hpf as <- <-. split; [exact Hmd | intros n _; apply Hmf]. }
  destruct (process_images_counts w folder model_name (length (image :: rest))
              (image :: rest) 1 0 s0) as (results & s1 & Hr & Hc & _).
  unfold mbind, io_bind in Hpf. rewrite Hc in Hpf. injection Hpf as <- <-.
  assert (Hd : length (image :: rest) <> 1 \/ length (image :: rest) <= 1) by lia.
  destruct (image_results_files _ _ _ _ _ _ _ _ _ Hd Hr) as (_ & Hfiles & Hdirs).
  split.
  - intros d Hdne. now rewrite Hdirs, Hmd.
  - intros n Hn. rewrite Hfiles, Hmf; [reflexivity|]. right.
    intros k Hk. apply Hn. lia.
Qed.

(** X8. After [process_folder], the tally counts the calls of
    [process_image] that returned [True], it does not exceed the number of
    images, and the output of every such call is still there, under the
    name of its index, with the bytes the HTTP client returned in that call:
    no later image of the run overwrote it. *)
Theorem successful_outputs_kept (w : world) (folder model_name : string)
    (s s' : App.fs) (success total : nat) :
  App.process_folder w folder model_name s = (Ok (success, total), s') ->
  0 < total ->
  exists images s0 results,
    App.get_images_in_folder folder s = (Ok images, s)
    /\ total = length images
    /\ App.mkdir_enhanced folder s = (Ok tt, s0)
    /\ App.image_results w folder model_name total 1 images s0 = (Ok results, s')
    /\ length results = total
    /\ success = length (filter (fun ok => ok = true) results)
    /\ success <= total
    /\ forall k, results !! k = Some true ->
         exists url content,
           httpx_get w (S k) url = Ok content
           /\ App.enhanced_file s' folder (Obs.output_name w folder total (S k))
              = Some content.
Proof.
  intros Hpf Hpos.
  destruct (process_folder_cases _ _ _ _ _ _ Hpf) as [_ Hres].
  destruct (Hres _ _ eq_refl) as (images & Hg & Htot & _ & Hloop).
  assert (Hne : images <> []) by (intros ->; cbn in Htot; lia).
  destruct (Hloop Hne) as (s0 & results & Hmk & Hr & Hl & Hc).
  exists images, s0, results. split_and!; try assumption.
  - rewrite Hc, <- Hl. apply length_filter.
  - assert (Hd : total <> 1 \/ length images <= 1) by lia.
    destruct (image_results_files _ _ _ _ _ _ _ _ _ Hd Hr) as (Hfiles & _).
    intros k Hk. apply (Hfiles k Hk).
Qed.

(** An instance of X8: three images, the second of which fails. *)
Lemma successful_outputs_kept_witness :
  App.process_folder Examples.flaky_world "My Board" "nano-banana"
    Examples.app_fs = (Ok (2, 3), Examples.after_partial)
  /\ 0 < 3
  /\ exists images s0 results,
       App.get_images_in_folder "My Board" Examples.app_fs
         = (Ok images, Examples.app_fs)
       /\ 3 = length images
       /\ App.mkdir_enhanced "My Board" Examples.app_fs = (Ok tt, s0)
       /\ App.image_results Examples.flaky_world "My Board" "nano-banana" 3 1
            images s0 = (Ok results, Examples.after_partial)
       /\ length results = 3
       /\ 2 = length (filter (fun ok => ok = true) results)
       /\ 2 <= 3
       /\ forall k, results !! k = Some true ->
            exists url content,
              httpx_get Examples.flaky_world (S k) url = Ok content
              /\ App.enhanced_file Examples.after_partial "My Board"
                   (Obs.output_name Examples.flaky_world "My Board" 3 (S k))
                 = Some content.
Proof.
  assert (H : App.process_folder Examples.flaky_world "My Board" "nano-banana"
                Examples.app_fs = (Ok (2, 3), Examples.after_partial))
    by (vm_compute; reflexivity).
  assert (Hpos : 0 < 3) by lia.
  exact (conj H (conj Hpos (successful_outputs_kept _ _ _ _ _ _ _ H Hpos))).
Defined.

(** An instance of X7: the same run. *)
Lemma process_folder_frame_witness :
  App.get_images_in_folder "My Board" Examples.app_fs
    = (Ok ["a.png"; "b.GIF"; "c.jpg"], Examples.app_fs)
  /\ App.process_folder Examples.flaky_world "My Board" "nano-banana"
       Examples.app_fs = (Ok (2, 3), Examples.after_partial)
  /\ App.in_place Examples.app_fs Examples.after_partial
  /\ (forall d, d <> "My Board" ->
        App.enhanced Examples.after_partial !! d
        = App.enhanced Examples.app_fs !! d)
  /\ (forall n,
        (forall i, 1 <= i <= length ["a.png"; "b.GIF"; "c.jpg"] ->
           n <> Obs.output_name Examples.flaky_world "My Board"
                  (length ["a.png"; "b.GIF"; "c.jpg"]) i) ->
        App.enhanced_file Examples.after_partial "My Board" n
        = App.enhanced_file Examples.app_fs "My Board" n).
Proof.
  assert (Hg : App.get_images_in_folder "My Board" Examples.app_fs
               = (Ok ["a.png"; "b.GIF"; "c.jpg"], Examples.app_fs))
    by (vm_compute; reflexivity).
  assert (H : App.process_folder Examples.flaky_world "My Board" "nano-banana"
                Examples.app_fs = (Ok (2, 3), Examples.after_partial))
    by (vm_compute; reflexivity).
  exact (conj Hg (conj H (process_folder_frame _ _ _ _ _ _ _ Hg H))).
Defined.

(** X9. Within a folder of more than one image, two different indices never
    give the same output name, whatever the dates read for them: the name
    determines the index. *)
Theorem output_name_determines_index (t1 t2 : Py.datetime) (folder : string)
    (i j total : Z) :
  (0 <= i)%Z -> (0 <= j)%Z -> total <> 1%Z ->
  App.generate_descriptive_name t1 folder i total
    = App.generate_descriptive_name t2 folder j total ->
  i = j.
Proof.
  intros Hi Hj Ht H. unfold App.generate_descriptive_name in H.
  destruct (Z.eqb_spec total 1); [contradiction|].
  apply (inj (String.append _)) in H.
  apply (inj (String.append "-")) in H.
  change ("-enhanced-" ++ ?r) with ("-" ++ "enhanced-" ++ r) in H.
  rewrite <- (Z2Nat.id i), <- (Z2Nat.id j) in H by assumption.
  apply index_delimited in H. lia.
Qed.

(** An instance of X9: the eleventh of twelve images. *)
Lemma output_name_determines_index_witness :
  (0 <= 11)%Z /\ (0 <= 11)%Z /\ 12%Z <> 1%Z
  /\ App.generate_descriptive_name Examples.today "Q3 Plan" 11 12
     = App.generate_descriptive_name Examples.today "Q3 Plan" 11 12
  /\ 11%Z = 11%Z.
Proof.
  assert (Hi : (0 <= 11)%Z) by lia.
  assert (Ht : 12%Z <> 1%Z) by lia.
  exact (conj Hi (conj Hi (conj Ht (conj eq_refl
           (output_name_determines_index Examples.today Examples.today
              "Q3 Plan" 11 11 12 Hi Hi Ht eq_refl))))).
Defined.

(* ===================================================================== *)
(** ** Errors of the folder run and of the move *)

(** X10. [process_folder] does not catch what happens before its loop, and
    raises with the filesystem as it was, whatever the provider, the HTTP
    client and the storage would do: the exception of the listing when the
    listing of the folder raises, and [FileExistsError] when the folder has
    images and a regular file stands where its output directory goes. *)
Theorem process_folder_raises (w : world) (folder model_name : string)
    (s : App.fs) (e : string) (images : list string) (data : list byte) :
  (App.get_images_in_folder folder s = (Raise e, s) ->
   App.process_folder w folder model_name s = (Raise e, s))
  /\ (App.get_images_in_folder folder s = (Ok images, s) ->
      images <> [] ->
      App.enhanced s !! folder = Some (NFile data) ->
      App.process_folder w folder model_name s = (Raise "FileExistsError", s)).
Proof.
  split.
  - intros H. unfold App.process_folder. unfold mbind, io_bind at 1.
    now rewrite H.
  - intros H Hne Hdir. unfold App.process_folder. unfold mbind, io_bind at 1.
    rewrite H. destruct images as [|image rest]; [now destruct Hne|].
    unfold mbind, io_bind at 1. unfold App.mkdir_enhanced at 1.
    now rewrite Hdir.
Qed.

(** An instance of X10: a regular file where the output directory goes. *)
Lemma process_folder_raises_witness :
  App.get_images_in_folder "My Board" Cases.blocked_fs
    = (Ok ["a.png"; "b.GIF"; "c.jpg"], Cases.blocked_fs)
  /\ ["a.png"; "b.GIF"; "c.jpg"] <> []
  /\ App.enhanced Cases.blocked_fs !! "My Board" = Some (NFile [])
  /\ App.process_folder Examples.good_world "My Board" "nano-banana"
       Cases.blocked_fs = (Raise "FileExistsError", Cases.blocked_fs).
Proof.
  assert (Hg : App.get_images_in_folder "My Board" Cases.blocked_fs
               = (Ok ["a.png"; "b.GIF"; "c.jpg"], Cases.blocked_fs))
    by (vm_compute; reflexivity).
  assert (Hne : ["a.png"; "b.GIF"; "c.jpg"] <> []) by discriminate.
  assert (Hdir : App.enhanced Cases.blocked_fs !! "My Board" = Some (NFile []))
    by (vm_compute; reflexivity).
  exact (conj Hg (conj Hne (conj Hdir
           (proj2 (process_folder_raises Examples.good_world "My Board"
                     "nano-banana" Cases.blocked_fs "" _ _) Hg Hne Hdir)))).
Defined.



(* ===================================================================== *)
(** ** The run of the evaluation harness *)

Section Eval_steps.

Lemma extends_refl (dir : string) (s : Eval.fs) : Obs.extends dir s s.
Proof. unfold Obs.extends. split_and!; try done. intros files H. now exists files. Qed.

Lemma extends_trans (dir : string) (s1 s2 s3 : Eval.fs) :
  Obs.extends dir s1 s2 -> Obs.extends dir s2 s3 -> Obs.extends dir s1 s3.
Proof.
  intros (Hs1 & Hd1 & Hf1 & Hk1) (Hs2 & Hd2 & Hf2 & Hk2).
  unfold Obs.extends. split_and!.
  - congruence.
  - intros d Hd. now rewrite Hd2, Hd1.
  - intros d n H. now apply Hf2, Hf1.
  - intros files H. destruct (Hk1 _ H) as (files1 & H1 & Hn1).
    destruct (Hk2 _ H1) as (files2 & H2 & Hn2).
    exists files2. split; [exact H2|]. intros n. now rewrite Hn2, Hn1.
Qed.

Lemma mkdir_run_extends (dir : string) (s s' : Eval.fs) (r : result unit) :
  Eval.mkdir_run dir s = (r, s') -> Obs.extends dir s s'.
Proof.
  unfold Eval.mkdir_run.
  destruct (Eval.runs s !! dir) as [[data|files]|] eqn:Hdir;
    intros [= <- <-]; try apply extends_refl.
  unfold Obs.extends, Eval.run_file. cbn. split_and!.
  - reflexivity.
  - intros d Hd. now rewrite lookup_insert_ne.
  - intros d n. destruct (decide (d = dir)) as [->|Hd].
    + rewrite Hdir. now intros [x [=]].
    + now rewrite lookup_insert_ne.
  - intros files. rewrite Hdir. discriminate.
Qed.

(** What a write of the log that succeeds does. *)
Lemma write_log_ok (dir name : string) (content : list byte)
    (s s' : Eval.fs) :
  Eval.write_log dir name content s = (Ok tt, s')
  <-> exists files,
        Eval.runs s !! dir = Some (NDir files)
        /\ files !! name <> Some EDir
        /\ s' = Eval.with_runs s
                  (<[dir := NDir (<[name := EFile content]> files)]>
                     (Eval.runs s)).
Proof.
  unfold Eval.write_log.
  destruct (Eval.runs s !! dir) as [[data|files]|] eqn:Hdir.
  - split; [discriminate | now intros (f & [=] & _)].
  - split.
    + intros H. exists files.
      destruct (files !! name) as [[|]|]; simplify_eq; split_and!; congruence.
    + intros (f & [= <-] & Hn & ->).
      destruct (files !! name) as [[|]|]; congruence.
  - split; [discriminate | now intros (f & [=] & _)].
Qed.

(** Replacing the entries of the run directory by others with the same
    subdirectories and at least the same files. *)
Lemma extends_put (s : Eval.fs) (dir : string)
    (files files' : gmap string entry) :
  Obs.run_dir_files s dir = Some files ->
  (forall n, files' !! n = Some EDir <-> files !! n = Some EDir) ->
  (forall n data, files !! n = Some (EFile data) ->
     exists data', files' !! n = Some (EFile data')) ->
  Obs.extends dir s (Eval.with_runs s (<[dir := NDir files']> (Eval.runs s))).
Proof.
  intros Hfiles Hdirs Hkeep. unfold Obs.extends. cbn. split_and!.
  - reflexivity.
  - intros d Hd. now rewrite lookup_insert_ne.
  - intros d n [data Hdata].
    destruct (run_file_put s dir files files' d n Hfiles) as [-> E].
    destruct (decide (d = dir)) as [->|]; [|eauto].
    rewrite E in Hdata.
    destruct (files !! n) as [[x|]|] eqn:Hn; try discriminate.
    destruct (Hkeep _ _ Hn) as [data' ->]. eauto.
  - intros f Hf. rewrite lookup_insert_eq. exists files'. split; [reflexivity|].
    unfold Obs.run_dir_files in Hfiles. rewrite Hf in Hfiles.
    now injection Hfiles as ->.
Qed.

Lemma extends_put_file (s : Eval.fs) (dir name : string) (held : list byte)
    (files : gmap string entry) :
  Obs.run_dir_files s dir = Some files ->
  files !! name <> Some EDir ->
  Obs.extends dir s
    (Eval.with_runs s
       (<[dir := NDir (<[name := EFile held]> files)]> (Eval.runs s))).
Proof.
  intros Hfiles Hfree. apply (extends_put s dir files); [exact Hfiles| |].
  - intros n. destruct (decide (n = name)) as [->|Hne].
    + rewrite lookup_insert_eq. split; [discriminate | contradiction].
    + now rewrite lookup_insert_ne.
  - intros n data Hn. destruct (decide (n = name)) as [->|Hne].
    + rewrite lookup_insert_eq. eauto.
    + rewrite lookup_insert_ne by done. eauto.
Qed.

Lemma write_log_extends (dir name : string) (content : list byte)
    (s s' : Eval.fs) (r : result unit) :
  Eval.write_log dir name content s = (r, s') -> Obs.extends dir s s'.
Proof.
  destruct r as [[]|e].
  2: { unfold Eval.write_log. intros H.
       assert (s' = s) as -> by (repeat case_match; congruence).
       apply extends_refl. }
  intros (files & Hdir & Hn & ->)%write_log_ok.
  apply extends_put_file; [|exact Hn].
  unfold Obs.run_dir_files. now rewrite Hdir.
Qed.

Lemma download_image_extends (w : world) (tick : nat) (url : pyval)
    (dir name : string) (s s' : Eval.fs) (r : result bool) :
  Eval.download_image w tick url dir name s = (r, s') -> Obs.extends dir s s'.
Proof.
  intros H.
  destruct (download_image_returns w tick url dir name s) as (ok & s1 & H1).
  rewrite H1 in H. injection H as <- <-.
  apply download_image_inv in H1
    as [[_ ->]|(content & files & _ & Hfiles
                & [(_ & _ & ->)|(Hfree & held & -> & _)])].
  - apply extends_refl.
  - apply (extends_put s dir files); [exact Hfiles|done|eauto].
  - now apply extends_put_file.
Qed.

Lemma read_image_cases (name : string) (s : Eval.fs) :
  (exists data, Eval.source s !! name = Some (EFile data)
                /\ Eval.image_to_data_uri name s
                   = (Ok (Eval.data_uri name data), s))
  \/ ((~ exists data, Eval.source s !! name = Some (EFile data))
      /\ exists e, Eval.image_to_data_uri name s = (Raise e, s)).
Proof.
  unfold Eval.image_to_data_uri, Eval.read_image, mbind, io_bind.
  destruct (Eval.source s !! name) as [[data|]|]; [left; eauto| |];
    right; (split; [now intros (d & [=])|eauto]).
Qed.

End Eval_steps.

Section Eval_loops.

Context (w : world) (run_dir : string).

(** The rows the inner loop adds, one for each model in the order of the
    registry, and the files behind the rows marked as successes. *)
Lemma run_models_rows (img_name uri : string)
    (models : list (string * Eval.model_config)) :
  forall (tick : nat) (results : list Eval.row) (s : Eval.fs),
  exists rows s',
    Eval.run_models w run_dir img_name (Py.stem img_name) uri tick models
      results s = (Ok (results ++ rows)%list, s')
    /\ map fst rows = map (fun m => (img_name, m.1)) models
    /\ Obs.extends run_dir s s'
    /\ forall img model,
         (img, model, Eval.success) ∈ rows ->
         is_Some (Eval.run_file s' run_dir (Obs.eval_output_name img model)).
Proof.
  induction models as [|[model_name cfg] rest IH]; intros tick results s.
  { exists [], s. rewrite app_nil_r. split_and!; try done.
    - apply extends_refl.
    - intros img model H. now apply elem_of_nil in H. }
  cbn [Eval.run_models]. unfold mbind, io_bind at 1.
  destruct (Value.truthy (Eval.run_model w tick model_name cfg uri)) eqn:Ht.
  - unfold mbind, io_bind at 1.
    destruct (download_image_returns w tick
                (Eval.run_model w tick model_name cfg uri) run_dir
                (Py.stem img_name ++ "_" ++ model_name ++ ".png") s)
      as (ok & s1 & Hdl).
    rewrite Hdl. cbn [mret io_ret].
    pose proof (download_image_extends _ _ _ _ _ _ _ _ Hdl) as H1.
    destruct (IH (S tick)
                (results ++ [(img_name, model_name,
                              if ok then Eval.success
                              else Eval.download_failed)])%list s1)
      as (rows & s' & Hrun & Hkeys & H2 & Hfiles).
    exists ((img_name, model_name,
             if ok then Eval.success else Eval.download_failed) :: rows), s'.
    split_and!.
    + rewrite Hrun. now rewrite <- app_assoc.
    + cbn. now rewrite Hkeys.
    + now apply (extends_trans _ _ s1).
    + intros img model [Heq|Hin]%elem_of_cons; [|now apply Hfiles].
      destruct ok; [|discriminate Heq]. injection Heq as -> ->.
      apply download_image_true in Hdl as (content & _ & Hfile & _).
      destruct H2 as (_ & _ & Hmono & _). apply Hmono.
      unfold Obs.eval_output_name. rewrite Hfile. eauto.
  - cbn [mret io_ret].
    destruct (IH (S tick)
                (results ++ [(img_name, model_name, Eval.api_failed)])%list s)
      as (rows & s' & Hrun & Hkeys & H2 & Hfiles).
    exists ((img_name, model_name, Eval.api_failed) :: rows), s'.
    split_and!.
    + rewrite Hrun. now rewrite <- app_assoc.
    + cbn. now rewrite Hkeys.
    + exact H2.
    + intros img model [Heq|Hin]%elem_of_cons; [discriminate Heq|].
      now apply Hfiles.
Qed.

(** The outer loop: it raises when an image cannot be read, and only
    then. *)
Lemma run_images_rows (images : list string) :
  forall (tick : nat) (results : list Eval.row) (s s' : Eval.fs)
         (r : result (list Eval.row)),
  Eval.run_images w run_dir tick images results s = (r, s') ->
  Obs.extends run_dir s s'
  /\ match r with
     | Ok all =>
         (forall n, n ∈ images ->
            exists data, Eval.source s !! n = Some (EFile data))
         /\ exists rows,
              all = (results ++ rows)%list
              /\ map fst rows = list_prod images (dict_keys Eval.MODELS)
              /\ forall img model,
                   (img, model, Eval.success) ∈ rows ->
                   is_Some (Eval.run_file s' run_dir
                              (Obs.eval_output_name img model))
     | Raise e =>
         exists n, n ∈ images
                   /\ ~ exists data, Eval.source s !! n = Some (EFile data)
     end.
Proof.
  induction images as [|img rest IH]; intros tick results s s' r.
  { intros [= <- <-]. split; [apply extends_refl|]. split.
    - intros n H. now apply elem_of_nil in H.
    - exists []. rewrite app_nil_r. split_and!; try done.
      intros ? ? H. now apply elem_of_nil in H. }
  cbn [Eval.run_images]. unfold mbind, io_bind at 1.
  destruct (read_image_cases img s) as [(data & Hsrc & ->)|(Hno & e & ->)].
  2: { intros [= <- <-]. split; [apply extends_refl|].
       exists img. split; [apply elem_of_cons; now left | exact Hno]. }
  unfold mbind, io_bind at 1.
  destruct (run_models_rows img (Eval.data_uri img data) Eval.MODELS tick
              results s) as (rows1 & s1 & -> & Hkeys1 & H1 & Hfiles1).
  intros Hrest. destruct (IH _ _ _ _ _ Hrest) as [H2 Hr].
  split; [now apply (extends_trans _ _ s1)|].
  pose proof H1 as (Hsrc1 & _).
  destruct r as [all|e].
  - destruct Hr as (Hread & rows2 & -> & Hkeys2 & Hfiles2). split.
    + intros n [->|Hin]%elem_of_cons; [eauto|].
      rewrite <- Hsrc1. now apply Hread.
    + exists (rows1 ++ rows2)%list. split_and!.
      * now rewrite app_assoc.
      * rewrite List.map_app. cbn [list_prod]. unfold dict_keys.
        rewrite List.map_map. exact (f_equal2 app Hkeys1 Hkeys2).
      * intros img' model [Hin|Hin]%elem_of_app; [|now apply Hfiles2].
        destruct H2 as (_ & _ & Hmono & _). now apply Hmono, Hfiles1.
  - destruct Hr as (n & Hin & Hno). exists n. split.
    + apply elem_of_cons. now right.
    + now rewrite <- Hsrc1.
Qed.

End Eval_loops.

Section Eval_main.

Context (w : world).

Lemma mkdir_run_ok (dir : string) (s s0 : Eval.fs) :
  Eval.mkdir_run dir s = (Ok tt, s0) ->
  exists files, Obs.run_dir_files s dir = Some files
                /\ Eval.runs s0 !! dir = Some (NDir files).
Proof.
  unfold Eval.mkdir_run, Obs.run_dir_files.
  destruct (Eval.runs s !! dir) as [[data|files]|] eqn:Hdir; intros [= <-].
  - now exists files.
  - exists ∅. cbn. now rewrite lookup_insert_eq.
Qed.

Lemma mkdir_run_raise (dir : string) (s s0 : Eval.fs) (e : string) :
  Eval.mkdir_run dir s = (Raise e, s0) -> Obs.run_dir_files s dir = None.
Proof.
  unfold Eval.mkdir_run, Obs.run_dir_files.
  now destruct (Eval.runs s !! dir) as [[data|files]|].
Qed.

Lemma write_log_raise (dir name : string) (content : list byte)
    (s s' : Eval.fs) (e : string) (files : gmap string entry) :
  Eval.runs s !! dir = Some (NDir files) ->
  Eval.write_log dir name content s = (Raise e, s') ->
  files !! name = Some EDir.
Proof.
  unfold Eval.write_log. intros ->.
  now destruct (files !! name) as [[|]|].
Qed.

(** The part of [main] from the creation of the run directory on. *)
Lemma eval_body_cases (ts : string) (images : list string) (s s' : Eval.fs)
    (r : result unit) :
  (_ ← Eval.mkdir_run ts;
   results ← Eval.run_images w ts 0 images [];
   Eval.write_log ts "results.txt"
     (encode_text w (Eval.render_log ts results))) s = (r, s') ->
  Obs.extends ts s s'
  /\ match r with
     | Ok _ =>
         (forall n, n ∈ images ->
            exists data, Eval.source s !! n = Some (EFile data))
         /\ (exists files, Obs.run_dir_files s ts = Some files
                           /\ files !! "results.txt" <> Some EDir)
         /\ exists results,
              Eval.run_file s' ts "results.txt"
                = Some (encode_text w (Eval.render_log ts results))
              /\ map fst results = list_prod images (dict_keys Eval.MODELS)
              /\ forall img model,
                   (img, model, Eval.success) ∈ results ->
                   is_Some (Eval.run_file s' ts
                              (Obs.eval_output_name img model))
     | Raise e =>
         ~ ((forall n, n ∈ images ->
               exists data, Eval.source s !! n = Some (EFile data))
            /\ exists files, Obs.run_dir_files s ts = Some files
                             /\ files !! "results.txt" <> Some EDir)
     end.
Proof.
  unfold mbind, io_bind at 1.
  destruct (Eval.mkdir_run ts s) as [[[]|e] s0] eqn:Hmk;
    pose proof (mkdir_run_extends _ _ _ _ Hmk) as H0.
  2: { intros [= <- <-]. split; [exact H0|].
       apply mkdir_run_raise in Hmk. intros (_ & files & Hf & _). congruence. }
  destruct (mkdir_run_ok _ _ _ Hmk) as (files0 & Hfiles0 & Hdir0).
  unfold mbind, io_bind at 1.
  destruct (Eval.run_images w ts 0 images [] s0) as [[results|e] s1] eqn:Hri;
    destruct (run_images_rows w ts images _ _ _ _ _ Hri) as [H1 Hr].
  2: { intros [= <- <-]. split; [now apply (extends_trans _ _ s0)|].
       destruct Hr as (n & Hin & Hno). intros (Hread & _). apply Hno.
       destruct H0 as (-> & _). now apply Hread. }
  destruct Hr as (Hread & rows & -> & Hkeys & Hsucc). cbn [app].
  pose proof H1 as (_ & _ & _ & Hk1).
  destruct (Hk1 _ Hdir0) as (files1 & Hdir1 & Hsub).
  intros Hwr. pose proof (write_log_extends _ _ _ _ _ _ Hwr) as H2.
  split; [apply (extends_trans _ _ s0); [exact H0|];
          now apply (extends_trans _ _ s1)|].
  destruct r as [[]|e].
  - apply write_log_ok in Hwr as (files1' & Hdir1' & Hn & ->).
    assert (files1' = files1) as -> by congruence.
    split_and!.
    + intros n Hin. destruct H0 as (<- & _). now apply Hread.
    + exists files0. split; [exact Hfiles0|]. now rewrite <- Hsub.
    + exists rows. split_and!.
      * unfold Eval.run_file. cbn. now rewrite !lookup_insert_eq.
      * exact Hkeys.
      * intros img model Hin. destruct H2 as (_ & _ & Hmono & _).
        now apply Hmono, Hsucc.
  - intros (_ & files & Hf & Hn). apply Hn.
    assert (files = files0) as -> by congruence.
    apply Hsub. exact (write_log_raise _ _ _ _ _ _ _ Hdir1 Hwr).
Qed.

End Eval_main.

(** X12. [download_image] of the evaluation harness returns [True] exactly
    when the HTTP client answers, the output path is free (the run directory
    is not a regular file and the path itself not a directory) and the
    storage accepts the file. The filesystem is then the one before with the
    bytes of the answer at the output path, replacing what was there. *)
Theorem download_true_iff (w : world) (tick : nat) (url : pyval)
    (dir name : string) (s s' : Eval.fs) :
  Eval.download_image w tick url dir name s = (Ok true, s')
  <-> exists content files,
        httpx_get w tick url = Ok content
        /\ Obs.run_dir_files s dir = Some files
        /\ files !! name <> Some EDir
        /\ disk w tick dir name = Written
        /\ s' = Eval.with_runs s
                  (<[dir := NDir (<[name := EFile content]> files)]>
                     (Eval.runs s)).
Proof.
  split.
  - intros H. apply download_image_inv in H
      as [[[=] _]|(content & files & Hget & Hfiles
                   & [([=] & _)|(Hfree & held & -> & Hheld)])].
    destruct Hheld as [(_ & Hdisk & ->)|([=] & _)].
    now exists content, files.
  - intros (content & files & Hget & Hf & Hn & Hdisk & ->).
    unfold Eval.download_image, try_except, mbind, io_bind, lift.
    rewrite Hget.
    destruct (Eval.mkdir_run dir s) as [rm s0] eqn:Hmk.
    apply mkdir_run_inv in Hmk. rewrite Hf in Hmk. destruct Hmk as [-> ->].
    destruct (Eval.write_run w tick dir name content _) as [rw s2] eqn:Hwr.
    apply write_run_inv in Hwr as [(Hd & _)|(_ & Hw)]; [congruence|].
    rewrite Hdisk in Hw. now destruct Hw as [-> ->].
Qed.

(** An instance of X12: the first download of a run. *)
Lemma download_true_iff_witness :
  Eval.download_image Examples.good_world 0 (PStr "https://r.example/out.png")
    "20261104-093005" "a_nano-banana.png" Examples.eval_fs
  = (Ok true,
     Eval.with_runs Examples.eval_fs
       (<[ "20261104-093005" :=
             NDir (<[ "a_nano-banana.png" := EFile Examples.png_bytes ]> ∅) ]>
          (Eval.runs Examples.eval_fs))).
Proof.
  apply (proj2 (download_true_iff Examples.good_world 0
                  (PStr "https://r.example/out.png") "20261104-093005"
                  "a_nano-banana.png" Examples.eval_fs _)).
  exists Examples.png_bytes, ∅.
  split_and!; [reflexivity | reflexivity | now rewrite lookup_empty
              | reflexivity | reflexivity].
Defined.

(** X13. Whatever [main] of the evaluation harness ends with, it leaves the
    source directory and the directories of the other runs as they were, and
    no regular file under the runs disappears. *)
Theorem eval_main_keeps (w : world) (s : Eval.fs) :
  let s' := (Eval.main w s).2 in
  Eval.source s' = Eval.source s
  /\ (forall d, d <> Py.strftime_Ymd_HMS (clock w 0) ->
        Eval.runs s' !! d = Eval.runs s !! d)
  /\ (forall d n, is_Some (Eval.run_file s d n) ->
        is_Some (Eval.run_file s' d n)).
Proof.
  cbn zeta.
  assert (H : Obs.extends (Py.strftime_Ymd_HMS (clock w 0)) s (Eval.main w s).2).
  { unfold Eval.main.
    destruct (Eval.check_api_key w); [|apply extends_refl].
    destruct (Eval.source_images s) as [|img rest]; [apply extends_refl|].
    match goal with
    | |- context [match ?b s with _ => _ end] =>
        destruct (b s) as [[[]|e] s1] eqn:Hb
    end; apply eval_body_cases in Hb as [Hb _]; exact Hb. }
  destruct H as (H1 & H2 & H3 & _). now split_and!.
Qed.



(** X15. When [main] of the evaluation harness runs to its end, the file
    [results.txt] of the run directory holds the log of the rows in the
    encoding of text files, the rows
    are one for each source image and each model of the registry, image by
    image in the order of the listing and model by model in the order of the
    registry, and every row marked [success] has its output file in the run
    directory. *)
Theorem eval_log_written (w : world) (s s' : Eval.fs) :
  Eval.main w s = (Returned, s') ->
  let ts := Py.strftime_Ymd_HMS (clock w 0) in
  exists results,
    Eval.run_file s' ts "results.txt"
      = Some (encode_text w (Eval.render_log ts results))
    /\ map fst results
       = list_prod (Eval.source_images s) (dict_keys Eval.MODELS)
    /\ forall img model,
         (img, model, Eval.success) ∈ results ->
         is_Some (Eval.run_file s' ts (Obs.eval_output_name img model)).
Proof.
  unfold Eval.main.
  destruct (Eval.check_api_key w) as [key|]; [|discriminate].
  destruct (Eval.source_images s) as [|img rest]; [discriminate|].
  match goal with
  | |- context [match ?b s with _ => _ end] =>
      destruct (b s) as [[[]|e] s1] eqn:Hb
  end; [|discriminate].
  intros [= <-]. apply eval_body_cases in Hb as (_ & _ & _ & Hlog).
  exact Hlog.
Qed.

(** An instance of X15: one source image, every call succeeds. *)
Lemma eval_log_written_witness :
  Eval.main Examples.good_world Examples.eval_fs = (Returned, Cases.eval_after)
  /\ exists results,
       Eval.run_file Cases.eval_after
         (Py.strftime_Ymd_HMS (clock Examples.good_world 0)) "results.txt"
         = Some (encode_text Examples.good_world
                   (Eval.render_log
                      (Py.strftime_Ymd_HMS (clock Examples.good_world 0))
                      results))
       /\ map fst results
          = list_prod (Eval.source_images Examples.eval_fs)
              (dict_keys Eval.MODELS)
       /\ forall img model,
            (img, model, Eval.success) ∈ results ->
            is_Some (Eval.run_file Cases.eval_after
                       (Py.strftime_Ymd_HMS (clock Examples.good_world 0))
                       (Obs.eval_output_name img model)).
Proof.
  assert (H : Eval.main Examples.good_world Examples.eval_fs
              = (Returned, Cases.eval_after))
    by (vm_compute; reflexivity).
  exact (conj H (eval_log_written _ _ _ H)).
Defined.

(* ===================================================================== *)
(** ** The listing of the source directory *)

Section Png_names.

Lemma length_append (a b : string) :
  String.length (a ++ b) = String.length a + String.length b.
Proof.
  induction a as [|c a IH]; [reflexivity|].
  change (S (String.length (a ++ b)) = S (String.length a + String.length b)).
  now rewrite IH.
Qed.

Lemma substring_all (a : string) : String.substring 0 (String.length a) a = a.
Proof. induction a as [|c a IH]; [reflexivity|]. cbn. now rewrite IH. Qed.

Lemma substring_after (a b : string) (k : nat) :
  String.substring (String.length a) k (a ++ b) = String.substring 0 k b.
Proof.
  induction a as [|c a IH]; [reflexivity|].
  change (String.substring (String.length a) k (a ++ b)
          = String.substring 0 k b).
  exact IH.
Qed.

Lemma substring_split (a : string) :
  forall k, k <= String.length a ->
  a = String.substring 0 k a
      ++ String.substring k (String.length a - k) a.
Proof.
  induction a as [|c a IH]; intros [|k] Hk; cbn in Hk; try lia.
  - reflexivity.
  - cbn [String.substring String.length Nat.sub].
    change (String c a = String c (String.substring 0 (String.length a) a)).
    now rewrite substring_all.
  - cbn [String.substring String.length Nat.sub].
    change (String c a
            = String c (String.substring 0 k a
                        ++ String.substring k (String.length a - k) a)).
    f_equal. apply IH. lia.
Qed.

(** The names [glob("*.png")] matches are those that end in [.png]. *)
Lemma is_png_ends (name : string) :
  Eval.is_png name = true <-> exists p, name = p ++ ".png".
Proof.
  unfold Eval.is_png. rewrite andb_true_iff, Nat.leb_le, String.eqb_eq. split.
  - intros [Hlen Hsub].
    exists (String.substring 0 (String.length name - 4) name).
    assert (H : String.length name - 4 <= String.length name) by lia.
    apply substring_split in H.
    replace (String.length name - (String.length name - 4)) with 4 in H by lia.
    now rewrite Hsub in H.
  - intros [p ->]. rewrite length_append.
    change (String.length ".png") with 4. split; [lia|].
    replace (String.length p + 4 - 4) with (String.length p) by lia.
    now rewrite substring_after.
Qed.

End Png_names.

Section Source_listing.

Lemma source_images_elem (s : Eval.fs) (name : string) :
  name ∈ Eval.source_images s
  <-> is_Some (Eval.source s !! name) /\ exists p, name = p ++ ".png".
Proof.
  unfold Eval.source_images.
  destruct (sorted_spec
              (filter (fun n => Eval.is_png n = true)
                 (map fst (map_to_list (Eval.source s)))))
    as (Hin & _).
  rewrite Hin, list_elem_of_filter, is_png_ends.
  rewrite map_is_fmap, list_elem_of_fmap. split.
  - intros [Hp ([k v] & -> & Hkv)]. split; [|exact Hp].
    apply elem_of_map_to_list in Hkv. cbn. eauto.
  - intros [[v Hv] Hp]. split; [exact Hp|]. exists (name, v).
    split; [reflexivity | now apply elem_of_map_to_list].
Qed.

Lemma check_api_key_eval_none (w : world) :
  Eval.check_api_key w = None
  <-> REPLICATE_API_KEY w = None \/ REPLICATE_API_KEY w = Some "".
Proof.
  unfold Eval.check_api_key.
  destruct (REPLICATE_API_KEY w) as [[|c k]|]; cbn; naive_solver.
Qed.

End Source_listing.

(** X16. The source images of the evaluation harness are the names of the
    source directory that end in [.png], with these very letters: each once,
    in lexicographic order, whether the name is that of a regular file or of
    a directory. *)
Theorem eval_source_listing (s : Eval.fs) :
  (forall name,
     name ∈ Eval.source_images s
     <-> is_Some (Eval.source s !! name) /\ exists p, name = p ++ ".png")
  /\ NoDup (Eval.source_images s)
  /\ Sorted String.le (Eval.source_images s).
Proof.
  split; [apply source_images_elem|].
  unfold Eval.source_images.
  destruct (sorted_spec
              (filter (fun n => Eval.is_png n = true)
                 (map fst (map_to_list (Eval.source s)))))
    as (_ & Hsorted & Hnodup & _).
  split; [|exact Hsorted].
  apply Hnodup, NoDup_filter. rewrite map_is_fmap.
  apply NoDup_fst_map_to_list.
Qed.

(** X17. [main] of the evaluation harness exits with a status in two cases
    only, both with status 1 and before anything is created: the key is not
    set or is the empty string, or no name of the source directory ends in
    [.png]. *)
Theorem eval_main_exits (w : world) (s s' : Eval.fs) (code : Z) :
  Eval.main w s = (Exit code, s')
  <-> code = 1%Z /\ s' = s
      /\ (REPLICATE_API_KEY w = None \/ REPLICATE_API_KEY w = Some ""
          \/ forall name p, name = p ++ ".png" -> Eval.source s !! name = None).
Proof.
  unfold Eval.main.
  destruct (Eval.check_api_key w) as [key|] eqn:Hkey.
  2: { apply check_api_key_eval_none in Hkey. split.
       - intros [= <- <-]. split_and!; tauto.
       - now intros (-> & -> & _). }
  assert (Hset : ~ (REPLICATE_API_KEY w = None \/ REPLICATE_API_KEY w = Some ""))
    by (rewrite <- check_api_key_eval_none; congruence).
  destruct (Eval.source_images s) as [|img rest] eqn:Himgs.
  - split; [|now intros (-> & -> & _)].
    intros [= <- <-]. split_and!; try reflexivity. right. right.
    intros name p Hp. destruct (Eval.source s !! name) eqn:Hname; [|reflexivity].
    assert (Hin : name ∈ Eval.source_images s)
      by (apply source_images_elem; eauto).
    rewrite Himgs in Hin. now apply elem_of_nil in Hin.
  - assert (Hin : img ∈ Eval.source_images s)
      by (rewrite Himgs; apply elem_of_cons; now left).
    apply source_images_elem in Hin as [[v Hv] [p Hp]].
    match goal with
    | |- context [match ?b s with _ => _ end] =>
        destruct (b s) as [[[]|e] s1]
    end; (split; [discriminate|]).
    all: intros (_ & _ & [H|[H|H]]); try tauto.
    all: rewrite (H _ _ Hp) in Hv; discriminate.
Qed.

(** An instance of X17, from right to left: the key is the empty string. *)
Lemma eval_main_exits_witness :
  Eval.main Cases.no_key_world Examples.eval_fs = (Exit 1, Examples.eval_fs).
Proof.
  apply (proj2 (eval_main_exits Cases.no_key_world Examples.eval_fs
                  Examples.eval_fs 1)).
  split_and!; [reflexivity | reflexivity | right; left; reflexivity].
Defined.

(** The listing of a source directory with a directory named as a PNG file
    and a file with the extension in capitals. *)
Example eval_source_listing_example :
  Eval.source_images
    {| Eval.source := {[ "b.png" := EFile Examples.png_bytes;
                         "a.png" := EDir;
                         "C.PNG" := EFile Examples.png_bytes;
                         "notes.txt" := EFile [] ]};
       Eval.runs := ∅ |}
  = ["a.png"; "b.png"].
Proof. vm_compute. reflexivity. Qed.

(** A move is refused when the name with the date and time is taken by a
    folder that holds a file. *)
Example move_refused :
  App.move_to_processed Examples.today "My Board" Cases.full_fs
  = (Raise "OSError: directory not empty", Cases.full_fs).
Proof. vm_compute. reflexivity. Qed.
